(** * Slot resolution and booking-conflict engine of the clinic booking app

    A shallow embedding of the TypeScript sources that derive bookable time
    slots from a doctor's schedule documents and that create and cancel
    appointments, together with the properties the specification states
    about them.

    Sources (paths under src/, line numbers of the files as they stand):
    - unnamed/part_007, 121-179: the slot booking component
      ([OptimizedSlotBooking]);
    - app/api/verify-db/route.ts, 1491-1615: the booking dialog
      ([AppointmentBooking], [fetchAvailableSlots]);
    - app/api/optimize-database/route.ts, 305-318, and
      scripts/optimize-database.js, 286-299 ([OptimizeDatabase]);
    - app/api/schedule-optimized/[doctorId]/route.ts, 16-341: the
      optimized schedule route ([ScheduleOptimizedRoute],
      [getDefaultSchedule], [checkDateInRange]);
    - the same file, 385-678: the schedule route that the booking dialog
      calls as /api/schedule/:doctorId ([ScheduleRoute]);
    - app/api/slots/optimized/route.ts, 16-183 ([SlotsOptimizedRoute]);
    - app/api/appointments/route.ts, 46-175 ([AppointmentsRoute]);
    - app/api/appointment-requests/route.ts, 5-8 and 43-152
      ([AppointmentRequestsRoute]);
    - app/api/optimize-database/route.ts, 259-303, and
      scripts/optimize-database.js, 230-284: the pre-calculation of slot
      arrays ([OptimizeDatabaseRoute], [OptimizeDatabaseScript]);
    - app/api/slots/optimized/route.ts, 250-332 ([SlotsBulkRoute]);
    - app/api/appointments/booked-slots/route.ts, 5-76
      ([AppointmentsBookedSlotsRoute]), and the same file, 231-626: the
      optimized appointments route ([OptimizedAppointmentsRoute]);
    - app/api/appointment-requests/booked-slots/route.ts, 5-53
      ([RequestsBookedSlotsRoute]);
    - unnamed/part_007, 103-118 and 182-187 ([fetchBookedSlots],
      [updateSlotAvailability]).

    Conventions of the embedding.
    - A JavaScript [Date] is its time value in milliseconds since the
      epoch, or [None] for the Invalid Date.  The host runs in UTC, so
      local time and universal time coincide (the slot generators, which
      only move within 2000-01-01, behave alike in every zone whose
      clocks do not change on that day).
    - MongoDB collections are lists of documents in natural order;
      [findOne] returns the first matching document.
    - What a handler reads from its surroundings (the clock, the random
      source, a freshly generated ObjectId) is an explicit argument.
    - A [while] loop that the source does not bound is run with fuel;
      [None] means that the loop was still running when the fuel ran out.
    - An exception caught by a handler's [try]/[catch] becomes the
      handler's 500 response. *)

From Stdlib Require Import ZArith List String Ascii Bool Lia DecimalString Sorted.
Import ListNotations.
Open Scope string_scope.
Open Scope Z_scope.

(* ================================================================== *)
(** * JavaScript values used by the sources *)
(* ================================================================== *)

(** A JavaScript number as the sources use it: an integer, or NaN (the
    result of [parseInt] on a string without digits). *)
Inductive number : Type :=
| Num (z : Z)
| NaN.

Definition js_add (a b : number) : number :=
  match a, b with
  | Num x, Num y => Num (x + y)
  | _, _ => NaN
  end.

(** [!s] for a string: only the empty string is falsy. *)
Definition falsy (s : string) : bool :=
  match s with
  | EmptyString => true
  | String _ _ => false
  end.

(** [!v] for an optional string field: [undefined], [null] and the empty
    string are falsy. *)
Definition ofalsy (v : option string) : bool :=
  match v with
  | None => true
  | Some s => falsy s
  end.

(** [a || b] on an optional string and a default. *)
Definition or_else (v : option string) (d : string) : string :=
  match v with
  | None => d
  | Some s => if falsy s then d else s
  end.

Definition digit_of (c : ascii) : option Z :=
  let n := Z.of_N (N_of_ascii c) in
  if (48 <=? n) && (n <=? 57) then Some (n - 48) else None.

Definition digit_char (n : Z) : ascii := ascii_of_N (Z.to_N (n + 48)).

Definition two_digits (n : Z) : string :=
  String (digit_char (n / 10)) (String (digit_char (n mod 10)) EmptyString).

(** Two decimal digits at the head of a string. *)
Definition take2 (s : string) : option (Z * string) :=
  match s with
  | String a (String b r) =>
      match digit_of a, digit_of b with
      | Some x, Some y => Some (10 * x + y, r)
      | _, _ => None
      end
  | _ => None
  end.

Definition expect (c : ascii) (s : string) : option string :=
  match s with
  | String a r => if Ascii.eqb a c then Some r else None
  | EmptyString => None
  end.

Definition is_space (c : ascii) : bool :=
  let n := N_of_ascii c in
  (N.eqb n 32 || (N.leb 9 n && N.leb n 13))%bool.

Fixpoint skip_spaces (s : string) : string :=
  match s with
  | String c r => if is_space c then skip_spaces r else s
  | EmptyString => s
  end.

Definition hex_digit_of (c : ascii) : option Z :=
  let n := Z.of_N (N_of_ascii c) in
  if (48 <=? n) && (n <=? 57) then Some (n - 48)
  else if (97 <=? n) && (n <=? 102) then Some (n - 87)
  else if (65 <=? n) && (n <=? 70) then Some (n - 55)
  else None.

Fixpoint digits_prefix (dig : ascii -> option Z) (radix : Z) (s : string)
    (acc : option Z) : option Z :=
  match s with
  | String c r =>
      match dig c with
      | Some d =>
          digits_prefix dig radix r
            (Some (radix * match acc with Some a => a | None => 0 end + d))
      | None => acc
      end
  | EmptyString => acc
  end.

(** [parseInt(s)]: leading white space, an optional sign, then the longest
    prefix of digits (hexadecimal after [0x]); NaN when there is none.
    Values beyond 2^53 would lose precision in JavaScript; the embedding
    keeps them exact. *)
Definition parseInt (s : string) : number :=
  let s1 := skip_spaces s in
  let '(sign, s2) :=
    match s1 with
    | String c r =>
        if Ascii.eqb c "-" then (-1, r)
        else if Ascii.eqb c "+" then (1, r)
        else (1, s1)
    | EmptyString => (1, s1)
    end in
  let digits :=
    match s2 with
    | String z (String x r) =>
        if Ascii.eqb z "0" && (Ascii.eqb x "x" || Ascii.eqb x "X")
        then digits_prefix hex_digit_of 16 r None
        else digits_prefix digit_of 10 s2 None
    | _ => digits_prefix digit_of 10 s2 None
    end in
  match digits with
  | Some n => Num (sign * n)
  | None => NaN
  end.

Module JSDate.

Definition Date := option Z.

Definition msPerMinute : Z := 60000.
Definition msPerDay : Z := 86400000.

(** ECMA-262 TimeClip: 8.64e15 ms on either side of the epoch. *)
Definition TimeClip (t : Z) : Date :=
  if Z.abs t <=? 8640000000000000 then Some t else None.

(** Days from 1970-01-01 to a date of the proleptic Gregorian
    calendar. *)
Definition days_from_civil (y m d : Z) : Z :=
  let y' := if m <=? 2 then y - 1 else y in
  let era := y' / 400 in
  let yoe := y' - era * 400 in
  let mp := if 2 <? m then m - 3 else m + 9 in
  let doy := (153 * mp + 2) / 5 + d - 1 in
  let doe := yoe * 365 + yoe / 4 - yoe / 100 + doy in
  era * 146097 + doe - 719468.

Definition is_leap (y : Z) : bool :=
  ((y mod 4 =? 0) && negb (y mod 100 =? 0)) || (y mod 400 =? 0).

Definition days_in_month (y m : Z) : Z :=
  if m =? 2 then (if is_leap y then 29 else 28)
  else if (m =? 4) || (m =? 6) || (m =? 9) || (m =? 11) then 30
  else 31.

(** [new Date(s)] for a date-only string [YYYY-MM-DD], which ECMA-262
    reads as midnight UTC.  The data model writes every appointment and
    request date in this form; the embedding gives the Invalid Date for
    every other string. *)
Definition parse (s : string) : Date :=
  match take2 s with
  | Some (c, s1) =>
    match take2 s1 with
    | Some (yy, s2) =>
      match expect "-" s2 with
      | Some s3 =>
        match take2 s3 with
        | Some (m, s4) =>
          match expect "-" s4 with
          | Some s5 =>
            match take2 s5 with
            | Some (d, EmptyString) =>
                let y := 100 * c + yy in
                if (1 <=? m) && (m <=? 12) && (1 <=? d)
                   && (d <=? days_in_month y m)
                then Some (days_from_civil y m d * msPerDay)
                else None
            | _ => None
            end
          | None => None
          end
        | None => None
        end
      | None => None
      end
    | None => None
    end
  | None => None
  end.

(** [new Date(`2000-01-01T${clock}:00`)] for a clock string [HH:MM] of
    the data model: two digits each, hours up to 23 (or 24:00), minutes
    up to 59.  946684800000 is 2000-01-01T00:00.  The embedding gives
    the Invalid Date for every other string. *)
Definition ofClock (clock : string) : Date :=
  match take2 clock with
  | Some (hh, s1) =>
    match expect ":" s1 with
    | Some s2 =>
      match take2 s2 with
      | Some (mm, EmptyString) =>
          if ((hh <=? 23) && (mm <=? 59)) || ((hh =? 24) && (mm =? 0))
          then Some (946684800000 + msPerMinute * (60 * hh + mm))
          else None
      | _ => None
      end
    | None => None
    end
  | None => None
  end.

(** [new Date(d)]: a copy. *)
Definition copy (d : Date) : Date := d.

(** [a < b] and [a <= b] on Dates: comparisons of time values, false
    when either is NaN. *)
Definition lt (a b : Date) : bool :=
  match a, b with
  | Some x, Some y => x <? y
  | _, _ => false
  end.

Definition le (a b : Date) : bool :=
  match a, b with
  | Some x, Some y => x <=? y
  | _, _ => false
  end.

Definition getMinutes (d : Date) : number :=
  match d with
  | Some t => Num ((t / msPerMinute) mod 60)
  | None => NaN
  end.

(** [d.setMinutes(m)]: the minute field is replaced, overflow carries
    into hours and days; the result is clipped. *)
Definition setMinutes (d : Date) (m : number) : Date :=
  match d, m with
  | Some t, Num v => TimeClip (t + msPerMinute * (v - (t / msPerMinute) mod 60))
  | _, _ => None
  end.

(** [d.toTimeString().slice(0, 5)]. *)
Definition toTimeString5 (d : Date) : string :=
  match d with
  | Some t =>
      let m := (t / msPerMinute) mod 1440 in
      two_digits (m / 60) ++ ":" ++ two_digits (m mod 60)
  | None => "Inval"
  end.

Definition dayName (i : Z) : string :=
  if i =? 0 then "Sunday" else if i =? 1 then "Monday"
  else if i =? 2 then "Tuesday" else if i =? 3 then "Wednesday"
  else if i =? 4 then "Thursday" else if i =? 5 then "Friday"
  else "Saturday".

(** [d.toLocaleDateString("en-US", { weekday: "long" })]; 1970-01-01 was
    a Thursday. *)
Definition weekdayLong (d : Date) : string :=
  match d with
  | Some t => dayName ((t / msPerDay + 4) mod 7)
  | None => "Invalid Date"
  end.

(** [d.toISOString().split('T')[0]] names the UTC day of a valid
    Date; the embedding keeps the day number. *)
Definition isoDay (t : Z) : Z := t / msPerDay.

End JSDate.

(* ================================================================== *)
(** * Slot generators *)
(* ================================================================== *)

Record TimeSlot : Type := mkTimeSlot {
  time : string;
  available : bool
}.

(** The loop shared by every copy of the generator:
<<
    while (current < endTime) {
      slots.push(mk(current.toTimeString().slice(0, 5)))
      current.setMinutes(current.getMinutes() + duration)
    }
    return slots
>> *)
Fixpoint slot_loop {A : Type} (mk : string -> A) (fuel : nat)
    (current endTime : JSDate.Date) (duration : number) (slots : list A)
    : option (list A) :=
  match fuel with
  | O => None
  | S fuel' =>
      if JSDate.lt current endTime
      then slot_loop mk fuel'
             (JSDate.setMinutes current
                (js_add (JSDate.getMinutes current) duration))
             endTime duration
             (slots ++ [mk (JSDate.toTimeString5 current)])
      else Some slots
  end.

Definition freeSlot (t : string) : TimeSlot := mkTimeSlot t true.

Module OptimizeDatabase.

(** [generateTimeSlots] of the optimize-database route (and of the
    script of the same name): no guard, plain strings. *)
Definition generateTimeSlots (fuel : nat) (startTime endTime : string)
    (durationMinutes : number) : option (list string) :=
  let start := JSDate.ofClock startTime in
  let end_ := JSDate.ofClock endTime in
  let current := JSDate.copy start in
  slot_loop (fun t => t) fuel current end_ durationMinutes [].

End OptimizeDatabase.

(* ================================================================== *)
(** * Schedule documents *)
(* ================================================================== *)

(** An ObjectId is kept as its 24 hexadecimal digits in lower case. *)
Definition ObjectId := string.

(** One entry of a schedule document's [days] array.  Optional fields are
    [None] when the document lacks them (or holds [null]); [date] is the
    calendar day of a date-specific entry. *)
Record DaySchedule : Type := mkDay {
  dayOfWeek : string;
  isOffDay : bool;
  morningStart : option string;
  morningEnd : option string;
  eveningStart : option string;
  eveningEnd : option string;
  morningSlots : option (list string);
  eveningSlots : option (list string);
  slotduration : option string;
  date : JSDate.Date
}.

(** An entry of [dateRanges]. *)
Record DateRange : Type := mkRange {
  startDate : string;
  endDate : string;
  rangeDays : list DaySchedule
}.

(** A document of the [doctor_schedules] collection.  [weekStart] and
    [weekEnd] are BSON dates when present. *)
Record ScheduleDoc : Type := mkSchedule {
  sched_id : ObjectId;
  doctorId : ObjectId;
  weekStart : option Z;
  weekEnd : option Z;
  days : list DaySchedule;
  dateRanges : option (list DateRange);
  allowOutsideRange : option bool
}.

(** The state the booking components keep about slots. *)
Record SlotState : Type := mkSlotState {
  morning : list TimeSlot;
  evening : list TimeSlot
}.

Definition bind {A B : Type} (x : option A) (f : A -> option B) : option B :=
  match x with
  | Some a => f a
  | None => None
  end.

Notation "x <- e ;; k" := (bind e (fun x => k))
  (at level 61, e at next level, right associativity).

Module OptimizedSlotBooking.

(** [generateTimeSlots] of the slot booking component. *)
Definition generateTimeSlots (fuel : nat) (start end_ : string)
    (duration : number) : option (list TimeSlot) :=
  if falsy start || falsy end_ then Some []
  else
    let startTime := JSDate.ofClock start in
    let endTime := JSDate.ofClock end_ in
    let current := JSDate.copy startTime in
    slot_loop freeSlot fuel current endTime duration [].

(** One session of [processScheduleSlots]: the pre-calculated array when
    there is one, generated slots when both bounds are set, nothing
    otherwise. *)
Definition sessionSlots (fuel : nat) (pre : option (list string))
    (start end_ : option string) (slotduration : option string)
    : option (list TimeSlot) :=
  match pre with
  | Some l => Some (map freeSlot l)
  | None =>
      match start, end_ with
      | Some s, Some e =>
          if negb (falsy s) && negb (falsy e)
          then
            let duration := parseInt (or_else slotduration "30") in
            generateTimeSlots fuel s e duration
          else Some []
      | _, _ => Some []
      end
  end.

(** [processScheduleSlots]; the result is the pair that
    [setMorningSlots] and [setEveningSlots] store. *)
Definition processScheduleSlots (fuel : nat)
    (scheduleData : option DaySchedule) : option SlotState :=
  match scheduleData with
  | None => Some (mkSlotState [] [])
  | Some sd =>
      if isOffDay sd then Some (mkSlotState [] [])
      else
        m <- sessionSlots fuel (morningSlots sd) (morningStart sd)
               (morningEnd sd) (slotduration sd) ;;
        e <- sessionSlots fuel (eveningSlots sd) (eveningStart sd)
               (eveningEnd sd) (slotduration sd) ;;
        Some (mkSlotState m e)
  end.

End OptimizedSlotBooking.

(** The body of a successful answer of the schedule routes: the fields of
    the schedule document that was found (spread into the answer) and the
    fields the route adds. *)
Record ScheduleAnswer : Type := mkAnswer {
  source : option ScheduleDoc;
  ansDays : list DaySchedule;
  selectedDay : option DaySchedule;
  currentDateRange : option DateRange;
  scheduleType : string;
  isWithinRange : option bool;
  ansDayOfWeek : option string
}.

Fixpoint findDay (name : string) (l : list DaySchedule) : option DaySchedule :=
  match l with
  | [] => None
  | d :: r => if String.eqb (dayOfWeek d) name then Some d else findDay name r
  end.

Module AppointmentBooking.

(** [generateSlots] of the booking dialog: the same loop, run on
    [startTime] itself. *)
Definition generateSlots (fuel : nat) (start end_ : string)
    (duration : number) : option (list TimeSlot) :=
  if falsy start || falsy end_ then Some []
  else
    let startTime := JSDate.ofClock start in
    let endTime := JSDate.ofClock end_ in
    slot_loop freeSlot fuel startTime endTime duration [].

Definition sessionSlots (fuel : nat) (pre : option (list string))
    (start end_ : option string) (slotduration : option string)
    : option (list TimeSlot) :=
  match pre with
  | Some l => Some (map freeSlot l)
  | None =>
      match start, end_ with
      | Some s, Some e =>
          if negb (falsy s) && negb (falsy e)
          then
            let slotDuration := parseInt (or_else slotduration "30") in
            generateSlots fuel s e slotDuration
          else Some []
      | _, _ => Some []
      end
  end.

Definition generateSlotsForDay (fuel : nat) (daySchedule : DaySchedule)
    : option SlotState :=
  m <- sessionSlots fuel (morningSlots daySchedule)
         (morningStart daySchedule) (morningEnd daySchedule)
         (slotduration daySchedule) ;;
  e <- sessionSlots fuel (eveningSlots daySchedule)
         (eveningStart daySchedule) (eveningEnd daySchedule)
         (slotduration daySchedule) ;;
  Some (mkSlotState m e).

(** [generateTimeSlots(scheduleData)] of the booking dialog, as a
    function of the selected date and of the slots shown before. *)
Definition generateTimeSlots (fuel : nat) (selectedDate : string)
    (scheduleData : ScheduleAnswer) (before : SlotState)
    : option SlotState :=
  if falsy selectedDate then Some before
  else
    let dayOfWeek := JSDate.weekdayLong (JSDate.parse selectedDate) in
    let standard :=
      match findDay dayOfWeek (ansDays scheduleData) with
      | None => Some (mkSlotState [] [])
      | Some daySchedule =>
          if isOffDay daySchedule then Some (mkSlotState [] [])
          else generateSlotsForDay fuel daySchedule
      end in
    match currentDateRange scheduleData with
    | Some dateRangeSchedule =>
        match findDay dayOfWeek (rangeDays dateRangeSchedule) with
        | Some daySchedule => generateSlotsForDay fuel daySchedule
        | None => standard
        end
    | None => standard
    end.

End AppointmentBooking.

(* ================================================================== *)
(** * Schedule resolution routes *)
(* ================================================================== *)

(** What a route handler answers: a JSON body with status 200, or an
    error body with its status code. *)
Inductive Response (A : Type) : Type :=
| Json (body : A)
| Error (status : Z) (error : string).
Arguments Json {A} body.
Arguments Error {A} status error.

Definition is_hex (c : ascii) : bool :=
  match hex_digit_of c with
  | Some _ => true
  | None => false
  end.

Fixpoint all_hex (s : string) : bool :=
  match s with
  | String c r => is_hex c && all_hex r
  | EmptyString => true
  end.

(** [/^[0-9a-fA-F]{24}$/.test(s)] *)
Definition hex24 (s : string) : bool :=
  (Nat.eqb (String.length s) 24 && all_hex s)%bool.

Definition lower (c : ascii) : ascii :=
  let n := N_of_ascii c in
  if (N.leb 65 n && N.leb n 90)%bool then ascii_of_N (n + 32) else c.

Fixpoint lowercase (s : string) : string :=
  match s with
  | String c r => String (lower c) (lowercase r)
  | EmptyString => EmptyString
  end.

(** [new ObjectId(s)]: the twelve bytes that 24 hexadecimal digits name;
    [None] when the constructor throws.  Identifiers of the data model are
    24 hexadecimal digits; the other encodings that the driver accepts
    are left out. *)
Definition ObjectId_of (s : string) : option ObjectId :=
  if hex24 s then Some (lowercase s) else None.

(** The driver writes a Date of a query as its time value, and the
    Invalid Date as 0. *)
Definition bsonDate (d : JSDate.Date) : Z :=
  match d with
  | Some t => t
  | None => 0
  end.

(** Query conditions on schedule documents. *)
Definition ofDoctor (oid : ObjectId) (s : ScheduleDoc) : bool :=
  String.eqb (doctorId s) oid.

(** [weekStart: { $lte: d }, weekEnd: { $gte: d }] *)
Definition coversDate (d : Z) (s : ScheduleDoc) : bool :=
  match weekStart s, weekEnd s with
  | Some ws, Some we => (ws <=? d) && (d <=? we)
  | _, _ => false
  end.

(** [weekStart: { $exists: false }, weekEnd: { $exists: false }] *)
Definition noWeekBounds (s : ScheduleDoc) : bool :=
  match weekStart s, weekEnd s with
  | None, None => true
  | _, _ => false
  end.

(** ["days.dayOfWeek": name] *)
Definition hasDay (name : string) (s : ScheduleDoc) : bool :=
  match findDay name (days s) with
  | Some _ => true
  | None => false
  end.

Definition findOne {A : Type} (q : A -> bool) (coll : list A) : option A :=
  List.find q coll.

(** [checkDateInRange] *)
Definition checkDateInRange (date : JSDate.Date) (weekStart weekEnd : option Z)
    : bool :=
  match weekStart, weekEnd with
  | Some ws, Some we => JSDate.le (Some ws) date && JSDate.le date (Some we)
  | _, _ => true
  end.

Definition weekdays : list string :=
  ["Monday"; "Tuesday"; "Wednesday"; "Thursday"; "Friday"; "Saturday";
   "Sunday"].

(** [getDefaultSchedule] *)
Definition getDefaultSchedule : list DaySchedule :=
  map (fun dayOfWeek =>
         let sunday := String.eqb dayOfWeek "Sunday" in
         {| dayOfWeek := dayOfWeek;
            isOffDay := sunday;
            morningStart := if sunday then None else Some "09:00";
            morningEnd := if sunday then None else Some "12:00";
            eveningStart := if sunday then None else Some "14:00";
            eveningEnd := if sunday then None else Some "18:00";
            morningSlots := None;
            eveningSlots := None;
            slotduration := Some "30";
            date := None |})
      weekdays.

Definition answer (s : ScheduleDoc) (type : string) : ScheduleAnswer :=
  {| source := Some s; ansDays := days s; selectedDay := None;
     currentDateRange := None; scheduleType := type;
     isWithinRange := None; ansDayOfWeek := None |}.

(** The schedule route, [GET /api/schedule/:doctorId?date=]
    (schedule-optimized/[doctorId]/route.ts, 385-678). *)
Module ScheduleRoute.

Definition workingDay (name : string) : DaySchedule :=
  {| dayOfWeek := name; isOffDay := false;
     morningStart := Some "08:00"; morningEnd := Some "11:00";
     eveningStart := Some "16:00"; eveningEnd := Some "21:00";
     morningSlots := None; eveningSlots := None;
     slotduration := Some "30"; date := None |}.

(** The default written out in the handler. *)
Definition defaultDays : list DaySchedule :=
  [ workingDay "Monday"; workingDay "Tuesday"; workingDay "Wednesday";
    workingDay "Thursday"; workingDay "Friday"; workingDay "Saturday";
    {| dayOfWeek := "Sunday"; isOffDay := true;
       morningStart := None; morningEnd := None;
       eveningStart := None; eveningEnd := None;
       morningSlots := None; eveningSlots := None;
       slotduration := Some "30"; date := None |} ].

(** The week-specific branch, once a covering document was found. *)
Definition weekSpecific (schedule : ScheduleDoc) (requestedDate : Z)
    : ScheduleAnswer :=
  let dateSpecific :=
    match days schedule with
    | first :: _ =>
        match date first with
        | Some _ =>
            List.find
              (fun day =>
                 match date day with
                 | Some t => JSDate.isoDay t =? JSDate.isoDay requestedDate
                 | None => false
                 end)
              (days schedule)
        | None => None
        end
    | [] => None
    end in
  match dateSpecific with
  | Some specificDay =>
      {| source := Some schedule; ansDays := days schedule;
         selectedDay := Some specificDay; currentDateRange := None;
         scheduleType := "date-specific"; isWithinRange := Some true;
         ansDayOfWeek := Some (dayOfWeek specificDay) |}
  | None =>
      {| source := Some schedule; ansDays := days schedule;
         selectedDay := None; currentDateRange := None;
         scheduleType := "week-specific"; isWithinRange := Some true;
         ansDayOfWeek := Some (JSDate.weekdayLong (Some requestedDate)) |}
  end.

(** The general branch, once a document without week bounds was
    found. *)
Definition general (schedule : ScheduleDoc) (date : option string)
    : ScheduleAnswer :=
  match date with
  | Some d =>
      if falsy d then answer schedule "general"
      else
        let requestedDate := JSDate.parse d in
        let dayOfWeek := JSDate.weekdayLong requestedDate in
        match dateRanges schedule with
        | Some ranges =>
            let applicableRange :=
              List.find
                (fun range =>
                   JSDate.le (JSDate.parse (startDate range)) requestedDate
                   && JSDate.le requestedDate (JSDate.parse (endDate range)))
                ranges in
            match applicableRange with
            | Some range =>
                {| source := Some schedule; ansDays := days schedule;
                   selectedDay := None; currentDateRange := Some range;
                   scheduleType := "date-range-specific";
                   isWithinRange := Some true;
                   ansDayOfWeek := Some dayOfWeek |}
            | None =>
                match allowOutsideRange schedule with
                | Some false =>
                    {| source := None; ansDays := [];
                       selectedDay := None; currentDateRange := None;
                       scheduleType := "none";
                       isWithinRange := Some false;
                       ansDayOfWeek := Some dayOfWeek |}
                | _ =>
                    {| source := Some schedule; ansDays := days schedule;
                       selectedDay := None; currentDateRange := None;
                       scheduleType := "general";
                       isWithinRange := Some false;
                       ansDayOfWeek := Some dayOfWeek |}
                end
            end
        | None =>
            {| source := Some schedule; ansDays := days schedule;
               selectedDay := None; currentDateRange := None;
               scheduleType := "general"; isWithinRange := Some true;
               ansDayOfWeek := Some dayOfWeek |}
        end
  | None => answer schedule "general"
  end.

(** Everything after the week-specific attempt. *)
Definition afterWeekSpecific (doctor_schedules : list ScheduleDoc)
    (oid : ObjectId) (date : option string) : Response ScheduleAnswer :=
  match findOne (fun s => ofDoctor oid s && noWeekBounds s)
          doctor_schedules with
  | Some schedule => Json (general schedule date)
  | None =>
      match findOne (ofDoctor oid) doctor_schedules with
      | Some schedule =>
          Json (answer schedule
                  (match weekStart schedule with
                   | Some _ => "week-specific-fallback"
                   | None => "general-fallback"
                   end))
      | None =>
          Json {| source := None; ansDays := defaultDays;
                  selectedDay := None; currentDateRange := None;
                  scheduleType := "default"; isWithinRange := Some true;
                  ansDayOfWeek := None |}
      end
  end.

Definition GET (doctor_schedules : list ScheduleDoc) (doctorId : string)
    (date : option string) : Response ScheduleAnswer :=
  match ObjectId_of doctorId with
  | None => Error 400 "Invalid doctor ID format"
  | Some oid =>
      if ofalsy date then afterWeekSpecific doctor_schedules oid date
      else
        match JSDate.parse (or_else date "") with
        | None =>
            (* [requestedDate.toISOString()] throws *)
            Error 500 "Failed to fetch schedule"
        | Some requestedDate =>
            match findOne (fun s => ofDoctor oid s
                                    && coversDate requestedDate s)
                    doctor_schedules with
            | Some schedule => Json (weekSpecific schedule requestedDate)
            | None => afterWeekSpecific doctor_schedules oid date
            end
        end
  end.

End ScheduleRoute.

(** [days: { $elemMatch: { dayOfWeek: name } }] and ["days.$": 1]: the
    first matching entry, as the only element of [days]. *)
Definition projectDay (name : string) (s : ScheduleDoc) : list DaySchedule :=
  match findDay name (days s) with
  | Some d => [d]
  | None => []
  end.

(** The optimized schedule route,
    [GET /api/schedule-optimized/:doctorId?date=&dayOfWeek=]
    (schedule-optimized/[doctorId]/route.ts, 16-254).  The indexes named by
    its query hints are the ones [ensureOptimizedIndexes] has created. *)
Module ScheduleOptimizedRoute.

Definition dayAnswer (s : ScheduleDoc) (day : DaySchedule) (type : string)
    (within : option bool) (dow : string) : ScheduleAnswer :=
  {| source := Some s; ansDays := [day]; selectedDay := Some day;
     currentDateRange := None; scheduleType := type;
     isWithinRange := within; ansDayOfWeek := Some dow |}.

Definition fullAnswer (s : ScheduleDoc) (type : string)
    (within : option bool) (dow : option string) : ScheduleAnswer :=
  {| source := Some s; ansDays := days s; selectedDay := None;
     currentDateRange := None; scheduleType := type;
     isWithinRange := within; ansDayOfWeek := dow |}.

(** Strategies 4 to 6 and the default. *)
Definition fullStrategies (doctor_schedules : list ScheduleDoc)
    (oid : ObjectId) (date : option string) (dow : option string)
    : ScheduleAnswer :=
  let requestedDate := bsonDate (JSDate.parse (or_else date "")) in
  let s4 :=
    if ofalsy date then None
    else findOne (fun s => ofDoctor oid s && coversDate requestedDate s)
           doctor_schedules in
  match s4 with
  | Some schedule =>
      fullAnswer schedule "week-specific-full" (Some true) dow
  | None =>
      match findOne (fun s => ofDoctor oid s && noWeekBounds s)
              doctor_schedules with
      | Some schedule => fullAnswer schedule "general-full" None dow
      | None =>
          match findOne (ofDoctor oid) doctor_schedules with
          | Some schedule =>
              fullAnswer schedule "any-available"
                (if ofalsy date then None
                 else Some (checkDateInRange
                              (JSDate.parse (or_else date ""))
                              (weekStart schedule) (weekEnd schedule)))
                dow
          | None =>
              {| source := None; ansDays := getDefaultSchedule;
                 selectedDay := None; currentDateRange := None;
                 scheduleType := "default"; isWithinRange := None;
                 ansDayOfWeek := None |}
          end
      end
  end.

(** Strategies 1 to 3, which ask for the day. *)
Definition dayStrategies (doctor_schedules : list ScheduleDoc)
    (oid : ObjectId) (date : option string) (dow : string)
    : option ScheduleAnswer :=
  let requestedDate := bsonDate (JSDate.parse (or_else date "")) in
  let s1 :=
    if ofalsy date then None
    else findOne (fun s => ofDoctor oid s && coversDate requestedDate s
                           && hasDay dow s) doctor_schedules in
  match s1 with
  | Some schedule =>
      match projectDay dow schedule with
      | day :: _ =>
          Some (dayAnswer schedule day "week-specific-optimized"
                  (Some true) dow)
      | [] => None
      end
  | None =>
      match findOne (fun s => ofDoctor oid s && noWeekBounds s
                              && hasDay dow s) doctor_schedules with
      | Some schedule =>
          match projectDay dow schedule with
          | day :: _ =>
              Some (dayAnswer schedule day "general-optimized" None dow)
          | [] => None
          end
      | None =>
          match findOne (fun s => ofDoctor oid s && hasDay dow s)
                  doctor_schedules with
          | Some schedule =>
              match projectDay dow schedule with
              | day :: _ =>
                  Some (dayAnswer schedule day
                          (match weekStart schedule with
                           | Some _ => "week-specific-fallback"
                           | None => "general-fallback"
                           end)
                          (Some (if ofalsy date then true
                                 else checkDateInRange
                                        (JSDate.parse (or_else date ""))
                                        (weekStart schedule)
                                        (weekEnd schedule)))
                          dow)
              | [] => None
              end
          | None => None
          end
      end
  end.

Definition GET (doctor_schedules : list ScheduleDoc) (doctorId : string)
    (date dayOfWeek : option string) : Response ScheduleAnswer :=
  match ObjectId_of doctorId with
  | None => Error 400 "Invalid doctor ID format"
  | Some doctorObjectId =>
      let dayOfWeekToSearch :=
        if negb (ofalsy date) && ofalsy dayOfWeek
        then Some (JSDate.weekdayLong (JSDate.parse (or_else date "")))
        else dayOfWeek in
      let byDay :=
        if ofalsy dayOfWeekToSearch then None
        else dayStrategies doctor_schedules doctorObjectId date
               (or_else dayOfWeekToSearch "") in
      match byDay with
      | Some a => Json a
      | None =>
          Json (fullStrategies doctor_schedules doctorObjectId date
                  dayOfWeekToSearch)
      end
  end.

End ScheduleOptimizedRoute.

(** The slot loading route,
    [GET /api/slots/optimized?doctorId=&date=&dayOfWeek=]. *)
Module SlotsOptimizedRoute.

(** [schedule] of the answer is one day entry, or, in the last resort,
    the whole [days] array. *)
Inductive Payload : Type :=
| OneDay (d : DaySchedule)
| FullWeek (l : list DaySchedule).

Record SlotsAnswer : Type := mkSlotsAnswer {
  schedule : Payload;
  queryType : string;
  optimized : bool;
  from : ScheduleDoc
}.

Definition dayFrom (q : ScheduleDoc -> bool) (name : string)
    (doctor_schedules : list ScheduleDoc) (type : string)
    : option SlotsAnswer :=
  match findOne q doctor_schedules with
  | Some s =>
      match projectDay name s with
      | day :: _ => Some (mkSlotsAnswer (OneDay day) type true s)
      | [] => None
      end
  | None => None
  end.

Definition orTry {A : Type} (a b : option A) : option A :=
  match a with
  | Some _ => a
  | None => b
  end.

Definition GET (doctor_schedules : list ScheduleDoc)
    (doctorId date dayOfWeek : option string) : Response SlotsAnswer :=
  if ofalsy doctorId then Error 400 "Doctor ID is required"
  else
    match ObjectId_of (or_else doctorId "") with
    | None => Error 400 "Invalid doctor ID format"
    | Some oid =>
        let requestedDate := JSDate.parse (or_else date "") in
        let calculatedDayOfWeek := JSDate.weekdayLong requestedDate in
        let strategy1 :=
          if ofalsy date then None
          else dayFrom (fun s => ofDoctor oid s
                                 && coversDate (bsonDate requestedDate) s)
                 calculatedDayOfWeek doctor_schedules "week-specific" in
        let strategy2 :=
          if ofalsy date then None
          else dayFrom (fun s => ofDoctor oid s && noWeekBounds s
                                 && hasDay calculatedDayOfWeek s)
                 calculatedDayOfWeek doctor_schedules
                 "general-specific-day" in
        let strategy3 :=
          if ofalsy dayOfWeek then None
          else dayFrom (fun s => ofDoctor oid s
                                 && hasDay (or_else dayOfWeek "") s)
                 (or_else dayOfWeek "") doctor_schedules
                 "direct-day-lookup" in
        match orTry strategy1 (orTry strategy2 strategy3) with
        | Some a => Json a
        | None =>
            match findOne (ofDoctor oid) doctor_schedules with
            | Some s =>
                let targetDay :=
                  if ofalsy dayOfWeek
                  then (if ofalsy date then None
                        else Some calculatedDayOfWeek)
                  else dayOfWeek in
                let daySchedule :=
                  if ofalsy targetDay then None
                  else findDay (or_else targetDay "") (days s) in
                match daySchedule with
                | Some d =>
                    Json (mkSlotsAnswer (OneDay d)
                            "fallback-full-schedule" false s)
                | None =>
                    Json (mkSlotsAnswer (FullWeek (days s))
                            "full-week-schedule" false s)
                end
            | None => Error 404 "No schedule found"
            end
        end
    end.

(** What the slot booking component shows for an answer: a day entry
    goes through [processScheduleSlots]; an array has none of the fields
    the function reads, and an error leaves the lists empty. *)
Definition shownSlots (fuel : nat) (r : Response SlotsAnswer)
    : option SlotState :=
  match r with
  | Json a =>
      match schedule a with
      | OneDay d => OptimizedSlotBooking.processScheduleSlots fuel (Some d)
      | FullWeek _ => Some (mkSlotState [] [])
      end
  | Error _ _ => Some (mkSlotState [] [])
  end.

End SlotsOptimizedRoute.

(* ================================================================== *)
(** * Appointments *)
(* ================================================================== *)

Inductive Status : Type :=
| pending
| confirmed
| cancelled
| completed
| rejected.

(** [status: { $in: ["confirmed", "pending"] }] *)
Definition active (s : Status) : bool :=
  match s with
  | confirmed | pending => true
  | _ => false
  end.

Definition Status_eqb (a b : Status) : bool :=
  match a, b with
  | pending, pending | confirmed, confirmed | cancelled, cancelled
  | completed, completed | rejected, rejected => true
  | _, _ => false
  end.

Module Appointment.

(** A document of the [appointments] collection (and of [_appointment],
    which holds requests of the same shape). *)
Record t : Type := mk {
  _id : ObjectId;
  appointmentKey : string;
  doctorId : ObjectId;
  patientId : ObjectId;
  date : string;
  time : string;
  sessionStartTime : string;
  status : Status;
  doctorName : string;
  patientName : string;
  Adrees : string;
  createdAt : Z;
  updatedAt : Z
}.

End Appointment.

Record Patient : Type := mkPatient {
  patient_id : ObjectId;
  name : option string
}.

(** The database: the collections the booking handlers touch.
    [appointmentKey_idx] tells whether the unique sparse index on
    [appointmentKey], which the optimization code creates on
    [appointments], is in place. *)
Record Db : Type := mkDb {
  appointments : list Appointment.t;
  appointment_requests : list Appointment.t;
  patients : list Patient;
  appointmentKey_idx : bool
}.

(** What a handler takes from its surroundings: the ObjectId that
    [new ObjectId()] generates, the value of
    [Math.floor(100000 + Math.random() * 900000)], and the clock. *)
Record Env : Type := mkEnv {
  newObjectId : ObjectId;
  randomKey : Z;
  now : Z
}.

Definition decimal (z : Z) : string :=
  NilEmpty.string_of_int (Z.to_int z).

(** [{ doctorId: oid, date, time, status: { $in: [...] } }] *)
Definition holdsSlot (oid : ObjectId) (date time : string)
    (a : Appointment.t) : bool :=
  String.eqb (Appointment.doctorId a) oid
  && String.eqb (Appointment.date a) date
  && String.eqb (Appointment.time a) time
  && active (Appointment.status a).

(** [{ doctorId: oid, date, time, status: "pending" }] *)
Definition pendingRequest (oid : ObjectId) (date time : string)
    (a : Appointment.t) : bool :=
  String.eqb (Appointment.doctorId a) oid
  && String.eqb (Appointment.date a) date
  && String.eqb (Appointment.time a) time
  && Status_eqb (Appointment.status a) pending.

(** [insertOne]: the document goes to the end of the collection; the
    write fails (the driver throws) on a duplicate [_id], and on a
    duplicate key of a unique index. *)
Definition insertOne (uniqueKey : bool) (doc : Appointment.t)
    (coll : list Appointment.t) : option (list Appointment.t) :=
  if existsb (fun a => String.eqb (Appointment._id a) (Appointment._id doc))
       coll
     || (uniqueKey
         && existsb (fun a => String.eqb (Appointment.appointmentKey a)
                                (Appointment.appointmentKey doc)) coll)
  then None
  else Some (coll ++ [doc])%list.

(** The body of a booking request. *)
Record BookingRequest : Type := mkBooking {
  req_doctorId : option string;
  req_patientId : option string;
  req_date : option string;
  req_time : option string;
  req_doctorName : option string;
  req_patientName : option string;
  req_doctorAddress : option string;
  req_appointmentKey : option string;
  autoConfirm : bool
}.

Definition requiredMissing (r : BookingRequest) : bool :=
  ofalsy (req_doctorId r) || ofalsy (req_patientId r)
  || ofalsy (req_date r) || ofalsy (req_time r).

(** [finalPatientName]: the name of the request, or the one of the patient
    document, or "Unknown Patient".  [None] when [new ObjectId(patientId)]
    throws. *)
Definition finalPatientName (db : Db) (r : BookingRequest) : option string :=
  if ofalsy (req_patientName r)
  then
    pid <- ObjectId_of (or_else (req_patientId r) "") ;;
    Some (match findOne (fun p => String.eqb (patient_id p) pid)
                  (patients db) with
          | Some patient => or_else (name patient) "Unknown Patient"
          | None => "Unknown Patient"
          end)
  else Some (or_else (req_patientName r) "").

(** The appointment document the handlers build. *)
Definition newAppointment (env : Env) (r : BookingRequest)
    (key patientName : string) : option Appointment.t :=
  did <- ObjectId_of (or_else (req_doctorId r) "") ;;
  pid <- ObjectId_of (or_else (req_patientId r) "") ;;
  Some {| Appointment._id := newObjectId env;
          Appointment.appointmentKey := key;
          Appointment.doctorId := did;
          Appointment.patientId := pid;
          Appointment.date := or_else (req_date r) "";
          Appointment.time := or_else (req_time r) "";
          Appointment.sessionStartTime := or_else (req_time r) "";
          Appointment.status := pending;
          Appointment.doctorName := or_else (req_doctorName r) "Unknown Doctor";
          Appointment.patientName := patientName;
          Appointment.Adrees := or_else (req_doctorAddress r) "";
          Appointment.createdAt := now env;
          Appointment.updatedAt := now env |}.

(** The kinds of success a booking handler reports. *)
Inductive Booked : Type :=
| AppointmentSaved (appointment : Appointment.t)
| RequestCreated (appointmentRequest : Appointment.t).

(** The appointments route, [/api/appointments]
    (appointments/route.ts: [PUT] 46-106, [POST] 108-175). *)
Module AppointmentsRoute.

(** The end of [POST]: the document is built and inserted. *)
Definition store (db : Db) (env : Env) (r : BookingRequest)
    (patientName : string) : Response Booked * Db :=
  let finalAppointmentKey :=
    or_else (req_appointmentKey r) (decimal (randomKey env)) in
  match
    (appointment <- newAppointment env r finalAppointmentKey patientName ;;
     coll <- insertOne (appointmentKey_idx db) appointment
               (appointments db) ;;
     Some (appointment, coll))
  with
  | Some (appointment, coll) =>
      (Json (AppointmentSaved appointment),
       {| appointments := coll;
          appointment_requests := appointment_requests db;
          patients := patients db;
          appointmentKey_idx := appointmentKey_idx db |})
  | None => (Error 500 "Failed to create appointment", db)
  end.

(** What follows the conflict check of [POST]. *)
Definition create (db : Db) (env : Env) (r : BookingRequest)
    : Response Booked * Db :=
  match finalPatientName db r with
  | Some patientName => store db env r patientName
  | None => (Error 500 "Failed to create appointment", db)
  end.

Definition POST (db : Db) (env : Env) (r : BookingRequest)
    : Response Booked * Db :=
  if requiredMissing r then (Error 400 "Missing required fields", db)
  else
    match ObjectId_of (or_else (req_doctorId r) "") with
    | None => (Error 500 "Failed to create appointment", db)
    | Some did =>
        match findOne (holdsSlot did (or_else (req_date r) "")
                         (or_else (req_time r) ""))
                (appointments db) with
        | Some existingAppointment =>
            (Error 400 "Time slot already booked", db)
        | None => create db env r
        end
    end.

(** The body of an update request. *)
Record UpdateRequest : Type := mkUpdate {
  appointmentId : option string;
  newStatus : option string;
  upd_patientId : option string
}.

(** [{ $set: { status: "cancelled", updatedAt: at_ } }] on one
    document. *)
Definition setCancelled (a : Appointment.t) (at_ : Z) : Appointment.t :=
  {| Appointment._id := Appointment._id a;
     Appointment.appointmentKey := Appointment.appointmentKey a;
     Appointment.doctorId := Appointment.doctorId a;
     Appointment.patientId := Appointment.patientId a;
     Appointment.date := Appointment.date a;
     Appointment.time := Appointment.time a;
     Appointment.sessionStartTime := Appointment.sessionStartTime a;
     Appointment.status := cancelled;
     Appointment.doctorName := Appointment.doctorName a;
     Appointment.patientName := Appointment.patientName a;
     Appointment.Adrees := Appointment.Adrees a;
     Appointment.createdAt := Appointment.createdAt a;
     Appointment.updatedAt := at_ |}.

(** [updateOne({ _id: id }, { $set: { status: "cancelled", updatedAt } })]:
    the first document with that [_id] is rewritten; the result is the
    collection and [modifiedCount], which counts a document only when
    the update changed it. *)
Fixpoint cancelOne (id : ObjectId) (at_ : Z) (coll : list Appointment.t)
    : list Appointment.t * Z :=
  match coll with
  | [] => ([], 0)
  | a :: rest =>
      if String.eqb (Appointment._id a) id
      then
        (setCancelled a at_ :: rest,
         if Status_eqb (Appointment.status a) cancelled
            && (Appointment.updatedAt a =? at_)
         then 0 else 1)
      else
        let '(rest', n) := cancelOne id at_ rest in (a :: rest', n)
  end.

Definition PUT (db : Db) (env : Env) (r : UpdateRequest)
    : Response unit * Db :=
  if ofalsy (appointmentId r) || ofalsy (newStatus r)
     || ofalsy (upd_patientId r)
  then (Error 400 "Missing required fields", db)
  else if negb (String.eqb (or_else (newStatus r) "") "cancelled")
  then (Error 403 "Patients can only cancel appointments", db)
  else
    match ObjectId_of (or_else (appointmentId r) ""),
          ObjectId_of (or_else (upd_patientId r) "") with
    | Some aid, Some pid =>
        match findOne (fun a => String.eqb (Appointment._id a) aid
                                && String.eqb (Appointment.patientId a) pid)
                (appointments db) with
        | None => (Error 404 "Appointment not found or unauthorized", db)
        | Some appointment =>
            if Status_eqb (Appointment.status appointment) cancelled
            then (Error 400 "Appointment is already cancelled", db)
            else
              let '(coll, modifiedCount) :=
                cancelOne aid (now env) (appointments db) in
              let db' :=
                {| appointments := coll;
                   appointment_requests := appointment_requests db;
                   patients := patients db;
                   appointmentKey_idx := appointmentKey_idx db |} in
              if modifiedCount =? 0
              then (Error 500 "Failed to cancel appointment", db')
              else (Json tt, db')
        end
    | _, _ => (Error 400 "Invalid ID format", db)
    end.

End AppointmentsRoute.

(** The appointment request route, [/api/appointment-requests]
    (appointment-requests/route.ts: [POST] 43-152). *)
Module AppointmentRequestsRoute.

Definition generateAppointmentKey (env : Env) : string :=
  decimal (randomKey env).

Definition POST (db : Db) (env : Env) (r : BookingRequest)
    : Response Booked * Db :=
  if requiredMissing r then (Error 400 "Missing required fields", db)
  else
    match ObjectId_of (or_else (req_doctorId r) "") with
    | None => (Error 500 "Failed to create appointment request", db)
    | Some did =>
        let date := or_else (req_date r) "" in
        let time := or_else (req_time r) "" in
        match findOne (holdsSlot did date time) (appointments db) with
        | Some existingAppointment =>
            (Error 400 "Time slot already booked", db)
        | None =>
            match findOne (pendingRequest did date time)
                    (appointment_requests db) with
            | Some existingRequest =>
                (Error 400
                   "Appointment request already exists for this slot", db)
            | None =>
                let appointmentKey := generateAppointmentKey env in
                match
                  (patientName <- finalPatientName db r ;;
                   newAppointment env r appointmentKey patientName)
                with
                | None =>
                    (Error 500 "Failed to create appointment request", db)
                | Some doc =>
                    if autoConfirm r
                    then
                      match insertOne (appointmentKey_idx db) doc
                              (appointments db) with
                      | Some coll =>
                          (Json (AppointmentSaved doc),
                           {| appointments := coll;
                              appointment_requests := appointment_requests db;
                              patients := patients db;
                              appointmentKey_idx := appointmentKey_idx db |})
                      | None =>
                          (Error 500 "Failed to create appointment request",
                           db)
                      end
                    else
                      match insertOne false doc
                              (appointment_requests db) with
                      | Some coll =>
                          (Json (RequestCreated doc),
                           {| appointments := appointments db;
                              appointment_requests := coll;
                              patients := patients db;
                              appointmentKey_idx := appointmentKey_idx db |})
                      | None =>
                          (Error 500 "Failed to create appointment request",
                           db)
                      end
                end
            end
        end
    end.

End AppointmentRequestsRoute.

(** [fetchAvailableSlots] of the booking dialog: the schedule route is
    asked for the selected date and its answer goes through
    [generateTimeSlots]; a failed request clears the lists. *)
Definition fetchAvailableSlots (fuel : nat)
    (doctor_schedules : list ScheduleDoc) (doctorId selectedDate : string)
    (before : SlotState) : option SlotState :=
  match ScheduleRoute.GET doctor_schedules doctorId (Some selectedDate) with
  | Json data =>
      AppointmentBooking.generateTimeSlots fuel selectedDate data before
  | Error _ _ => Some (mkSlotState [] [])
  end.

Definition slotTimes (s : SlotState) : list string :=
  (map time (morning s) ++ map time (evening s))%list.

(* ================================================================== *)
(** * Interleaved requests *)
(* ================================================================== *)

(** Each [await] on the database is one atomic step of a request; between
    two steps of one request, steps of other requests may run.  A request
    to [POST /api/appointments] asks the database up to three times: the
    conflict check, the patient lookup (when the request carries no
    patient name), the insert. *)
Module Interleaving.

Inductive Task : Type :=
| Received (env : Env) (r : BookingRequest)
| Checked (env : Env) (r : BookingRequest)
| Named (env : Env) (r : BookingRequest) (patientName : string)
| Done (answer : Response Booked).

Definition finish (x : Response Booked * Db) : Task * Db :=
  (Done (fst x), snd x).

Definition step (db : Db) (t : Task) : Task * Db :=
  match t with
  | Received env r =>
      if requiredMissing r
      then (Done (Error 400 "Missing required fields"), db)
      else
        match ObjectId_of (or_else (req_doctorId r) "") with
        | None => (Done (Error 500 "Failed to create appointment"), db)
        | Some did =>
            match findOne (holdsSlot did (or_else (req_date r) "")
                             (or_else (req_time r) ""))
                    (appointments db) with
            | Some _ => (Done (Error 400 "Time slot already booked"), db)
            | None => (Checked env r, db)
            end
        end
  | Checked env r =>
      if ofalsy (req_patientName r)
      then
        match finalPatientName db r with
        | Some patientName => (Named env r patientName, db)
        | None => (Done (Error 500 "Failed to create appointment"), db)
        end
      else
        finish (AppointmentsRoute.store db env r
                  (or_else (req_patientName r) ""))
  | Named env r patientName =>
      finish (AppointmentsRoute.store db env r patientName)
  | Done _ => (t, db)
  end.

Inductive Who : Type :=
| First
| Second.

Record World : Type := mkWorld {
  db : Db;
  first : Task;
  second : Task
}.

Definition move (w : World) (who : Who) : World :=
  match who with
  | First =>
      let '(t, d) := step (db w) (first w) in
      {| db := d; first := t; second := second w |}
  | Second =>
      let '(t, d) := step (db w) (second w) in
      {| db := d; first := first w; second := t |}
  end.

Definition run (schedule : list Who) (w : World) : World :=
  fold_left move schedule w.

(** One request run to its end without interruption. *)
Definition alone (db : Db) (t : Task) : Task * Db :=
  let '(t1, d1) := step db t in
  let '(t2, d2) := step d1 t1 in
  step d2 t2.

End Interleaving.

(* ================================================================== *)
(** * Vocabulary of the statements *)
(* ================================================================== *)

(** The time value of minute [k] of 2000-01-01, the day on which the
    generators place their clock times. *)
Definition atMinute (k : Z) : Z := 946684800000 + JSDate.msPerMinute * k.

(** The clock string a generator prints for minute [k]. *)
Definition clock (k : Z) : string := JSDate.toTimeString5 (Some (atMinute k)).

(** The minutes past midnight that a clock string of the data model
    denotes. *)
Definition clockMinutes (s : string) : option Z :=
  match JSDate.ofClock s with
  | Some t => Some ((t - 946684800000) / JSDate.msPerMinute)
  | None => None
  end.

(** The slot times [s, s + d, s + 2d, ...], [n] of them. *)
Definition arithmetic (s d : Z) (n : nat) : list Z :=
  map (fun k => s + Z.of_nat k * d) (seq 0 n).

(** How many of the times [s + k * d] lie before [e]. *)
Definition slotCount (s e d : Z) : nat := Z.to_nat ((e - s + d - 1) / d).

(** A doctor id, a patient id and fresh appointment ids used in the
    worked examples. *)
Definition doctorX : string := "64f000000000000000000001".
Definition patientA : string := "64f0000000000000000000a1".
Definition patientB : string := "64f0000000000000000000b2".

(** A general schedule whose September date range marks Monday as an off
    day while still carrying a morning window. *)
Definition offMonday : DaySchedule :=
  {| dayOfWeek := "Monday"; isOffDay := true;
     morningStart := Some "09:00"; morningEnd := Some "10:00";
     eveningStart := None; eveningEnd := None;
     morningSlots := None; eveningSlots := None;
     slotduration := Some "30"; date := None |}.

Definition septemberRange : DateRange :=
  {| startDate := "2025-09-01"; endDate := "2025-09-30";
     rangeDays := [offMonday] |}.

Definition rangedSchedule : ScheduleDoc :=
  {| sched_id := "64f000000000000000000100"; doctorId := doctorX;
     weekStart := None; weekEnd := None;
     days := [offMonday];
     dateRanges := Some [septemberRange];
     allowOutsideRange := None |}.

Definition noSlots : SlotState := mkSlotState [] [].

(** Doctor X's general schedule of the end-to-end example: Monday morning
    09:00 to 10:00 in slots of 30 minutes. *)
Definition mondayMorning : DaySchedule :=
  {| dayOfWeek := "Monday"; isOffDay := false;
     morningStart := Some "09:00"; morningEnd := Some "10:00";
     eveningStart := None; eveningEnd := None;
     morningSlots := None; eveningSlots := None;
     slotduration := Some "30"; date := None |}.

Definition generalSchedule : ScheduleDoc :=
  {| sched_id := "64f000000000000000000101"; doctorId := doctorX;
     weekStart := None; weekEnd := None;
     days := [mondayMorning];
     dateRanges := None; allowOutsideRange := None |}.

(** A schedule for the week from Monday 2025-09-15 to Sunday 2025-09-21
    that only describes Tuesday. *)
Definition tuesdayEvening : DaySchedule :=
  {| dayOfWeek := "Tuesday"; isOffDay := false;
     morningStart := None; morningEnd := None;
     eveningStart := Some "17:00"; eveningEnd := Some "18:00";
     morningSlots := None; eveningSlots := None;
     slotduration := Some "30"; date := None |}.

Definition weekSchedule : ScheduleDoc :=
  {| sched_id := "64f000000000000000000102"; doctorId := doctorX;
     weekStart := Some 1757894400000; weekEnd := Some 1758412800000;
     days := [tuesdayEvening];
     dateRanges := None; allowOutsideRange := None |}.

(** The answer the booking handlers give for a taken slot: the
    specification's ConflictError. *)
Definition conflict : Response Booked := Error 400 "Time slot already booked".

(** Appointment [a] holds the slot that request [r] asks for: same
    doctor, date and time, status pending or confirmed. *)
Definition holds (r : BookingRequest) (a : Appointment.t) : Prop :=
  ObjectId_of (or_else (req_doctorId r) "") = Some (Appointment.doctorId a)
  /\ Appointment.date a = or_else (req_date r) ""
  /\ Appointment.time a = or_else (req_time r) ""
  /\ (Appointment.status a = pending \/ Appointment.status a = confirmed).

(** Two requests ask for the same slot. *)
Definition sameSlot (r r' : BookingRequest) : Prop :=
  ObjectId_of (or_else (req_doctorId r) "")
  = ObjectId_of (or_else (req_doctorId r') "")
  /\ or_else (req_date r) "" = or_else (req_date r') ""
  /\ or_else (req_time r) "" = or_else (req_time r') "".

(** The write of an appointment with this [_id] and key is accepted:
    the [_id] is new and, where the unique index is in place, so is the
    key. *)
Definition canInsert (db : Db) (id : ObjectId) (key : string) : bool :=
  negb (existsb (fun a => String.eqb (Appointment._id a) id)
          (appointments db))
  && negb (appointmentKey_idx db
           && existsb (fun a => String.eqb (Appointment.appointmentKey a) key)
                (appointments db)).

Definition withAppointments (db : Db) (coll : list Appointment.t) : Db :=
  {| appointments := coll;
     appointment_requests := appointment_requests db;
     patients := patients db;
     appointmentKey_idx := appointmentKey_idx db |}.

(** [_id] is unique within the [appointments] collection, as MongoDB
    guarantees. *)
Definition uniqueIds (db : Db) : Prop :=
  NoDup (map Appointment._id (appointments db)).

Definition emptyDb : Db :=
  {| appointments := []; appointment_requests := []; patients := [];
     appointmentKey_idx := true |}.

(** The bookings of the end-to-end example: patients A and B ask for
    doctor X on Monday 2025-09-15 at 09:00. *)
Definition bookingBy (patient name : string) (time : string) : BookingRequest :=
  {| req_doctorId := Some doctorX; req_patientId := Some patient;
     req_date := Some "2025-09-15"; req_time := Some time;
     req_doctorName := Some "Doctor X"; req_patientName := Some name;
     req_doctorAddress := None; req_appointmentKey := None;
     autoConfirm := true |}.

Definition envA : Env :=
  {| newObjectId := "650000000000000000000001"; randomKey := 123456;
     now := 1757000000000 |}.

Definition envB : Env :=
  {| newObjectId := "650000000000000000000002"; randomKey := 654321;
     now := 1757000001000 |}.

Definition envC : Env :=
  {| newObjectId := "650000000000000000000003"; randomKey := 111111;
     now := 1757000002000 |}.

Definition appointmentOf (env : Env) (patient name time : string)
    : Appointment.t :=
  {| Appointment._id := newObjectId env;
     Appointment.appointmentKey := decimal (randomKey env);
     Appointment.doctorId := doctorX;
     Appointment.patientId := patient;
     Appointment.date := "2025-09-15";
     Appointment.time := time;
     Appointment.sessionStartTime := time;
     Appointment.status := pending;
     Appointment.doctorName := "Doctor X";
     Appointment.patientName := name;
     Appointment.Adrees := "";
     Appointment.createdAt := now env;
     Appointment.updatedAt := now env |}.

(** The request by which a patient cancels an appointment. *)
Definition cancelBy (appointment patient : string)
    : AppointmentsRoute.UpdateRequest :=
  {| AppointmentsRoute.appointmentId := Some appointment;
     AppointmentsRoute.newStatus := Some "cancelled";
     AppointmentsRoute.upd_patientId := Some patient |}.

(** The store after patient A's booking of 09:00, and after its
    cancellation. *)
Definition bookedDb : Db :=
  withAppointments emptyDb [appointmentOf envA patientA "A" "09:00"].

Definition cancelledDb : Db :=
  withAppointments emptyDb
    [AppointmentsRoute.setCancelled (appointmentOf envA patientA "A" "09:00")
       (now envB)].

(** The second refusal of the request route: a pending request for the
    slot is already stored in [_appointment]. *)
Definition requestExists : Response Booked :=
  Error 400 "Appointment request already exists for this slot".

(** Request [q] of [_appointment] asks for the slot of [r] and is
    pending. *)
Definition requested (r : BookingRequest) (q : Appointment.t) : Prop :=
  ObjectId_of (or_else (req_doctorId r) "") = Some (Appointment.doctorId q)
  /\ Appointment.date q = or_else (req_date r) ""
  /\ Appointment.time q = or_else (req_time r) ""
  /\ Appointment.status q = pending.

Definition withRequests (db : Db) (coll : list Appointment.t) : Db :=
  {| appointments := appointments db;
     appointment_requests := coll;
     patients := patients db;
     appointmentKey_idx := appointmentKey_idx db |}.

(** The write of the request route is accepted: with [autoConfirm] the
    document goes to [appointments], under the generated key; without,
    to [_appointment], which has no unique index besides [_id]. *)
Definition canWrite (db : Db) (env : Env) (r : BookingRequest) : bool :=
  if autoConfirm r
  then canInsert db (newObjectId env) (decimal (randomKey env))
  else negb (existsb (fun a => String.eqb (Appointment._id a) (newObjectId env))
               (appointment_requests db)).

(** What the request route answers and stores when it writes [doc]. *)
Definition written (db : Db) (r : BookingRequest) (doc : Appointment.t)
    : Response Booked * Db :=
  if autoConfirm r
  then (Json (AppointmentSaved doc),
        withAppointments db (appointments db ++ [doc])%list)
  else (Json (RequestCreated doc),
        withRequests db (appointment_requests db ++ [doc])%list).

(** Patient A asks for 09:00 without [autoConfirm], and the store after
    that request. *)
Definition requestBy (patient name : string) (time : string) : BookingRequest :=
  {| req_doctorId := Some doctorX; req_patientId := Some patient;
     req_date := Some "2025-09-15"; req_time := Some time;
     req_doctorName := Some "Doctor X"; req_patientName := Some name;
     req_doctorAddress := None; req_appointmentKey := None;
     autoConfirm := false |}.

Definition requestedDb : Db :=
  {| appointments := [];
     appointment_requests := [appointmentOf envA patientA "A" "09:00"];
     patients := []; appointmentKey_idx := true |}.

(* ================================================================== *)
(** * Pre-calculated slots *)
(* ================================================================== *)

(** The callback that [optimizeExistingData] of the optimize-database
    route maps over the [days] of a document
    (optimize-database/route.ts, 272-283): a session without a slot array
    and with both bounds gets the generated times. *)
Module OptimizeDatabaseRoute.

Definition optimizeSession (fuel : nat) (pre : option (list string))
    (start end_ : option string) (slotduration : option string)
    : option (option (list string)) :=
  match pre with
  | Some _ => Some pre
  | None =>
      match start, end_ with
      | Some s, Some e =>
          if negb (falsy s) && negb (falsy e)
          then
            slots <- OptimizeDatabase.generateTimeSlots fuel s e
                       (parseInt (or_else slotduration "30")) ;;
            Some (Some slots)
          else Some None
      | _, _ => Some None
      end
  end.

Definition optimizeDay (fuel : nat) (day : DaySchedule)
    : option DaySchedule :=
  m <- optimizeSession fuel (morningSlots day) (morningStart day)
         (morningEnd day) (slotduration day) ;;
  e <- optimizeSession fuel (eveningSlots day) (eveningStart day)
         (eveningEnd day) (slotduration day) ;;
  Some {| dayOfWeek := dayOfWeek day;
          isOffDay := isOffDay day;
          morningStart := morningStart day;
          morningEnd := morningEnd day;
          eveningStart := eveningStart day;
          eveningEnd := eveningEnd day;
          morningSlots := m;
          eveningSlots := e;
          slotduration := slotduration day;
          date := date day |}.

(** [doc.days.map(...)] *)
Fixpoint optimizedDays (fuel : nat) (days : list DaySchedule)
    : option (list DaySchedule) :=
  match days with
  | [] => Some []
  | day :: rest =>
      d <- optimizeDay fuel day ;;
      r <- optimizedDays fuel rest ;;
      Some (d :: r)
  end.

End OptimizeDatabaseRoute.

(** The same callback in scripts/optimize-database.js (244-263), which
    leaves the sessions of an off day alone. *)
Module OptimizeDatabaseScript.

Definition optimizeSession (fuel : nat) (isOffDay : bool)
    (pre : option (list string)) (start end_ : option string)
    (slotduration : option string) : option (option (list string)) :=
  match pre with
  | Some _ => Some pre
  | None =>
      match start, end_ with
      | Some s, Some e =>
          if negb (falsy s) && negb (falsy e) && negb isOffDay
          then
            slots <- OptimizeDatabase.generateTimeSlots fuel s e
                       (parseInt (or_else slotduration "30")) ;;
            Some (Some slots)
          else Some None
      | _, _ => Some None
      end
  end.

Definition optimizeDay (fuel : nat) (day : DaySchedule)
    : option DaySchedule :=
  m <- optimizeSession fuel (isOffDay day) (morningSlots day)
         (morningStart day) (morningEnd day) (slotduration day) ;;
  e <- optimizeSession fuel (isOffDay day) (eveningSlots day)
         (eveningStart day) (eveningEnd day) (slotduration day) ;;
  Some {| dayOfWeek := dayOfWeek day;
          isOffDay := isOffDay day;
          morningStart := morningStart day;
          morningEnd := morningEnd day;
          eveningStart := eveningStart day;
          eveningEnd := eveningEnd day;
          morningSlots := m;
          eveningSlots := e;
          slotduration := slotduration day;
          date := date day |}.

End OptimizeDatabaseScript.

(* ================================================================== *)
(** * Bulk slot loading *)
(* ================================================================== *)

(** [POST /api/slots/optimized] (slots/optimized/route.ts, 250-332): the
    schedule documents of a doctor that overlap a range of dates, or have
    no week bounds, with their days filtered by weekday. *)
Module SlotsBulkRoute.

Record BulkRequest : Type := mkBulk {
  bulk_doctorId : option string;
  bulk_startDate : option string;
  bulk_endDate : option string;
  dayOfWeekFilter : option (list string)
}.

(** One entry of [schedules]: the projected document, its days after
    the filter, and the type the handler adds. *)
Record BulkSchedule : Type := mkBulkSchedule {
  bulk_source : ScheduleDoc;
  bulk_days : list DaySchedule;
  bulk_scheduleType : string
}.

(** [dayOfWeekFilter && dayOfWeekFilter.length > 0] *)
Definition filtering (filter : option (list string)) : bool :=
  match filter with
  | Some (_ :: _) => true
  | _ => false
  end.

(** [dayOfWeekFilter.includes(name)] *)
Definition includes (filter : option (list string)) (name : string)
    : bool :=
  match filter with
  | Some l => existsb (String.eqb name) l
  | None => false
  end.

(** [weekStart: { $lte: end }, weekEnd: { $gte: start }] *)
Definition overlaps (start end_ : Z) (s : ScheduleDoc) : bool :=
  match weekStart s, weekEnd s with
  | Some ws, Some we => (ws <=? end_) && (start <=? we)
  | _, _ => false
  end.

(** ["days.dayOfWeek": { $in: filter }] *)
Definition hasDayIn (filter : option (list string)) (s : ScheduleDoc)
    : bool :=
  existsb (fun day => includes filter (dayOfWeek day)) (days s).

(** [.project({ days: 1, weekStart: 1, weekEnd: 1, doctorId: 1, _id: 1 })] *)
Definition project (s : ScheduleDoc) : ScheduleDoc :=
  {| sched_id := sched_id s;
     doctorId := doctorId s;
     weekStart := weekStart s;
     weekEnd := weekEnd s;
     days := days s;
     dateRanges := None;
     allowOutsideRange := None |}.

Definition POST (doctor_schedules : list ScheduleDoc) (r : BulkRequest)
    : Response (list BulkSchedule) :=
  if ofalsy (bulk_doctorId r) then Error 400 "Doctor ID is required"
  else
    match ObjectId_of (or_else (bulk_doctorId r) "") with
    | None => Error 400 "Invalid doctor ID format"
    | Some oid =>
        let start := bsonDate (JSDate.parse (or_else (bulk_startDate r) "")) in
        let end_ := bsonDate (JSDate.parse (or_else (bulk_endDate r) "")) in
        let filter := dayOfWeekFilter r in
        let query s :=
          ofDoctor oid s
          && (overlaps start end_ s || noWeekBounds s)
          && (if filtering filter then hasDayIn filter s else true) in
        let schedules := map project (List.filter query doctor_schedules) in
        Json
          (map (fun schedule =>
                  {| bulk_source := schedule;
                     bulk_days :=
                       if filtering filter
                       then List.filter
                              (fun day => includes filter (dayOfWeek day))
                              (days schedule)
                       else days schedule;
                     bulk_scheduleType :=
                       match weekStart schedule with
                       | Some _ => "week-specific"
                       | None => "general"
                       end |})
             schedules)
    end.

End SlotsBulkRoute.

(* ================================================================== *)
(** * Booked slots *)
(* ================================================================== *)

(** The civil date of a day number (days since 1970-01-01), the inverse
    of [JSDate.days_from_civil]. *)
Definition civil_from_days (z : Z) : Z * Z * Z :=
  let z := z + 719468 in
  let era := z / 146097 in
  let doe := z - era * 146097 in
  let yoe := (doe - doe / 1460 + doe / 36524 - doe / 146096) / 365 in
  let y := yoe + era * 400 in
  let doy := doe - (365 * yoe + yoe / 4 - yoe / 100) in
  let mp := (5 * doy + 2) / 153 in
  let d := doy - (153 * mp + 2) / 5 + 1 in
  let m := if mp <? 10 then mp + 3 else mp - 9 in
  (if m <=? 2 then y + 1 else y, m, d).

(** The year of [toISOString]: four digits from 0000 to 9999, a sign and
    six digits outside. *)
Definition isoYear (y : Z) : string :=
  if (0 <=? y) && (y <=? 9999)
  then two_digits (y / 100) ++ two_digits (y mod 100)
  else (if y <? 0 then "-" else "+")
       ++ two_digits (Z.abs y / 10000)
       ++ two_digits ((Z.abs y / 100) mod 100)
       ++ two_digits (Z.abs y mod 100).

(** [d.toISOString().split('T')[0]] for a valid Date. *)
Definition toISODate (t : Z) : string :=
  let '(y, m, d) := civil_from_days (JSDate.isoDay t) in
  isoYear y ++ "-" ++ two_digits m ++ "-" ++ two_digits d.

(** A stored value as a query on a Date sees it. *)
Inductive Bson : Type :=
| BsonString (s : string)
| BsonDate (t : Z).

(** [{ $gte: lo, $lt: hi }] with Dates as bounds: MongoDB compares a
    bound only with values of its own BSON type, so a string is never
    within a range of Dates. *)
Definition withinDates (lo hi : Z) (v : Bson) : bool :=
  match v with
  | BsonDate t => (lo <=? t) && (t <? hi)
  | BsonString _ => false
  end.

(** The [date] of an appointment is the string the booking handlers
    stored. *)
Definition storedDate (a : Appointment.t) : Bson :=
  BsonString (Appointment.date a).

(** [GET /api/appointments/booked-slots?doctorId=&date=]
    (appointments/booked-slots/route.ts, 5-76). *)
Module AppointmentsBookedSlotsRoute.

Record Answer : Type := mkBooked {
  bookedSlots : list string;
  appointmentCount : Z;
  found : list Appointment.t
}.

(** The query of the handler.  No document of the data model has a
    [doctor_id] field, so the second branch of its [$or] matches
    nothing. *)
Definition booked (oid : ObjectId) (startOfDay endOfDay : Z)
    (a : Appointment.t) : bool :=
  (String.eqb (Appointment.doctorId a) oid || false)
  && withinDates startOfDay endOfDay (storedDate a)
  && active (Appointment.status a).

(** The callback of [bookedAppointments.map]; [None] when
    [toISOString] throws on the Invalid Date. *)
Definition slotKey (appointment : Appointment.t) : option string :=
  let time :=
    if falsy (Appointment.sessionStartTime appointment)
    then (if falsy (Appointment.time appointment) then "00:00"
          else Appointment.time appointment)
    else Appointment.sessionStartTime appointment in
  match JSDate.parse (Appointment.date appointment) with
  | Some t => Some (toISODate t ++ "_" ++ time)
  | None => None
  end.

Fixpoint slotKeys (l : list Appointment.t) : option (list string) :=
  match l with
  | [] => Some []
  | a :: rest =>
      k <- slotKey a ;;
      ks <- slotKeys rest ;;
      Some (k :: ks)
  end.

Definition GET (db : Db) (doctorId date : option string)
    : Response Answer :=
  if ofalsy doctorId || ofalsy date
  then Error 400 "Doctor ID and date required"
  else if negb (hex24 (or_else doctorId ""))
  then Error 400 "Invalid doctor ID format"
  else
    match
      (startOfDay <- JSDate.parse (or_else date "") ;;
       endOfDay <- JSDate.TimeClip (startOfDay + JSDate.msPerDay) ;;
       oid <- ObjectId_of (or_else doctorId "") ;;
       let bookedAppointments :=
         List.filter (booked oid startOfDay endOfDay) (appointments db) in
       bookedSlots <- slotKeys bookedAppointments ;;
       Some {| bookedSlots := bookedSlots;
               appointmentCount := Z.of_nat (List.length bookedAppointments);
               found := bookedAppointments |})
    with
    | Some body => Json body
    | None => Error 500 "Failed to fetch booked slots"
    end.

End AppointmentsBookedSlotsRoute.

(** [{ doctorId: oid, date, status: "pending" }] *)
Definition pendingOn (oid : ObjectId) (date : string) (a : Appointment.t)
    : bool :=
  String.eqb (Appointment.doctorId a) oid
  && String.eqb (Appointment.date a) date
  && Status_eqb (Appointment.status a) pending.

(** [GET /api/appointment-requests/booked-slots?doctorId=&date=]
    (appointment-requests/booked-slots/route.ts, 5-53). *)
Module RequestsBookedSlotsRoute.

Definition GET (db : Db) (doctorId date : option string)
    : Response (list string) :=
  if ofalsy doctorId || ofalsy date
  then Error 400 "Doctor ID and date are required"
  else if negb (hex24 (or_else doctorId ""))
  then Error 400 "Invalid doctor ID format"
  else
    match
      (startDate <- JSDate.parse (or_else date "") ;;
       endDate <- JSDate.TimeClip (startDate + JSDate.msPerDay) ;;
       oid <- ObjectId_of (or_else doctorId "") ;;
       let appointmentRequests :=
         List.filter (pendingOn oid (or_else date ""))
           (appointment_requests db) in
       Some (map (fun request =>
                    or_else date "" ++ "_" ++ Appointment.time request)
               appointmentRequests))
    with
    | Some bookedSlots => Json bookedSlots
    | None => Error 500 "Failed to fetch booked slots"
    end.

End RequestsBookedSlotsRoute.


Definition updateSlotAvailability (bookedSlots : list string)
    (slots : list TimeSlot) : list TimeSlot :=
  map (fun slot =>
         {| time := time slot;
            available := negb (existsb (String.eqb (time slot)) bookedSlots) |})
    slots.

(* ================================================================== *)
(** * The optimized appointments route *)
(* ================================================================== *)

(** No two documents share an [appointmentKey]. *)
Fixpoint distinctKeys (coll : list Appointment.t) : bool :=
  match coll with
  | [] => true
  | a :: rest =>
      negb (existsb (fun b => String.eqb (Appointment.appointmentKey b)
                                (Appointment.appointmentKey a)) rest)
      && distinctKeys rest
  end.

(** [/api/appointments/optimized]
    (appointments/booked-slots/route.ts: [POST] 231-330, [PUT] 332-458,
    [HEAD] 463-526, [ensureAppointmentIndexes] 531-626). *)
Module OptimizedAppointmentsRoute.

(** [ensureAppointmentIndexes]: of the indexes it asks for, the unique
    one on [appointmentKey] is the only one that changes what a handler
    answers.  The server builds it unless two stored documents share a
    key; that failure is caught and ignored.  The other indexes are
    built, so the index that the hint of a conflict check names
    exists. *)
Definition ensureAppointmentIndexes (db : Db) : Db :=
  if appointmentKey_idx db then db
  else if distinctKeys (appointments db)
  then {| appointments := appointments db;
          appointment_requests := appointment_requests db;
          patients := patients db;
          appointmentKey_idx := true |}
  else db.

(** [POST].  [checkConflict] is the field of the request body, [None]
    when the body has none (the default [true] applies).  The conflict
    answer also names the appointment that holds the slot. *)
Definition POST (db : Db) (env : Env) (r : BookingRequest)
    (checkConflict : option bool) : Response Booked * Db :=
  if requiredMissing r then (Error 400 "Missing required fields", db)
  else
    let db := ensureAppointmentIndexes db in
    let checkConflict :=
      match checkConflict with
      | Some b => b
      | None => true
      end in
    let existingAppointment :=
      if checkConflict
      then
        did <- ObjectId_of (or_else (req_doctorId r) "") ;;
        Some (findOne (holdsSlot did (or_else (req_date r) "")
                         (or_else (req_time r) ""))
                (appointments db))
      else Some None in
    match existingAppointment with
    | None => (Error 500 "Failed to create appointment", db)
    | Some (Some _) => (Error 400 "Time slot already booked", db)
    | Some None =>
        let finalAppointmentKey :=
          or_else (req_appointmentKey r) (decimal (randomKey env)) in
        match
          (patientName <- finalPatientName db r ;;
           appointment <- newAppointment env r finalAppointmentKey
                            patientName ;;
           coll <- insertOne (appointmentKey_idx db) appointment
                     (appointments db) ;;
           Some (appointment, coll))
        with
        | Some (appointment, coll) =>
            (Json (AppointmentSaved appointment),
             {| appointments := coll;
                appointment_requests := appointment_requests db;
                patients := patients db;
                appointmentKey_idx := appointmentKey_idx db |})
        | None => (Error 500 "Failed to create appointment", db)
        end
    end.

(** [HEAD]: the status code of the answer. *)
Definition HEAD (db : Db) (doctorId date time : option string) : Z * Db :=
  if ofalsy doctorId || ofalsy date || ofalsy time then (400, db)
  else if negb (hex24 (or_else doctorId "")) then (400, db)
  else
    let db := ensureAppointmentIndexes db in
    match ObjectId_of (or_else doctorId "") with
    | None => (500, db)
    | Some did =>
        match findOne (holdsSlot did (or_else date "") (or_else time ""))
                (appointments db) with
        | Some existingAppointment => (409, db)
        | None => (200, db)
        end
    end.

(** The body of an update request.  The handler stores whatever
    [status] it is given; the embedding covers the requests whose
    status is one of the five of the data model. *)
Record UpdateRequest : Type := mkUpdate {
  appointmentId : option string;
  upd_patientId : option string;
  upd_status : option Status;
  upd_doctorId : option string;
  newDate : option string;
  newTime : option string
}.

(** The index that the hint of the first [findOne] names. *)
Inductive Hint : Type :=
| by_id
| by_patientId_id
| by_doctorId_id.

(** [newDate && newTime] *)
Definition rescheduling (r : UpdateRequest) : bool :=
  negb (ofalsy (newDate r)) && negb (ofalsy (newTime r)).

(** [{ $set: updateFields }] on one document; [slot] is the new date
    and time of a rescheduling. *)
Definition setFields (a : Appointment.t) (status : Status) (at_ : Z)
    (slot : option (string * string)) : Appointment.t :=
  {| Appointment._id := Appointment._id a;
     Appointment.appointmentKey := Appointment.appointmentKey a;
     Appointment.doctorId := Appointment.doctorId a;
     Appointment.patientId := Appointment.patientId a;
     Appointment.date :=
       match slot with
       | Some (d, _) => d
       | None => Appointment.date a
       end;
     Appointment.time :=
       match slot with
       | Some (_, t) => t
       | None => Appointment.time a
       end;
     Appointment.sessionStartTime :=
       match slot with
       | Some (_, t) => t
       | None => Appointment.sessionStartTime a
       end;
     Appointment.status := status;
     Appointment.doctorName := Appointment.doctorName a;
     Appointment.patientName := Appointment.patientName a;
     Appointment.Adrees := Appointment.Adrees a;
     Appointment.createdAt := Appointment.createdAt a;
     Appointment.updatedAt := at_ |}.

(** Whether the document already has the values of [updateFields]. *)
Definition hasFields (a : Appointment.t) (status : Status) (at_ : Z)
    (slot : option (string * string)) : bool :=
  Status_eqb (Appointment.status a) status
  && (Appointment.updatedAt a =? at_)
  && match slot with
     | Some (d, t) =>
         String.eqb (Appointment.date a) d
         && String.eqb (Appointment.time a) t
         && String.eqb (Appointment.sessionStartTime a) t
     | None => true
     end.

(** [updateOne({ _id: id }, { $set: updateFields })]: the first
    document with that [_id] is rewritten; [modifiedCount] counts it
    only when the update changed it. *)
Fixpoint updateOne (id : ObjectId) (status : Status) (at_ : Z)
    (slot : option (string * string)) (coll : list Appointment.t)
    : list Appointment.t * Z :=
  match coll with
  | [] => ([], 0)
  | a :: rest =>
      if String.eqb (Appointment._id a) id
      then (setFields a status at_ slot :: rest,
            if hasFields a status at_ slot then 0 else 1)
      else
        let '(rest', n) := updateOne id status at_ slot rest in
        (a :: rest', n)
  end.

(** [PUT].  [hasIndex] tells which of the indexes that the hints name
    the collection has: a [findOne] whose hint names no index fails.
    After the format tests [new ObjectId] gives the digits in lower
    case.  The body of a successful answer is its [rescheduled] flag. *)
Definition PUT (hasIndex : Hint -> bool) (db : Db) (env : Env)
    (r : UpdateRequest) : Response bool * Db :=
  match upd_status r with
  | None => (Error 400 "Missing required fields", db)
  | Some status =>
      if ofalsy (appointmentId r)
      then (Error 400 "Missing required fields", db)
      else if negb (hex24 (or_else (appointmentId r) ""))
      then (Error 400 "Invalid appointment ID format", db)
      else
        let db := ensureAppointmentIndexes db in
        if negb (ofalsy (upd_patientId r))
           && negb (hex24 (or_else (upd_patientId r) ""))
        then (Error 400 "Invalid patient ID format", db)
        else if negb (ofalsy (upd_doctorId r))
                && negb (hex24 (or_else (upd_doctorId r) ""))
        then (Error 400 "Invalid doctor ID format", db)
        else
          let indexHint :=
            if negb (ofalsy (upd_doctorId r)) then by_doctorId_id
            else if negb (ofalsy (upd_patientId r)) then by_patientId_id
            else by_id in
          let findQuery (a : Appointment.t) :=
            String.eqb (Appointment._id a)
              (lowercase (or_else (appointmentId r) ""))
            && (if ofalsy (upd_patientId r) then true
                else String.eqb (Appointment.patientId a)
                       (lowercase (or_else (upd_patientId r) "")))
            && (if ofalsy (upd_doctorId r) then true
                else String.eqb (Appointment.doctorId a)
                       (lowercase (or_else (upd_doctorId r) ""))) in
          if negb (hasIndex indexHint)
          then (Error 500 "Failed to update appointment", db)
          else
            match findOne findQuery (appointments db) with
            | None =>
                (Error 404 "Appointment not found or unauthorized", db)
            | Some appointment =>
                let aid := lowercase (or_else (appointmentId r) "") in
                let slot :=
                  if rescheduling r
                  then Some (or_else (newDate r) "", or_else (newTime r) "")
                  else None in
                let existingAppointment :=
                  match slot with
                  | Some (d, t) =>
                      findOne
                        (fun a =>
                           holdsSlot (Appointment.doctorId appointment) d t a
                           && negb (String.eqb (Appointment._id a) aid))
                        (appointments db)
                  | None => None
                  end in
                match existingAppointment with
                | Some _ => (Error 400 "New time slot already booked", db)
                | None =>
                    let '(coll, modifiedCount) :=
                      updateOne aid status (now env) slot
                        (appointments db) in
                    let db' :=
                      {| appointments := coll;
                         appointment_requests := appointment_requests db;
                         patients := patients db;
                         appointmentKey_idx := appointmentKey_idx db |} in
                    if modifiedCount =? 0
                    then (Error 500 "Failed to update appointment", db')
                    else (Json (rescheduling r), db')
                end
            end
  end.

End OptimizedAppointmentsRoute.

(* ================================================================== *)
(** * Vocabulary of the further properties *)
(* ================================================================== *)

(** A route answered with an error. *)
Definition failed {A : Type} (r : Response A) : Prop :=
  match r with
  | Error _ _ => True
  | Json _ => False
  end.

(** The slot of an appointment is taken: it is pending or confirmed at
    that doctor, date and time. *)
Definition takes (doctor : ObjectId) (date time : string)
    (a : Appointment.t) : Prop :=
  Appointment.doctorId a = doctor /\ Appointment.date a = date
  /\ Appointment.time a = time /\ active (Appointment.status a) = true.

(** Two appointments that differ at most in the fields an update
    writes. *)
Definition sameBut (a a' : Appointment.t) : Prop :=
  Appointment._id a' = Appointment._id a
  /\ Appointment.appointmentKey a' = Appointment.appointmentKey a
  /\ Appointment.doctorId a' = Appointment.doctorId a
  /\ Appointment.patientId a' = Appointment.patientId a
  /\ Appointment.doctorName a' = Appointment.doctorName a
  /\ Appointment.patientName a' = Appointment.patientName a
  /\ Appointment.Adrees a' = Appointment.Adrees a
  /\ Appointment.createdAt a' = Appointment.createdAt a.

(** A booking that brings its own appointment key. *)
Definition keyedBooking (patient name : string) (time key : string)
    : BookingRequest :=
  {| req_doctorId := Some doctorX; req_patientId := Some patient;
     req_date := Some "2025-09-15"; req_time := Some time;
     req_doctorName := Some "Doctor X"; req_patientName := Some name;
     req_doctorAddress := None; req_appointmentKey := Some key;
     autoConfirm := true |}.

(** An update request without patient or doctor filter, the indexes of
    a collection that has the index on [_id] only, the store after the
    bookings of A (09:00) and B (09:30), and the store after A's
    cancellation and B's booking of the freed 09:00. *)
Definition updateOf (appointment : string) (status : Status)
    (date time : option string) : OptimizedAppointmentsRoute.UpdateRequest :=
  {| OptimizedAppointmentsRoute.appointmentId := Some appointment;
     OptimizedAppointmentsRoute.upd_patientId := None;
     OptimizedAppointmentsRoute.upd_status := Some status;
     OptimizedAppointmentsRoute.upd_doctorId := None;
     OptimizedAppointmentsRoute.newDate := date;
     OptimizedAppointmentsRoute.newTime := time |}.

Definition onlyById (h : OptimizedAppointmentsRoute.Hint) : bool :=
  match h with
  | OptimizedAppointmentsRoute.by_id => true
  | _ => false
  end.

Definition twoBookedDb : Db :=
  withAppointments emptyDb
    [appointmentOf envA patientA "A" "09:00";
     appointmentOf envB patientB "B" "09:30"].

Definition rebookedDb : Db :=
  withAppointments emptyDb
    [AppointmentsRoute.setCancelled (appointmentOf envA patientA "A" "09:00")
       (now envB);
     appointmentOf envC patientB "B" "09:00"].

(** What a route answered satisfies [P], when it answered at all. *)
Definition answered {A : Type} (r : Response A) (P : A -> Prop) : Prop :=
  match r with
  | Json a => P a
  | Error _ _ => True
  end.

(** A second doctor, with a general Monday schedule of their own. *)
Definition doctorY : string := "64f000000000000000000002".

Definition otherSchedule : ScheduleDoc :=
  {| sched_id := "64f000000000000000000103"; doctorId := doctorY;
     weekStart := None; weekEnd := None;
     days := [mondayMorning];
     dateRanges := None; allowOutsideRange := None |}.

(** A bulk request for doctor X's Mondays of September 2025, and doctor
    X's general schedule after the optimization. *)
Definition mondaysInSeptember : SlotsBulkRoute.BulkRequest :=
  {| SlotsBulkRoute.bulk_doctorId := Some doctorX;
     SlotsBulkRoute.bulk_startDate := Some "2025-09-01";
     SlotsBulkRoute.bulk_endDate := Some "2025-09-30";
     SlotsBulkRoute.dayOfWeekFilter := Some ["Monday"] |}.

Definition optimizedGeneralSchedule : ScheduleDoc :=
  {| sched_id := "64f000000000000000000101"; doctorId := doctorX;
     weekStart := None; weekEnd := None;
     days :=
       [{| dayOfWeek := "Monday"; isOffDay := false;
           morningStart := Some "09:00"; morningEnd := Some "10:00";
           eveningStart := None; eveningEnd := None;
           morningSlots := Some ["09:00"; "09:30"]; eveningSlots := None;
           slotduration := Some "30"; date := None |}];
     dateRanges := None; allowOutsideRange := None |}.

(** A task that belongs to request [r]: it still carries [r], or it is
    done, and if its answer is the conflict then an appointment of the
    store holds the slot of [r]. *)
Definition taskOf (r : BookingRequest) (store : list Appointment.t)
    (t : Interleaving.Task) : Prop :=
  match t with
  | Interleaving.Received _ r' => r' = r
  | Interleaving.Checked _ r' => r' = r
  | Interleaving.Named _ r' _ => r' = r
  | Interleaving.Done x =>
      x = conflict -> exists a, In a store /\ holds r a
  end.

(** 1 for a task that ended with a saved appointment, 0 otherwise. *)
Definition saved (t : Interleaving.Task) : nat :=
  match t with
  | Interleaving.Done (Json _) => 1
  | _ => 0
  end.

(** A request parameter that carries no date, or a date that
    [JSDate.parse] reads. *)
Definition readable (date : option string) : Prop :=
  ofalsy date = true \/ exists t, JSDate.parse (or_else date "") = Some t.

(* ================================================================== *)
(** * Clock strings *)
(* ================================================================== *)

Arguments Z.mul : simpl never.
Arguments Z.add : simpl never.
Arguments Z.sub : simpl never.
Arguments Z.div : simpl never.
Arguments Z.modulo : simpl never.

Lemma digit_of_inv (c : ascii) (a : Z) :
  digit_of c = Some a -> 0 <= a <= 9 /\ c = digit_char a.
Proof.
  destruct c as [b0 b1 b2 b3 b4 b5 b6 b7].
  destruct b0, b1, b2, b3, b4, b5, b6, b7; vm_compute;
    intros H; try discriminate H; injection H as <-; vm_compute;
    repeat split; congruence.
Qed.

Lemma digit_of_char (a : Z) : 0 <= a <= 9 -> digit_of (digit_char a) = Some a.
Proof.
  intros H.
  assert (a = 0 \/ a = 1 \/ a = 2 \/ a = 3 \/ a = 4 \/ a = 5 \/ a = 6
          \/ a = 7 \/ a = 8 \/ a = 9) as D by lia.
  repeat (destruct D as [-> | D]; [reflexivity | ]).
  subst a; reflexivity.
Qed.

Lemma take2_inv (s r : string) (n : Z) :
  take2 s = Some (n, r) -> 0 <= n <= 99 /\ s = (two_digits n ++ r)%string.
Proof.
  unfold take2.
  destruct s as [| a [| b r']]; try discriminate.
  destruct (digit_of a) as [x |] eqn:Ea; try discriminate.
  destruct (digit_of b) as [y |] eqn:Eb; try discriminate.
  intros H.
  assert (n = 10 * x + y) as -> by congruence.
  assert (r = r') as -> by congruence.
  apply digit_of_inv in Ea as [Hx ->], Eb as [Hy ->].
  split; [lia | ].
  unfold two_digits.
  replace ((10 * x + y) / 10) with x
    by (apply Z.div_unique with y; lia).
  replace ((10 * x + y) mod 10) with y
    by (apply Z.mod_unique with x; lia).
  reflexivity.
Qed.

Lemma take2_two_digits (n : Z) (r : string) :
  0 <= n <= 99 -> take2 (two_digits n ++ r) = Some (n, r).
Proof.
  intros H. unfold two_digits, take2; simpl.
  pose proof (Z.div_mod n 10) as Hdm.
  pose proof (Z.mod_pos_bound n 10) as Hmb.
  assert (0 <= n / 10 <= 9) as H1 by lia.
  assert (0 <= n mod 10 <= 9) as H2 by lia.
  rewrite (digit_of_char _ H1), (digit_of_char _ H2).
  do 2 f_equal. lia.
Qed.

Lemma take2_two_digits_only (n : Z) :
  0 <= n <= 99 -> take2 (two_digits n) = Some (n, EmptyString).
Proof. intros H. exact (take2_two_digits n EmptyString H). Qed.

Lemma ofClock_inv (s : string) (t : Z) :
  JSDate.ofClock s = Some t ->
  exists hh mm,
    t = atMinute (60 * hh + mm) /\ 0 <= hh /\ 0 <= mm <= 59
    /\ 60 * hh + mm <= 1440
    /\ s = (two_digits hh ++ ":" ++ two_digits mm)%string.
Proof.
  unfold JSDate.ofClock.
  destruct (take2 s) as [[hh s1] |] eqn:E1; try discriminate.
  destruct (expect ":" s1) as [s2 |] eqn:E2; try discriminate.
  destruct (take2 s2) as [[mm s3] |] eqn:E3; try discriminate.
  destruct s3; try discriminate.
  apply take2_inv in E1 as [H1 ->], E3 as [H3 ->].
  unfold expect in E2. destruct s1 as [| c s1]; try discriminate.
  destruct (Ascii.eqb_spec c ":"); try discriminate.
  injection E2 as ->; subst c.
  destruct (((hh <=? 23) && (mm <=? 59)) || ((hh =? 24) && (mm =? 0))) eqn:E;
    try discriminate.
  intros H.
  assert (t = 946684800000 + JSDate.msPerMinute * (60 * hh + mm)) as ->
    by congruence.
  exists hh, mm. repeat split; lia.
Qed.

Lemma clockMinutes_inv (s : string) (k : Z) :
  clockMinutes s = Some k ->
  JSDate.ofClock s = Some (atMinute k) /\ 0 <= k <= 1440.
Proof.
  unfold clockMinutes.
  destruct (JSDate.ofClock s) as [t |] eqn:E; try discriminate.
  destruct (ofClock_inv _ _ E) as (hh & mm & -> & Hh & Hm & Hle & _).
  intros H.
  assert (k = (atMinute (60 * hh + mm) - 946684800000) / JSDate.msPerMinute)
    as -> by congruence.
  unfold atMinute, JSDate.msPerMinute.
  replace (946684800000 + 60000 * (60 * hh + mm) - 946684800000)
    with ((60 * hh + mm) * 60000) by ring.
  rewrite Z.div_mul by lia. split; [reflexivity | lia].
Qed.

Lemma minute_of_day (k : Z) : (atMinute k / JSDate.msPerMinute) mod 1440 = k mod 1440.
Proof.
  unfold atMinute, JSDate.msPerMinute.
  replace (946684800000 + 60000 * k) with ((15778080 + k) * 60000) by ring.
  rewrite Z.div_mul by lia.
  replace (15778080 + k) with (k + 10957 * 1440) by ring.
  apply Z.mod_add; lia.
Qed.

Lemma clock_eq (k : Z) :
  0 <= k < 1440 ->
  clock k = (two_digits (k / 60) ++ ":" ++ two_digits (k mod 60))%string.
Proof.
  intros H. unfold clock, JSDate.toTimeString5.
  rewrite minute_of_day, Z.mod_small by lia. reflexivity.
Qed.

(** Printing the clock string of a minute of the day and reading it back
    gives the minute. *)
Lemma clockMinutes_clock (k : Z) :
  0 <= k < 1440 -> clockMinutes (clock k) = Some k.
Proof.
  intros H. rewrite clock_eq by assumption.
  pose proof (Z.div_mod k 60) as Hdm.
  pose proof (Z.mod_pos_bound k 60) as Hmb.
  assert (0 <= k / 60 <= 23) as Hh by lia.
  assert (0 <= k mod 60 <= 59) as Hm by lia.
  unfold clockMinutes, JSDate.ofClock.
  rewrite take2_two_digits by lia. simpl expect. cbv iota beta.
  rewrite take2_two_digits_only by lia.
  replace ((k / 60 <=? 23) && (k mod 60 <=? 59)) with true
    by (symmetry; apply andb_true_iff; split; apply Z.leb_le; lia).
  simpl. f_equal. unfold JSDate.msPerMinute.
  replace (946684800000 + 60000 * (60 * (k / 60) + k mod 60) - 946684800000)
    with ((60 * (k / 60) + k mod 60) * 60000) by ring.
  rewrite Z.div_mul by lia. lia.
Qed.

(** Reading a clock string before midnight and printing it gives the
    string back. *)
Lemma clock_clockMinutes (s : string) (k : Z) :
  clockMinutes s = Some k -> k < 1440 -> clock k = s.
Proof.
  intros H Hk. unfold clockMinutes in H.
  destruct (JSDate.ofClock s) as [t |] eqn:E; try discriminate.
  destruct (ofClock_inv _ _ E) as (hh & mm & -> & Hh & Hm & Hle & ->).
  assert (k = (atMinute (60 * hh + mm) - 946684800000) / JSDate.msPerMinute)
    as Hk' by congruence.
  clear H E.
  unfold atMinute, JSDate.msPerMinute in *.
  replace (946684800000 + 60000 * (60 * hh + mm) - 946684800000)
    with ((60 * hh + mm) * 60000) in * by ring.
  rewrite Z.div_mul in * by lia. subst k.
  rewrite clock_eq by lia.
  replace ((60 * hh + mm) / 60) with hh
    by (apply Z.div_unique with mm; lia).
  replace ((60 * hh + mm) mod 60) with mm
    by (apply Z.mod_unique with hh; lia).
  reflexivity.
Qed.

(* ================================================================== *)
(** * The slot generators *)
(* ================================================================== *)

Lemma slotCount_spec (s e d : Z) (k : nat) :
  0 < d -> (k < slotCount s e d)%nat <-> s + Z.of_nat k * d < e.
Proof.
  intros Hd. unfold slotCount.
  pose proof (Z.div_mod (e - s + d - 1) d) as Hdm.
  pose proof (Z.mod_pos_bound (e - s + d - 1) d Hd) as Hmb.
  set (q := (e - s + d - 1) / d) in *.
  set (r := (e - s + d - 1) mod d) in *.
  split; intros H.
  - assert (Z.of_nat k < q) as Hk by lia. nia.
  - assert (Z.of_nat k < q) as Hk by nia. lia.
Qed.

Lemma slotCount_zero (s e d : Z) : 0 < d -> e <= s -> slotCount s e d = 0%nat.
Proof.
  intros Hd He. destruct (slotCount s e d) as [| n] eqn:E; [reflexivity | ].
  assert (0 < slotCount s e d)%nat as H by lia.
  apply slotCount_spec in H; lia.
Qed.

Lemma slotCount_succ (s e d : Z) :
  0 < d -> s < e -> slotCount s e d = S (slotCount (s + d) e d).
Proof.
  intros Hd He.
  assert (forall k, (k < slotCount s e d)%nat
                    <-> (k < S (slotCount (s + d) e d))%nat) as H.
  { intros [| k].
    - rewrite slotCount_spec by assumption. split; intros; lia.
    - rewrite slotCount_spec by assumption.
      rewrite <- Nat.succ_lt_mono, slotCount_spec by assumption. lia. }
  pose proof (H (slotCount s e d)) as H1.
  pose proof (H (S (slotCount (s + d) e d))) as H2. lia.
Qed.

Lemma arithmetic_succ (s d : Z) (n : nat) :
  arithmetic s d (S n) = s :: arithmetic (s + d) d n.
Proof.
  unfold arithmetic. simpl seq. simpl map. rewrite <- seq_shift, map_map.
  f_equal; [lia | ]. apply map_ext. intros k. lia.
Qed.

Lemma arithmetic_In (s d : Z) (n : nat) (t : Z) :
  In t (arithmetic s d n) <-> exists k, (k < n)%nat /\ t = s + Z.of_nat k * d.
Proof.
  unfold arithmetic. rewrite in_map_iff. split.
  - intros (k & <- & Hk). apply in_seq in Hk. exists k. split; [lia | reflexivity].
  - intros (k & Hk & ->). exists k. split; [reflexivity | apply in_seq; lia].
Qed.

Lemma arithmetic_nth (s d : Z) (n k : nat) :
  (k < n)%nat -> nth k (arithmetic s d n) 0 = s + Z.of_nat k * d.
Proof.
  revert s k. induction n as [| n IH]; intros s [| k] Hk; try lia;
    rewrite arithmetic_succ; simpl nth.
  - lia.
  - rewrite IH by lia. lia.
Qed.

Lemma arithmetic_sorted (s d : Z) (n : nat) :
  0 < d -> StronglySorted Z.lt (arithmetic s d n).
Proof.
  intros Hd. revert s. induction n as [| n IH]; intros s.
  - constructor.
  - rewrite arithmetic_succ. constructor; [apply IH | ].
    apply Forall_forall. intros t Ht.
    apply arithmetic_In in Ht as (k & _ & ->). nia.
Qed.

Lemma advance (c d : Z) :
  JSDate.setMinutes (Some (atMinute c))
    (js_add (JSDate.getMinutes (Some (atMinute c))) (Num d))
  = JSDate.TimeClip (atMinute (c + d)).
Proof.
  unfold JSDate.setMinutes, JSDate.getMinutes, js_add. f_equal.
  unfold atMinute. ring.
Qed.

Lemma TimeClip_day (c : Z) :
  0 <= c <= 1440 -> JSDate.TimeClip (atMinute c) = Some (atMinute c).
Proof.
  intros H. unfold JSDate.TimeClip, atMinute, JSDate.msPerMinute.
  destruct (Z.leb_spec (Z.abs (946684800000 + 60000 * c)) 8640000000000000);
    [reflexivity | lia].
Qed.

Lemma lt_atMinute (a b : Z) :
  JSDate.lt (Some (atMinute a)) (Some (atMinute b)) = (a <? b).
Proof.
  unfold JSDate.lt, atMinute, JSDate.msPerMinute.
  destruct (Z.ltb_spec a b), (Z.ltb_spec (946684800000 + 60000 * a)
                                (946684800000 + 60000 * b)); lia.
Qed.

Section Loop.

Context {A : Type} (mk : string -> A).

Lemma slot_loop_S (fuel : nat) (current endTime : JSDate.Date)
    (duration : number) (slots : list A) :
  slot_loop mk (S fuel) current endTime duration slots
  = if JSDate.lt current endTime
    then slot_loop mk fuel
           (JSDate.setMinutes current
              (js_add (JSDate.getMinutes current) duration))
           endTime duration
           (slots ++ [mk (JSDate.toTimeString5 current)])%list
    else Some slots.
Proof. reflexivity. Qed.

(** Once the current time is not before the end, the loop returns what
    it has. *)
Lemma slot_loop_stop (fuel : nat) (current : JSDate.Date) (e : Z)
    (duration : number) (slots : list A) :
  (0 < fuel)%nat ->
  match current with Some t => atMinute e <= t | None => True end ->
  slot_loop mk fuel current (Some (atMinute e)) duration slots = Some slots.
Proof.
  intros Hf Hc. destruct fuel as [| fuel]; [lia | ]. simpl.
  destruct current as [t |]; simpl; [ | reflexivity].
  destruct (Z.ltb_spec t (atMinute e)); [lia | reflexivity].
Qed.

(** With a positive duration the loop emits the times
    [c, c + d, c + 2d, ...] that lie before [e]. *)
Lemma slot_loop_run (e d : Z) :
  0 < d -> e <= 1440 ->
  forall (n : nat) (c : Z) (slots : list A) (fuel : nat),
    0 <= c -> slotCount c e d = n -> (n < fuel)%nat ->
    slot_loop mk fuel (Some (atMinute c)) (Some (atMinute e)) (Num d) slots
    = Some (slots ++ map (fun t => mk (clock t)) (arithmetic c d n))%list.
Proof.
  intros Hd He. induction n as [| n IH]; intros c slots fuel Hc Hn Hf.
  - rewrite app_nil_r. apply slot_loop_stop; [lia | ].
    destruct (Z.lt_ge_cases c e) as [Hlt | Hge].
    + rewrite slotCount_succ in Hn by assumption. discriminate.
    + unfold atMinute, JSDate.msPerMinute. lia.
  - destruct (Z.lt_ge_cases c e) as [Hlt | Hge];
      [ | rewrite slotCount_zero in Hn by assumption; discriminate].
    rewrite slotCount_succ in Hn by assumption. injection Hn as Hn.
    destruct fuel as [| fuel]; [lia | ]. rewrite slot_loop_S.
    rewrite lt_atMinute. replace (c <? e) with true by lia.
    rewrite advance, arithmetic_succ. simpl map.
    change (JSDate.toTimeString5 (Some (atMinute c))) with (clock c).
    destruct (Z.lt_ge_cases (c + d) e) as [Hnext | Hlast].
    + rewrite TimeClip_day by lia.
      rewrite (IH (c + d)) by (assumption || lia).
      rewrite <- app_assoc. reflexivity.
    + rewrite slotCount_zero in Hn by assumption. subst n. simpl.
      apply slot_loop_stop; [lia | ].
      unfold JSDate.TimeClip.
      destruct (Z.abs (atMinute (c + d)) <=? 8640000000000000);
        [unfold atMinute, JSDate.msPerMinute; lia | exact I].
Qed.

(** With duration 0 and the current time before the end, the loop is
    still running whatever the fuel. *)
Lemma slot_loop_zero (c e : Z) :
  c < e -> 0 <= c <= 1440 ->
  forall (fuel : nat) (slots : list A),
    slot_loop mk fuel (Some (atMinute c)) (Some (atMinute e)) (Num 0) slots
    = None.
Proof.
  intros Hlt Hc. induction fuel as [| fuel IH]; intros slots; [reflexivity | ].
  rewrite slot_loop_S, lt_atMinute. replace (c <? e) with true by lia.
  rewrite advance. replace (c + 0) with c by lia.
  rewrite TimeClip_day by lia. apply IH.
Qed.

End Loop.

Lemma clock_not_empty (s : string) (k : Z) :
  clockMinutes s = Some k -> falsy s = false.
Proof.
  unfold clockMinutes. destruct (JSDate.ofClock s) as [t |] eqn:E; [ | discriminate].
  destruct (ofClock_inv _ _ E) as (hh & mm & _ & _ & _ & _ & ->).
  reflexivity.
Qed.

(** C3. For clock times [start] before [end_] and a positive duration,
    every copy of the generator returns (with enough fuel for its loop)
    the clock strings of the times [s, s + d, s + 2d, ...] that lie before
    the end: the list begins at [start], is strictly increasing,
    consecutive times differ by exactly [d], every time [t] satisfies
    [s <= t < e], and the first time of the progression that is not
    before [e] is left out. *)
Theorem generateTimeSlots_bounds (start end_ : string) (s e d : Z) :
  clockMinutes start = Some s ->
  clockMinutes end_ = Some e ->
  s < e ->
  0 < d ->
  let n := slotCount s e d in
  let times := arithmetic s d n in
  (forall fuel, (n < fuel)%nat ->
     OptimizedSlotBooking.generateTimeSlots fuel start end_ (Num d)
       = Some (map (fun t => freeSlot (clock t)) times)
     /\ OptimizeDatabase.generateTimeSlots fuel start end_ (Num d)
       = Some (map clock times)
     /\ AppointmentBooking.generateSlots fuel start end_ (Num d)
       = Some (map (fun t => freeSlot (clock t)) times))
  /\ hd_error (map clock times) = Some start
  /\ StronglySorted Z.lt times
  /\ (forall k, (S k < n)%nat -> nth (S k) times 0 = nth k times 0 + d)
  /\ (forall t, In t times ->
        s <= t < e /\ clockMinutes (clock t) = Some t)
  /\ e <= s + Z.of_nat n * d.
Proof.
  intros Hs He Hlt Hd n times.
  pose proof (clock_not_empty _ _ Hs) as Fs.
  pose proof (clock_not_empty _ _ He) as Fe.
  pose proof (clock_clockMinutes _ _ Hs) as Rs.
  apply clockMinutes_inv in Hs as [Ps Bs], He as [Pe Be].
  repeat split.
  - unfold OptimizedSlotBooking.generateTimeSlots, JSDate.copy.
    rewrite Fs, Fe, Ps, Pe. simpl orb. cbv iota.
    exact (slot_loop_run freeSlot e d Hd (proj2 Be) n s [] fuel
             (proj1 Bs) eq_refl H).
  - unfold OptimizeDatabase.generateTimeSlots, JSDate.copy.
    rewrite Ps, Pe.
    rewrite (slot_loop_run (fun t => t) e d Hd (proj2 Be) n s [] fuel
               (proj1 Bs) eq_refl H).
    reflexivity.
  - unfold AppointmentBooking.generateSlots.
    rewrite Fs, Fe, Ps, Pe. simpl orb. cbv iota.
    exact (slot_loop_run freeSlot e d Hd (proj2 Be) n s [] fuel
             (proj1 Bs) eq_refl H).
  - subst times n. rewrite slotCount_succ, arithmetic_succ by assumption.
    simpl. f_equal. apply Rs. lia.
  - apply arithmetic_sorted; assumption.
  - intros k Hk. subst times. rewrite !arithmetic_nth by lia. lia.
  - apply arithmetic_In in H as (k & Hk & ->). nia.
  - apply arithmetic_In in H as (k & Hk & ->).
    apply slotCount_spec in Hk; assumption.
  - apply arithmetic_In in H as (k & Hk & ->).
    apply slotCount_spec in Hk; [ | assumption].
    apply clockMinutes_clock. nia.
  - destruct (Z.lt_ge_cases (s + Z.of_nat n * d) e) as [Hc | Hc];
      [ | assumption].
    apply slotCount_spec in Hc; [ | assumption]. subst n. lia.
Qed.

(** The morning session of the end-to-end example: 09:00 to 10:00 in steps
    of 30 minutes. *)
Lemma generateTimeSlots_bounds_witness :
  OptimizedSlotBooking.generateTimeSlots 3 "09:00" "10:00" (Num 30)
  = Some [freeSlot "09:00"; freeSlot "09:30"]
  /\ 600 <= 540 + 2 * 30.
Proof.
  pose proof (generateTimeSlots_bounds "09:00" "10:00" 540 600 30
                eq_refl eq_refl eq_refl eq_refl) as (Hrun & _ & _ & _ & _ & Hend).
  split.
  - exact (proj1 (Hrun 3%nat (Nat.lt_succ_diag_r 2))).
  - exact Hend.
Defined.

(** C6, as the code has it.  The generators do not check the duration
    and raise no error: with a duration that is not positive and [start]
    not before [end_], every copy returns the empty list. *)
Theorem generateTimeSlots_nonpositive (start end_ : string) (s e d : Z)
    (fuel : nat) :
  clockMinutes start = Some s ->
  clockMinutes end_ = Some e ->
  d <= 0 ->
  e <= s ->
  (0 < fuel)%nat ->
  OptimizedSlotBooking.generateTimeSlots fuel start end_ (Num d) = Some []
  /\ OptimizeDatabase.generateTimeSlots fuel start end_ (Num d) = Some []
  /\ AppointmentBooking.generateSlots fuel start end_ (Num d) = Some [].
Proof.
  intros Hs He _ Hle Hf.
  pose proof (clock_not_empty _ _ Hs) as Fs.
  pose proof (clock_not_empty _ _ He) as Fe.
  apply clockMinutes_inv in Hs as [Ps Bs], He as [Pe Be].
  assert (atMinute e <= atMinute s) as Hms
    by (unfold atMinute, JSDate.msPerMinute; lia).
  unfold OptimizedSlotBooking.generateTimeSlots,
    OptimizeDatabase.generateTimeSlots, AppointmentBooking.generateSlots,
    JSDate.copy.
  rewrite Fs, Fe, Ps, Pe. simpl orb. cbv iota.
  repeat split; apply slot_loop_stop; assumption.
Qed.

Lemma generateTimeSlots_nonpositive_witness :
  OptimizedSlotBooking.generateTimeSlots 1 "10:00" "09:00" (Num (-30)) = Some [].
Proof.
  exact (proj1 (generateTimeSlots_nonpositive "10:00" "09:00" 600 540 (-30) 1
                  eq_refl eq_refl ltac:(lia) ltac:(lia) (Nat.lt_0_succ 0))).
Defined.

(** With duration 0 and [start] before [end_] the loop of the generators
    never ends: it emits [start] again and again. *)
Lemma generateTimeSlots_zero_duration (start end_ : string) (s e : Z) :
  clockMinutes start = Some s ->
  clockMinutes end_ = Some e ->
  s < e ->
  forall fuel,
    OptimizedSlotBooking.generateTimeSlots fuel start end_ (Num 0) = None
    /\ OptimizeDatabase.generateTimeSlots fuel start end_ (Num 0) = None
    /\ AppointmentBooking.generateSlots fuel start end_ (Num 0) = None.
Proof.
  intros Hs He Hlt fuel.
  pose proof (clock_not_empty _ _ Hs) as Fs.
  pose proof (clock_not_empty _ _ He) as Fe.
  apply clockMinutes_inv in Hs as [Ps Bs], He as [Pe Be].
  unfold OptimizedSlotBooking.generateTimeSlots,
    OptimizeDatabase.generateTimeSlots, AppointmentBooking.generateSlots,
    JSDate.copy.
  rewrite Fs, Fe, Ps, Pe. simpl orb. cbv iota.
  repeat split; apply slot_loop_zero; lia.
Qed.

(** C6 fails on the code.  No generator checks the duration: with
    duration 0 the call for 10:00 to 09:00 returns the empty slot list,
    and the call for 09:00 to 10:00 never returns. *)
Lemma nonpositive_duration_not_rejected :
  OptimizedSlotBooking.generateTimeSlots 1 "10:00" "09:00" (Num 0) = Some []
  /\ (forall fuel,
        OptimizedSlotBooking.generateTimeSlots fuel "09:00" "10:00" (Num 0)
        = None).
Proof.
  split; [reflexivity | ].
  intros fuel.
  exact (proj1 (generateTimeSlots_zero_duration "09:00" "10:00" 540 600
                  eq_refl eq_refl eq_refl fuel)).
Qed.

(* ================================================================== *)
(** * Off days *)
(* ================================================================== *)

(** The slot booking component shows nothing for an off day, whatever the
    other fields of the day entry hold. *)
Lemma processScheduleSlots_offDay (fuel : nat) (sd : DaySchedule) :
  isOffDay sd = true ->
  OptimizedSlotBooking.processScheduleSlots fuel (Some sd) = Some noSlots.
Proof.
  intros H. unfold OptimizedSlotBooking.processScheduleSlots.
  rewrite H. reflexivity.
Qed.

(** The same holds for what the component shows for an answer of the
    slots route. *)
Lemma shownSlots_offDay (fuel : nat) (a : SlotsOptimizedRoute.SlotsAnswer)
    (sd : DaySchedule) :
  SlotsOptimizedRoute.schedule a = SlotsOptimizedRoute.OneDay sd ->
  isOffDay sd = true ->
  SlotsOptimizedRoute.shownSlots fuel (Json a) = Some noSlots.
Proof.
  intros Ha Ho. unfold SlotsOptimizedRoute.shownSlots. rewrite Ha.
  apply processScheduleSlots_offDay. assumption.
Qed.

(** So does the booking dialog as long as the answer of the schedule
    route carries no date range. *)
Lemma generateTimeSlots_offDay (fuel : nat) (selectedDate : string)
    (data : ScheduleAnswer) (before : SlotState) (sd : DaySchedule) :
  falsy selectedDate = false ->
  currentDateRange data = None ->
  findDay (JSDate.weekdayLong (JSDate.parse selectedDate)) (ansDays data)
  = Some sd ->
  isOffDay sd = true ->
  AppointmentBooking.generateTimeSlots fuel selectedDate data before
  = Some noSlots.
Proof.
  intros Hd Hr Hf Ho. unfold AppointmentBooking.generateTimeSlots.
  rewrite Hd, Hr, Hf, Ho. reflexivity.
Qed.

(** C7 on the code.  The branch of the booking dialog for a date range
    hands the day entry to [generateSlotsForDay] without looking at
    [isOffDay]: for Monday 2025-09-15, inside a date range whose Monday is
    an off day with a 09:00 to 10:00 window, the dialog shows the slots
    09:00 and 09:30. *)
Lemma offDay_in_dateRange_has_slots :
  isOffDay offMonday = true
  /\ ScheduleRoute.GET [rangedSchedule] doctorX (Some "2025-09-15")
     = Json {| source := Some rangedSchedule; ansDays := [offMonday];
               selectedDay := None; currentDateRange := Some septemberRange;
               scheduleType := "date-range-specific";
               isWithinRange := Some true;
               ansDayOfWeek := Some "Monday" |}
  /\ fetchAvailableSlots 10 [rangedSchedule] doctorX "2025-09-15" noSlots
     = Some (mkSlotState [freeSlot "09:00"; freeSlot "09:30"] []).
Proof. repeat split; vm_compute; reflexivity. Qed.

(* ================================================================== *)
(** * The default schedule *)
(* ================================================================== *)

Lemma findOne_none {A : Type} (q : A -> bool) (coll : list A) :
  (forall x, In x coll -> q x = false) -> findOne q coll = None.
Proof.
  intros H. unfold findOne.
  destruct (find q coll) as [x |] eqn:E; [ | reflexivity].
  apply find_some in E as [Hin Hq]. rewrite (H x Hin) in Hq. discriminate.
Qed.

Lemma findOne_some {A : Type} (q : A -> bool) (coll : list A) (x : A) :
  findOne q coll = Some x -> In x coll /\ q x = true.
Proof. apply find_some. Qed.

Lemma findOne_exists {A : Type} (q : A -> bool) (coll : list A) (x : A) :
  In x coll -> q x = true -> exists y, findOne q coll = Some y.
Proof.
  intros Hin Hq. unfold findOne.
  destruct (find q coll) as [y |] eqn:E; [exists y; reflexivity | ].
  rewrite (find_none _ _ E x Hin) in Hq. discriminate.
Qed.

(** [getDefaultSchedule] is what the specification describes: Monday to
    Saturday 09:00 to 12:00 and 14:00 to 18:00, Sunday off. *)
Lemma getDefaultSchedule_days :
  map dayOfWeek getDefaultSchedule = weekdays
  /\ forall d, In d getDefaultSchedule ->
       if String.eqb (dayOfWeek d) "Sunday"
       then isOffDay d = true
            /\ morningStart d = None /\ morningEnd d = None
            /\ eveningStart d = None /\ eveningEnd d = None
       else isOffDay d = false
            /\ morningStart d = Some "09:00" /\ morningEnd d = Some "12:00"
            /\ eveningStart d = Some "14:00" /\ eveningEnd d = Some "18:00".
Proof.
  split; [reflexivity | ].
  intros d Hd. simpl in Hd.
  repeat (destruct Hd as [<- | Hd]; [simpl; repeat split | ]).
  destruct Hd.
Qed.

(** The optimized schedule route answers with [getDefaultSchedule] when
    the doctor has no schedule document at all. *)
Lemma ScheduleOptimized_default (docs : list ScheduleDoc)
    (doctorId : string) (oid : ObjectId) (date dayOfWeek : option string) :
  ObjectId_of doctorId = Some oid ->
  (forall s, In s docs -> ofDoctor oid s = false) ->
  exists a,
    ScheduleOptimizedRoute.GET docs doctorId date dayOfWeek = Json a
    /\ ansDays a = getDefaultSchedule
    /\ scheduleType a = "default"
    /\ source a = None.
Proof.
  intros Hid Hnone.
  assert (forall q, findOne (fun s => ofDoctor oid s && q s) docs = None) as F.
  { intros q. apply findOne_none. intros s Hs. rewrite (Hnone s Hs). reflexivity. }
  assert (findOne (ofDoctor oid) docs = None) as F0
    by (apply findOne_none; assumption).
  unfold ScheduleOptimizedRoute.GET. rewrite Hid.
  assert (forall dow, ScheduleOptimizedRoute.dayStrategies docs oid date dow
                      = None) as D.
  { intros dow. unfold ScheduleOptimizedRoute.dayStrategies.
    replace (findOne (fun s => ofDoctor oid s && coversDate _ s && hasDay dow s) docs)
      with (@None ScheduleDoc).
    2:{ symmetry. apply findOne_none. intros s Hs.
        rewrite (Hnone s Hs). reflexivity. }
    replace (findOne (fun s => ofDoctor oid s && noWeekBounds s && hasDay dow s) docs)
      with (@None ScheduleDoc).
    2:{ symmetry. apply findOne_none. intros s Hs.
        rewrite (Hnone s Hs). reflexivity. }
    rewrite (F (hasDay dow)).
    destruct (ofalsy date); reflexivity. }
  rewrite D.
  eexists. split.
  - destruct (ofalsy _); reflexivity.
  - unfold ScheduleOptimizedRoute.fullStrategies.
    rewrite !F, F0. destruct (ofalsy date); repeat split.
Qed.

(** The schedule route answers with the default written out in its
    handler. *)
Lemma ScheduleRoute_default (docs : list ScheduleDoc)
    (doctorId date : string) (oid : ObjectId) (rd : Z) :
  ObjectId_of doctorId = Some oid ->
  JSDate.parse date = Some rd ->
  (forall s, In s docs -> ofDoctor oid s = false) ->
  exists a,
    ScheduleRoute.GET docs doctorId (Some date) = Json a
    /\ ansDays a = ScheduleRoute.defaultDays
    /\ scheduleType a = "default"
    /\ source a = None.
Proof.
  intros Hid Hd Hnone.
  assert (forall q, findOne (fun s => ofDoctor oid s && q s) docs = None) as F.
  { intros q. apply findOne_none. intros s Hs. rewrite (Hnone s Hs). reflexivity. }
  assert (findOne (ofDoctor oid) docs = None) as F0
    by (apply findOne_none; assumption).
  assert (ScheduleRoute.afterWeekSpecific docs oid (Some date)
          = Json {| source := None; ansDays := ScheduleRoute.defaultDays;
                    selectedDay := None; currentDateRange := None;
                    scheduleType := "default"; isWithinRange := Some true;
                    ansDayOfWeek := None |}) as A.
  { unfold ScheduleRoute.afterWeekSpecific. rewrite F, F0. reflexivity. }
  unfold ScheduleRoute.GET. rewrite Hid.
  eexists. split.
  - destruct (ofalsy (Some date)); [exact A | ].
    assert (or_else (Some date) "" = date) as ->.
    { unfold or_else. destruct date; reflexivity. }
    rewrite Hd, F. exact A.
  - repeat split.
Qed.

(** C8 on the code.  For a doctor without any schedule document the
    schedule route synthesizes Monday to Saturday 08:00 to 11:00 and 16:00
    to 21:00, not the windows of [getDefaultSchedule]; the optimized
    route, asked the same question, answers with 09:00 to 12:00 and 14:00
    to 18:00. *)
Lemma schedule_route_default_differs :
  (exists a,
     ScheduleRoute.GET [] doctorX (Some "2025-09-15") = Json a
     /\ scheduleType a = "default"
     /\ map (fun d => (dayOfWeek d, isOffDay d, morningStart d, morningEnd d,
                       eveningStart d, eveningEnd d)) (ansDays a)
        = [ ("Monday", false, Some "08:00", Some "11:00", Some "16:00", Some "21:00");
            ("Tuesday", false, Some "08:00", Some "11:00", Some "16:00", Some "21:00");
            ("Wednesday", false, Some "08:00", Some "11:00", Some "16:00", Some "21:00");
            ("Thursday", false, Some "08:00", Some "11:00", Some "16:00", Some "21:00");
            ("Friday", false, Some "08:00", Some "11:00", Some "16:00", Some "21:00");
            ("Saturday", false, Some "08:00", Some "11:00", Some "16:00", Some "21:00");
            ("Sunday", true, None, None, None, None) ])
  /\ (exists a,
        ScheduleOptimizedRoute.GET [] doctorX (Some "2025-09-15") None = Json a
        /\ scheduleType a = "default"
        /\ map (fun d => (dayOfWeek d, isOffDay d, morningStart d, morningEnd d,
                          eveningStart d, eveningEnd d)) (ansDays a)
           = [ ("Monday", false, Some "09:00", Some "12:00", Some "14:00", Some "18:00");
               ("Tuesday", false, Some "09:00", Some "12:00", Some "14:00", Some "18:00");
               ("Wednesday", false, Some "09:00", Some "12:00", Some "14:00", Some "18:00");
               ("Thursday", false, Some "09:00", Some "12:00", Some "14:00", Some "18:00");
               ("Friday", false, Some "09:00", Some "12:00", Some "14:00", Some "18:00");
               ("Saturday", false, Some "09:00", Some "12:00", Some "14:00", Some "18:00");
               ("Sunday", true, None, None, None, None) ]).
Proof.
  split; eexists; (split; [vm_compute; reflexivity | split; reflexivity]).
Qed.

(* ================================================================== *)
(** * The fallback chain *)
(* ================================================================== *)

Lemma ObjectId_of_not_empty (s : string) (oid : ObjectId) :
  ObjectId_of s = Some oid -> falsy s = false.
Proof. destruct s; [discriminate | reflexivity]. Qed.


Lemma or_else_Some (s d : string) : falsy s = false -> or_else (Some s) d = s.
Proof. intros H. unfold or_else. rewrite H. reflexivity. Qed.

Lemma ofalsy_Some (s : string) : ofalsy (Some s) = falsy s.
Proof. reflexivity. Qed.


Lemma general_provenance (g : ScheduleDoc) (date : option string) :
  let a := ScheduleRoute.general g date in
  (source a = Some g /\ ansDays a = days g
   /\ (scheduleType a = "general" \/ scheduleType a = "date-range-specific"))
  \/ (source a = None /\ ansDays a = [] /\ scheduleType a = "none"
      /\ allowOutsideRange g = Some false).
Proof.
  unfold ScheduleRoute.general.
  destruct date as [d |]; [ | left; repeat split; left; reflexivity].
  destruct (falsy d); [left; repeat split; left; reflexivity | ].
  destruct (dateRanges g) as [ranges |];
    [ | left; repeat split; left; reflexivity].
  destruct (find _ ranges); [left; repeat split; right; reflexivity | ].
  destruct (allowOutsideRange g) as [[|] |];
    try (left; repeat split; left; reflexivity).
  right. repeat split.
Qed.

Lemma weekSpecific_provenance (w : ScheduleDoc) (rd : Z) :
  let a := ScheduleRoute.weekSpecific w rd in
  source a = Some w /\ ansDays a = days w
  /\ (scheduleType a = "week-specific" \/ scheduleType a = "date-specific").
Proof.
  unfold ScheduleRoute.weekSpecific.
  destruct (days w) as [| first rest] eqn:E; [repeat split; left; reflexivity | ].
  destruct (date first); [ | repeat split; left; reflexivity].
  destruct (find _ (first :: rest));
    repeat split; (left; reflexivity) || (right; reflexivity).
Qed.




(* ================================================================== *)
(** * Booking *)
(* ================================================================== *)

Lemma holdsSlot_iff (did : ObjectId) (date time : string) (a : Appointment.t) :
  holdsSlot did date time a = true
  <-> Appointment.doctorId a = did /\ Appointment.date a = date
      /\ Appointment.time a = time
      /\ (Appointment.status a = pending \/ Appointment.status a = confirmed).
Proof.
  unfold holdsSlot. rewrite !andb_true_iff, !String.eqb_eq.
  destruct (Appointment.status a); simpl; intuition congruence.
Qed.

Lemma holdsSlot_holds (r : BookingRequest) (did : ObjectId) (a : Appointment.t) :
  ObjectId_of (or_else (req_doctorId r) "") = Some did ->
  holdsSlot did (or_else (req_date r) "") (or_else (req_time r) "") a = true
  <-> holds r a.
Proof.
  intros Hid. rewrite holdsSlot_iff. unfold holds. rewrite Hid.
  intuition congruence.
Qed.

Lemma insertOne_Some (u : bool) (doc : Appointment.t)
    (coll c : list Appointment.t) :
  insertOne u doc coll = Some c ->
  c = (coll ++ [doc])%list
  /\ forall x, In x coll -> Appointment._id x <> Appointment._id doc.
Proof.
  unfold insertOne.
  destruct (existsb _ coll) eqn:E; simpl; [discriminate | ].
  destruct (u && _); [discriminate | ].
  intros H. split; [congruence | ].
  intros x Hx Heq.
  assert (existsb (fun a => String.eqb (Appointment._id a)
                              (Appointment._id doc)) coll = true) as E'.
  { apply existsb_exists. exists x. split; [assumption | ].
    apply String.eqb_eq; assumption. }
  congruence.
Qed.

Lemma insertOne_canInsert (db : Db) (doc : Appointment.t) :
  canInsert db (Appointment._id doc) (Appointment.appointmentKey doc) = true ->
  insertOne (appointmentKey_idx db) doc (appointments db)
  = Some (appointments db ++ [doc])%list.
Proof.
  unfold canInsert, insertOne. intros H.
  apply andb_true_iff in H as [H1 H2].
  apply negb_true_iff in H1, H2. rewrite H1, H2. reflexivity.
Qed.

(** What the handlers answer after the conflict check is never the
    conflict. *)
Lemma store_answer (db : Db) (env : Env) (r : BookingRequest) (name : string) :
  (exists a, AppointmentsRoute.store db env r name
             = (Json (AppointmentSaved a),
                withAppointments db (appointments db ++ [a])%list)
             /\ newAppointment env r
                  (or_else (req_appointmentKey r) (decimal (randomKey env)))
                  name = Some a
             /\ forall x, In x (appointments db) ->
                          Appointment._id x <> Appointment._id a)
  \/ AppointmentsRoute.store db env r name
     = (Error 500 "Failed to create appointment", db).
Proof.
  unfold AppointmentsRoute.store.
  destruct (newAppointment env r _ name) as [a |]; simpl; [ | right; reflexivity].
  destruct (insertOne _ a _) as [c |] eqn:E; simpl; [ | right; reflexivity].
  apply insertOne_Some in E as [-> Hfresh].
  left. exists a. repeat split. assumption.
Qed.

Lemma create_answer (db : Db) (env : Env) (r : BookingRequest) :
  (exists a name, AppointmentsRoute.create db env r
                  = (Json (AppointmentSaved a),
                     withAppointments db (appointments db ++ [a])%list)
                  /\ newAppointment env r
                       (or_else (req_appointmentKey r)
                          (decimal (randomKey env))) name = Some a
                  /\ forall x, In x (appointments db) ->
                               Appointment._id x <> Appointment._id a)
  \/ AppointmentsRoute.create db env r
     = (Error 500 "Failed to create appointment", db).
Proof.
  unfold AppointmentsRoute.create.
  destruct (finalPatientName db r) as [name |]; [ | right; reflexivity].
  destruct (store_answer db env r name) as [(a & H1 & H2 & H3) | H].
  - left. exists a, name. repeat split; assumption.
  - right. assumption.
Qed.

Lemma newAppointment_fields (env : Env) (r : BookingRequest)
    (key name : string) (a : Appointment.t) :
  newAppointment env r key name = Some a ->
  ObjectId_of (or_else (req_doctorId r) "") = Some (Appointment.doctorId a)
  /\ ObjectId_of (or_else (req_patientId r) "") = Some (Appointment.patientId a)
  /\ Appointment._id a = newObjectId env
  /\ Appointment.appointmentKey a = key
  /\ Appointment.date a = or_else (req_date r) ""
  /\ Appointment.time a = or_else (req_time r) ""
  /\ Appointment.status a = pending.
Proof.
  unfold newAppointment.
  destruct (ObjectId_of (or_else (req_doctorId r) "")) as [did |];
    [ | discriminate].
  destruct (ObjectId_of (or_else (req_patientId r) "")) as [pid |];
    [ | discriminate].
  simpl. intros H. injection H as <-. repeat split.
Qed.

(** The appointments route, case by case. *)
Lemma POST_cases (db : Db) (env : Env) (r : BookingRequest) :
  requiredMissing r = false ->
  AppointmentsRoute.POST db env r
  = match ObjectId_of (or_else (req_doctorId r) "") with
    | None => (Error 500 "Failed to create appointment", db)
    | Some did =>
        match findOne (holdsSlot did (or_else (req_date r) "")
                         (or_else (req_time r) "")) (appointments db) with
        | Some _ => (conflict, db)
        | None => AppointmentsRoute.create db env r
        end
    end.
Proof. intros H. unfold AppointmentsRoute.POST. rewrite H. reflexivity. Qed.

Lemma no_holder (r : BookingRequest) (did : ObjectId)
    (coll : list Appointment.t) :
  ObjectId_of (or_else (req_doctorId r) "") = Some did ->
  (forall a, In a coll -> ~ holds r a) ->
  findOne (holdsSlot did (or_else (req_date r) "") (or_else (req_time r) ""))
    coll = None.
Proof.
  intros Hid H. apply findOne_none. intros a Ha.
  destruct (holdsSlot did _ _ a) eqn:E; [ | reflexivity].
  apply (holdsSlot_holds r did a Hid) in E. destruct (H a Ha E).
Qed.

Lemma holder_found (r : BookingRequest) (did : ObjectId)
    (coll : list Appointment.t) (a : Appointment.t) :
  ObjectId_of (or_else (req_doctorId r) "") = Some did ->
  In a coll -> holds r a ->
  exists e,
    findOne (holdsSlot did (or_else (req_date r) "") (or_else (req_time r) ""))
      coll = Some e.
Proof.
  intros Hid Ha Hh. apply findOne_exists with a; [assumption | ].
  apply (holdsSlot_holds r did a Hid). assumption.
Qed.

Lemma store_saves (db : Db) (env : Env) (r : BookingRequest)
    (did pid : ObjectId) (name : string) :
  ObjectId_of (or_else (req_doctorId r) "") = Some did ->
  ObjectId_of (or_else (req_patientId r) "") = Some pid ->
  canInsert db (newObjectId env)
    (or_else (req_appointmentKey r) (decimal (randomKey env))) = true ->
  exists a,
    AppointmentsRoute.store db env r name
    = (Json (AppointmentSaved a),
       withAppointments db (appointments db ++ [a])%list)
    /\ Appointment._id a = newObjectId env
    /\ Appointment.doctorId a = did
    /\ Appointment.patientId a = pid
    /\ Appointment.date a = or_else (req_date r) ""
    /\ Appointment.time a = or_else (req_time r) ""
    /\ Appointment.status a = pending.
Proof.
  intros Hd Hp Hins.
  assert (exists a, newAppointment env r
                      (or_else (req_appointmentKey r) (decimal (randomKey env)))
                      name = Some a) as [a Ha].
  { unfold newAppointment. rewrite Hd, Hp. simpl. eexists. reflexivity. }
  exists a.
  destruct (newAppointment_fields _ _ _ _ _ Ha)
    as (F1 & F2 & F3 & F4 & F5 & F6 & F7).
  split.
  - unfold AppointmentsRoute.store. rewrite Ha. simpl bind.
    rewrite insertOne_canInsert by (rewrite F3, F4; assumption).
    reflexivity.
  - repeat split; congruence.
Qed.

(** A booking goes through when the fields are present and well formed,
    nobody holds the slot and the write is accepted. *)
Lemma POST_saves (db : Db) (env : Env) (r : BookingRequest)
    (did pid : ObjectId) :
  requiredMissing r = false ->
  ObjectId_of (or_else (req_doctorId r) "") = Some did ->
  ObjectId_of (or_else (req_patientId r) "") = Some pid ->
  (forall a, In a (appointments db) -> ~ holds r a) ->
  canInsert db (newObjectId env)
    (or_else (req_appointmentKey r) (decimal (randomKey env))) = true ->
  exists a,
    AppointmentsRoute.POST db env r
    = (Json (AppointmentSaved a),
       withAppointments db (appointments db ++ [a])%list)
    /\ Appointment._id a = newObjectId env
    /\ Appointment.doctorId a = did
    /\ Appointment.patientId a = pid
    /\ Appointment.date a = or_else (req_date r) ""
    /\ Appointment.time a = or_else (req_time r) ""
    /\ Appointment.status a = pending.
Proof.
  intros Hreq Hd Hp Hfree Hins.
  rewrite POST_cases, Hd, (no_holder r did _ Hd Hfree) by assumption.
  unfold AppointmentsRoute.create, finalPatientName. rewrite Hp.
  destruct (ofalsy (req_patientName r)); simpl bind; cbv iota beta;
    apply store_saves; assumption.
Qed.

(* ================================================================== *)
(** * Cancellation *)
(* ================================================================== *)

Lemma present_of_ObjectId (o : option string) (oid : ObjectId) :
  ObjectId_of (or_else o "") = Some oid -> ofalsy o = false.
Proof.
  destruct o as [s |]; [ | discriminate].
  unfold or_else. simpl. destruct (falsy s) eqn:E; [discriminate | reflexivity].
Qed.

Lemma ids_apart (l1 l2 : list Appointment.t) (a : Appointment.t) :
  NoDup (map Appointment._id (l1 ++ a :: l2)) ->
  forall x, In x (l1 ++ l2) -> Appointment._id x <> Appointment._id a.
Proof.
  rewrite map_app. simpl. intros H x Hx Heq.
  apply NoDup_remove_2 in H. apply H.
  rewrite <- map_app, <- Heq. apply in_map. assumption.
Qed.

(** With unique ids, a query on [_id] finds the document or nothing. *)
Lemma findOne_by_id (q : Appointment.t -> bool) (l1 l2 : list Appointment.t)
    (a : Appointment.t) :
  NoDup (map Appointment._id (l1 ++ a :: l2)) ->
  findOne (fun x => String.eqb (Appointment._id x) (Appointment._id a) && q x)
    (l1 ++ a :: l2)
  = if q a then Some a else None.
Proof.
  intros H. pose proof (ids_apart _ _ _ H) as Hne. clear H.
  unfold findOne. induction l1 as [| x l1 IH]; simpl.
  - rewrite String.eqb_refl. simpl. destruct (q a); [reflexivity | ].
    apply findOne_none. intros y Hy.
    destruct (String.eqb_spec (Appointment._id y) (Appointment._id a)) as [E | E];
      [ | reflexivity].
    destruct (Hne y Hy E).
  - destruct (String.eqb_spec (Appointment._id x) (Appointment._id a)) as [E | E].
    + destruct (Hne x (or_introl eq_refl) E).
    + simpl. apply IH. intros y Hy. apply Hne. right. assumption.
Qed.

Lemma cancelOne_at (at_ : Z) (l1 l2 : list Appointment.t) (a : Appointment.t) :
  (forall x, In x l1 -> Appointment._id x <> Appointment._id a) ->
  AppointmentsRoute.cancelOne (Appointment._id a) at_ (l1 ++ a :: l2)
  = ((l1 ++ AppointmentsRoute.setCancelled a at_ :: l2)%list,
     if Status_eqb (Appointment.status a) cancelled
        && (Appointment.updatedAt a =? at_)
     then 0 else 1).
Proof.
  induction l1 as [| x l1 IH]; intros Hne; simpl.
  - rewrite String.eqb_refl. reflexivity.
  - destruct (String.eqb_spec (Appointment._id x) (Appointment._id a)) as [E | E].
    + destruct (Hne x (or_introl eq_refl) E).
    + rewrite IH by (intros y Hy; apply Hne; right; assumption). reflexivity.
Qed.

Lemma Status_eqb_eq (a b : Status) : Status_eqb a b = true <-> a = b.
Proof. destruct a, b; simpl; split; congruence. Qed.

(** What a successful [PUT] did. *)
Lemma PUT_success (db db' : Db) (env : Env)
    (r : AppointmentsRoute.UpdateRequest) :
  AppointmentsRoute.PUT db env r = (Json tt, db') ->
  exists aid pid a,
    ObjectId_of (or_else (AppointmentsRoute.appointmentId r) "") = Some aid
    /\ ObjectId_of (or_else (AppointmentsRoute.upd_patientId r) "") = Some pid
    /\ findOne (fun a => String.eqb (Appointment._id a) aid
                         && String.eqb (Appointment.patientId a) pid)
         (appointments db) = Some a
    /\ Appointment.status a <> cancelled
    /\ db' = withAppointments db
               (fst (AppointmentsRoute.cancelOne aid (now env)
                       (appointments db))).
Proof.
  unfold AppointmentsRoute.PUT.
  destruct (_ || _ || _); [discriminate | ].
  destruct (negb _); [discriminate | ].
  destruct (ObjectId_of (or_else (AppointmentsRoute.appointmentId r) ""))
    as [aid |]; [ | discriminate].
  destruct (ObjectId_of (or_else (AppointmentsRoute.upd_patientId r) ""))
    as [pid |]; [ | discriminate].
  destruct (findOne _ (appointments db)) as [a |] eqn:F; [ | discriminate].
  destruct (Status_eqb (Appointment.status a) cancelled) eqn:S; [discriminate | ].
  destruct (AppointmentsRoute.cancelOne aid (now env) (appointments db))
    as [coll n] eqn:C.
  destruct (n =? 0); [discriminate | ].
  intros H. exists aid, pid, a. repeat split; try reflexivity; try assumption.
  - intros E. rewrite E in S. discriminate.
  - rewrite C. unfold withAppointments. simpl. congruence.
Qed.

(** [PUT] on a request that names an appointment and a patient and asks
    for "cancelled". *)
Lemma PUT_cases (db : Db) (env : Env) (r : AppointmentsRoute.UpdateRequest)
    (aid pid : ObjectId) :
  ObjectId_of (or_else (AppointmentsRoute.appointmentId r) "") = Some aid ->
  ObjectId_of (or_else (AppointmentsRoute.upd_patientId r) "") = Some pid ->
  AppointmentsRoute.newStatus r = Some "cancelled" ->
  AppointmentsRoute.PUT db env r
  = match findOne (fun a => String.eqb (Appointment._id a) aid
                            && String.eqb (Appointment.patientId a) pid)
            (appointments db) with
    | None => (Error 404 "Appointment not found or unauthorized", db)
    | Some appointment =>
        if Status_eqb (Appointment.status appointment) cancelled
        then (Error 400 "Appointment is already cancelled", db)
        else
          let '(coll, modifiedCount) :=
            AppointmentsRoute.cancelOne aid (now env) (appointments db) in
          if modifiedCount =? 0
          then (Error 500 "Failed to cancel appointment",
                withAppointments db coll)
          else (Json tt, withAppointments db coll)
    end.
Proof.
  intros Ha Hp Hs. unfold AppointmentsRoute.PUT.
  rewrite (present_of_ObjectId _ _ Ha), (present_of_ObjectId _ _ Hp), Hs, Ha, Hp.
  reflexivity.
Qed.

(** C9. On a store with unique ids: a cancellation succeeds only for an
    appointment that the requesting patient owns and that is not yet
    cancelled, and then the stored appointment becomes cancelled; a
    request by the owner for an appointment that is already cancelled is
    refused with status 400 and changes nothing; a request by another
    patient is refused and changes nothing; the owner's request for an
    appointment that is not cancelled succeeds. *)
Theorem cancellation_rules (db : Db) (env : Env)
    (r : AppointmentsRoute.UpdateRequest) :
  uniqueIds db ->
  (forall db', AppointmentsRoute.PUT db env r = (Json tt, db') ->
     exists l1 a l2,
       appointments db = (l1 ++ a :: l2)%list
       /\ ObjectId_of (or_else (AppointmentsRoute.appointmentId r) "")
          = Some (Appointment._id a)
       /\ ObjectId_of (or_else (AppointmentsRoute.upd_patientId r) "")
          = Some (Appointment.patientId a)
       /\ Appointment.status a <> cancelled
       /\ db' = withAppointments db
                  (l1 ++ AppointmentsRoute.setCancelled a (now env) :: l2)%list)
  /\ (forall a pid,
        In a (appointments db) ->
        ObjectId_of (or_else (AppointmentsRoute.appointmentId r) "")
        = Some (Appointment._id a) ->
        ObjectId_of (or_else (AppointmentsRoute.upd_patientId r) "")
        = Some pid ->
        AppointmentsRoute.newStatus r = Some "cancelled" ->
        (pid <> Appointment.patientId a ->
         AppointmentsRoute.PUT db env r
         = (Error 404 "Appointment not found or unauthorized", db))
        /\ (pid = Appointment.patientId a ->
            Appointment.status a = cancelled ->
            AppointmentsRoute.PUT db env r
            = (Error 400 "Appointment is already cancelled", db))
        /\ (pid = Appointment.patientId a ->
            Appointment.status a <> cancelled ->
            exists db', AppointmentsRoute.PUT db env r = (Json tt, db'))).
Proof.
  intros Hu. split.
  - intros db' H.
    apply PUT_success in H as (aid & pid & a & Ha & Hp & F & S & ->).
    apply findOne_some in F as [Hin Hq].
    apply andb_true_iff in Hq as [E1 E2].
    apply String.eqb_eq in E1, E2. subst aid pid.
    apply in_split in Hin as (l1 & l2 & Hl).
    exists l1, a, l2. repeat split; try assumption.
    unfold uniqueIds in Hu. rewrite Hl in *.
    rewrite cancelOne_at; [reflexivity | ].
    intros x Hx. apply (ids_apart _ _ _ Hu). apply in_or_app. left; assumption.
  - intros a pid Hin Ha Hp Hs.
    apply in_split in Hin as (l1 & l2 & Hl).
    unfold uniqueIds in Hu. rewrite Hl in Hu.
    rewrite (PUT_cases db env r _ _ Ha Hp Hs), Hl.
    rewrite (findOne_by_id
               (fun x => String.eqb (Appointment.patientId x) pid) _ _ _ Hu).
    repeat split.
    + intros Hne.
      destruct (String.eqb_spec (Appointment.patientId a) pid);
        [congruence | reflexivity].
    + intros -> Hc. rewrite String.eqb_refl, Hc. reflexivity.
    + intros -> Hc. rewrite String.eqb_refl.
      destruct (Status_eqb (Appointment.status a) cancelled) eqn:S.
      * apply Status_eqb_eq in S. contradiction.
      * rewrite cancelOne_at
          by (intros x Hx; apply (ids_apart _ _ _ Hu);
              apply in_or_app; left; assumption).
        rewrite S. simpl. eexists. reflexivity.
Qed.

(** C10. On a store with unique ids, a successful cancellation rewrites
    exactly one document of [appointments]: its [status] becomes
    cancelled and its [updatedAt] the time of the request; every other
    field of that document, every other document and every other
    collection stay as they were. *)
Theorem cancellation_frame (db db' : Db) (env : Env)
    (r : AppointmentsRoute.UpdateRequest) :
  uniqueIds db ->
  AppointmentsRoute.PUT db env r = (Json tt, db') ->
  exists l1 a a' l2,
    appointments db = (l1 ++ a :: l2)%list
    /\ appointments db' = (l1 ++ a' :: l2)%list
    /\ Appointment.status a' = cancelled
    /\ Appointment.updatedAt a' = now env
    /\ Appointment._id a' = Appointment._id a
    /\ Appointment.doctorId a' = Appointment.doctorId a
    /\ Appointment.patientId a' = Appointment.patientId a
    /\ Appointment.date a' = Appointment.date a
    /\ Appointment.time a' = Appointment.time a
    /\ Appointment.sessionStartTime a' = Appointment.sessionStartTime a
    /\ Appointment.appointmentKey a' = Appointment.appointmentKey a
    /\ Appointment.createdAt a' = Appointment.createdAt a
    /\ Appointment.doctorName a' = Appointment.doctorName a
    /\ Appointment.patientName a' = Appointment.patientName a
    /\ Appointment.Adrees a' = Appointment.Adrees a
    /\ appointment_requests db' = appointment_requests db
    /\ patients db' = patients db
    /\ appointmentKey_idx db' = appointmentKey_idx db.
Proof.
  intros Hu H.
  apply PUT_success in H as (aid & pid & a & Ha & Hp & F & S & ->).
  apply findOne_some in F as [Hin Hq].
  apply andb_true_iff in Hq as [E1 _]. apply String.eqb_eq in E1. subst aid.
  apply in_split in Hin as (l1 & l2 & Hl).
  exists l1, a, (AppointmentsRoute.setCancelled a (now env)), l2.
  unfold uniqueIds in Hu. rewrite Hl in *.
  split; [reflexivity | ]. split.
  - simpl. rewrite cancelOne_at; [reflexivity | ].
    intros x Hx. apply (ids_apart _ _ _ Hu). apply in_or_app. left; assumption.
  - repeat split.
Qed.

Lemma cancellation_rules_witness :
  AppointmentsRoute.PUT bookedDb envB (cancelBy (newObjectId envA) patientA)
  = (Json tt, cancelledDb)
  /\ AppointmentsRoute.PUT cancelledDb envC
       (cancelBy (newObjectId envA) patientA)
     = (Error 400 "Appointment is already cancelled", cancelledDb)
  /\ AppointmentsRoute.PUT bookedDb envB (cancelBy (newObjectId envA) patientB)
     = (Error 404 "Appointment not found or unauthorized", bookedDb).
Proof.
  assert (uniqueIds bookedDb) as U1
    by (repeat constructor; simpl; intros []).
  assert (uniqueIds cancelledDb) as U2
    by (repeat constructor; simpl; intros []).
  pose proof (cancellation_rules bookedDb envB
                (cancelBy (newObjectId envA) patientA) U1) as [_ HA].
  pose proof (cancellation_rules cancelledDb envC
                (cancelBy (newObjectId envA) patientA) U2) as [_ HC].
  pose proof (cancellation_rules bookedDb envB
                (cancelBy (newObjectId envA) patientB) U1) as [_ HB].
  split; [ | split].
  - destruct (HA (appointmentOf envA patientA "A" "09:00") patientA
                (or_introl eq_refl) eq_refl eq_refl eq_refl) as (_ & _ & H).
    destruct (H eq_refl ltac:(discriminate)) as [db' Hdb].
    assert (db' = cancelledDb) as <-; [ | exact Hdb].
    pose proof Hdb as Hc. vm_compute in Hc. injection Hc as <-. reflexivity.
  - destruct (HC (AppointmentsRoute.setCancelled
                    (appointmentOf envA patientA "A" "09:00") (now envB))
                patientA (or_introl eq_refl) eq_refl eq_refl eq_refl)
      as (_ & H & _).
    exact (H eq_refl eq_refl).
  - destruct (HB (appointmentOf envA patientA "A" "09:00") patientB
                (or_introl eq_refl) eq_refl eq_refl eq_refl) as (H & _ & _).
    apply H. discriminate.
Defined.

Lemma cancellation_frame_witness :
  exists a',
    appointments cancelledDb = [a']
    /\ Appointment.status a' = cancelled
    /\ Appointment.updatedAt a' = now envB
    /\ Appointment.time a' = "09:00".
Proof.
  assert (uniqueIds bookedDb) as U1
    by (repeat constructor; simpl; intros []).
  assert (AppointmentsRoute.PUT bookedDb envB
            (cancelBy (newObjectId envA) patientA) = (Json tt, cancelledDb))
    as P by (vm_compute; reflexivity).
  destruct (cancellation_frame bookedDb cancelledDb envB _ U1 P)
    as (l1 & a & a' & l2 & H1 & H2 & H3 & H4 & _ & _ & _ & _ & H5 & _).
  destruct l1 as [| x [| y l1]]; simpl in H1; try discriminate.
  injection H1 as <- <-. exists a'. repeat split; assumption.
Defined.

(* ================================================================== *)
(** * Conflicts *)
(* ================================================================== *)

Lemma requests_POST_cases (db : Db) (env : Env) (r : BookingRequest) :
  requiredMissing r = false ->
  fst (AppointmentRequestsRoute.POST db env r) = conflict
  <-> exists did e,
        ObjectId_of (or_else (req_doctorId r) "") = Some did
        /\ findOne (holdsSlot did (or_else (req_date r) "")
                      (or_else (req_time r) "")) (appointments db) = Some e.
Proof.
  intros Hreq. unfold AppointmentRequestsRoute.POST. rewrite Hreq. cbv zeta.
  destruct (ObjectId_of (or_else (req_doctorId r) "")) as [did |].
  2:{ simpl. split; [discriminate | intros (did & e & H & _); discriminate]. }
  destruct (findOne (holdsSlot did _ _) (appointments db)) as [e |] eqn:F.
  { simpl. split; [intros _; exists did, e; split; [reflexivity | exact F]
                  | reflexivity]. }
  split; [ | intros (did' & e & Hd & H); congruence].
  intros H. exfalso. revert H.
  destruct (findOne (pendingRequest did _ _) _); [discriminate | ].
  destruct (bind _ _) as [doc |]; [ | discriminate].
  destruct (autoConfirm r); destruct (insertOne _ _ _); discriminate.
Qed.

Lemma requests_POST_conflict_keeps (db : Db) (env : Env) (r : BookingRequest) :
  fst (AppointmentRequestsRoute.POST db env r) = conflict ->
  snd (AppointmentRequestsRoute.POST db env r) = db.
Proof.
  unfold AppointmentRequestsRoute.POST. cbv zeta.
  destruct (requiredMissing r); [reflexivity | ].
  destruct (ObjectId_of _) as [did |]; [ | reflexivity].
  destruct (findOne (holdsSlot did _ _) _); [reflexivity | ].
  destruct (findOne (pendingRequest did _ _) _); [reflexivity | ].
  destruct (bind _ _) as [doc |]; [ | reflexivity].
  destruct (autoConfirm r); destruct (insertOne _ _ _);
    try reflexivity; discriminate.
Qed.

Lemma create_not_conflict (db : Db) (env : Env) (r : BookingRequest) :
  fst (AppointmentsRoute.create db env r) <> conflict.
Proof.
  destruct (create_answer db env r) as [(a & name & H & _) | H];
    rewrite H; discriminate.
Qed.

Lemma POST_conflict_iff (db : Db) (env : Env) (r : BookingRequest) :
  requiredMissing r = false ->
  fst (AppointmentsRoute.POST db env r) = conflict
  <-> exists a, In a (appointments db) /\ holds r a.
Proof.
  intros Hreq. rewrite POST_cases by assumption.
  destruct (ObjectId_of (or_else (req_doctorId r) "")) as [did |] eqn:Hd.
  2:{ simpl. split; [discriminate | ].
      intros (a & _ & Hh & _). rewrite Hd in Hh. discriminate. }
  destruct (findOne (holdsSlot did _ _) (appointments db)) as [e |] eqn:F.
  - simpl. split; [intros _ | reflexivity].
    apply findOne_some in F as [Hin Hq].
    exists e. split; [assumption | ].
    apply (holdsSlot_holds r did e Hd). assumption.
  - split.
    + intros H. destruct (create_not_conflict _ _ _ H).
    + intros (a & Hin & Hh).
      destruct (holder_found r did _ a Hd Hin Hh) as [e He]. congruence.
Qed.

Lemma POST_conflict_keeps (db : Db) (env : Env) (r : BookingRequest) :
  fst (AppointmentsRoute.POST db env r) = conflict ->
  snd (AppointmentsRoute.POST db env r) = db.
Proof.
  unfold AppointmentsRoute.POST.
  destruct (requiredMissing r); [reflexivity | ].
  destruct (ObjectId_of _) as [did |]; [ | reflexivity].
  destruct (findOne (holdsSlot did _ _) _); [reflexivity | ].
  intros H. destruct (create_not_conflict _ _ _ H).
Qed.

(** What a successful booking did. *)
Lemma POST_success (db db1 : Db) (env : Env) (r : BookingRequest)
    (a : Appointment.t) :
  requiredMissing r = false ->
  AppointmentsRoute.POST db env r = (Json (AppointmentSaved a), db1) ->
  db1 = withAppointments db (appointments db ++ [a])%list
  /\ (forall x, In x (appointments db) -> ~ holds r x)
  /\ (forall x, In x (appointments db) ->
                Appointment._id x <> Appointment._id a)
  /\ ObjectId_of (or_else (req_doctorId r) "") = Some (Appointment.doctorId a)
  /\ Appointment.date a = or_else (req_date r) ""
  /\ Appointment.time a = or_else (req_time r) ""
  /\ Appointment.status a = pending.
Proof.
  intros Hreq. rewrite POST_cases by assumption.
  destruct (ObjectId_of (or_else (req_doctorId r) "")) as [did |] eqn:Hd;
    [ | discriminate].
  destruct (findOne (holdsSlot did _ _) (appointments db)) as [e |] eqn:F;
    [discriminate | ].
  destruct (create_answer db env r) as [(a' & name & H & Hn & Hf) | H];
    rewrite H; [ | discriminate].
  intros E. assert (a' = a) as -> by congruence.
  destruct (newAppointment_fields _ _ _ _ _ Hn)
    as (F1 & F2 & F3 & F4 & F5 & F6 & F7).
  repeat split; try congruence; try assumption.
  intros x Hx Hh.
  apply (holdsSlot_holds r did x Hd) in Hh.
  pose proof (find_none _ _ F x Hx). congruence.
Qed.

Lemma sameSlot_holds (r r' : BookingRequest) (a : Appointment.t) :
  sameSlot r r' -> holds r' a -> holds r a.
Proof.
  intros (S1 & S2 & S3) (H1 & H2 & H3 & H4).
  unfold holds. rewrite S1, S2, S3. repeat split; assumption.
Qed.

Lemma pendingRequest_requested (r : BookingRequest) (did : ObjectId)
    (q : Appointment.t) :
  ObjectId_of (or_else (req_doctorId r) "") = Some did ->
  pendingRequest did (or_else (req_date r) "") (or_else (req_time r) "") q = true
  <-> requested r q.
Proof.
  intros Hid. unfold pendingRequest, requested.
  rewrite !andb_true_iff, !String.eqb_eq, Status_eqb_eq, Hid.
  intuition congruence.
Qed.

(** The second refusal of the request route, case by case. *)
Lemma requests_POST_asked (db : Db) (env : Env) (r : BookingRequest) :
  requiredMissing r = false ->
  fst (AppointmentRequestsRoute.POST db env r) = requestExists
  <-> (forall a, In a (appointments db) -> ~ holds r a)
      /\ exists q, In q (appointment_requests db) /\ requested r q.
Proof.
  intros Hreq. unfold AppointmentRequestsRoute.POST. rewrite Hreq. cbv zeta.
  destruct (ObjectId_of (or_else (req_doctorId r) "")) as [did |] eqn:Hd.
  2:{ simpl. split; [discriminate | ].
      intros (_ & q & _ & Hq & _). rewrite Hd in Hq. discriminate. }
  destruct (findOne (holdsSlot did _ _) (appointments db)) as [e |] eqn:F.
  { simpl. split; [discriminate | ].
    intros (Hfree & _). apply findOne_some in F as [Hin Hq].
    destruct (Hfree e Hin). apply (holdsSlot_holds r did e Hd). assumption. }
  assert (forall a, In a (appointments db) -> ~ holds r a) as Hfree.
  { intros a Ha Hh. apply (holdsSlot_holds r did a Hd) in Hh.
    pose proof (find_none _ _ F a Ha). congruence. }
  destruct (findOne (pendingRequest did _ _) (appointment_requests db))
    as [q |] eqn:G.
  { simpl. split; [intros _ | reflexivity].
    split; [assumption | ].
    apply findOne_some in G as [Hin Hq]. exists q. split; [assumption | ].
    apply (pendingRequest_requested r did q Hd). assumption. }
  split.
  - intros H. exfalso. revert H.
    destruct (bind _ _) as [doc |]; [ | discriminate].
    destruct (autoConfirm r); destruct (insertOne _ _ _); discriminate.
  - intros (_ & q & Hin & Hq). exfalso.
    apply (pendingRequest_requested r did q Hd) in Hq.
    pose proof (find_none _ _ G q Hin). congruence.
Qed.

Lemma requests_POST_asked_keeps (db : Db) (env : Env) (r : BookingRequest) :
  fst (AppointmentRequestsRoute.POST db env r) = requestExists ->
  snd (AppointmentRequestsRoute.POST db env r) = db.
Proof.
  unfold AppointmentRequestsRoute.POST. cbv zeta.
  destruct (requiredMissing r); [reflexivity | ].
  destruct (ObjectId_of _) as [did |]; [ | reflexivity].
  destruct (findOne (holdsSlot did _ _) _); [reflexivity | ].
  destruct (findOne (pendingRequest did _ _) _); [reflexivity | ].
  destruct (bind _ _) as [doc |]; [ | reflexivity].
  destruct (autoConfirm r); destruct (insertOne _ _ _);
    try reflexivity; discriminate.
Qed.

(** A request goes through when the fields are present and well formed,
    no appointment holds the slot, no pending request asks for it and
    the write is accepted. *)
Lemma requests_POST_saves (db : Db) (env : Env) (r : BookingRequest)
    (did pid : ObjectId) :
  requiredMissing r = false ->
  ObjectId_of (or_else (req_doctorId r) "") = Some did ->
  ObjectId_of (or_else (req_patientId r) "") = Some pid ->
  (forall a, In a (appointments db) -> ~ holds r a) ->
  (forall q, In q (appointment_requests db) -> ~ requested r q) ->
  canWrite db env r = true ->
  exists doc,
    AppointmentRequestsRoute.POST db env r = written db r doc
    /\ Appointment._id doc = newObjectId env
    /\ Appointment.doctorId doc = did
    /\ Appointment.patientId doc = pid
    /\ Appointment.date doc = or_else (req_date r) ""
    /\ Appointment.time doc = or_else (req_time r) ""
    /\ Appointment.status doc = pending.
Proof.
  intros Hreq Hd Hp Hfree Hnone Hw.
  unfold AppointmentRequestsRoute.POST. rewrite Hreq, Hd. cbv zeta.
  rewrite (no_holder r did _ Hd Hfree).
  replace (findOne (pendingRequest did _ _) (appointment_requests db))
    with (@None Appointment.t).
  2:{ symmetry. apply findOne_none. intros q Hq.
      destruct (pendingRequest did _ _ q) eqn:E; [ | reflexivity].
      apply (pendingRequest_requested r did q Hd) in E.
      destruct (Hnone q Hq E). }
  assert (exists name, finalPatientName db r = Some name) as [name ->].
  { unfold finalPatientName. rewrite Hp.
    destruct (ofalsy (req_patientName r)); simpl bind; eexists; reflexivity. }
  simpl bind.
  destruct (newAppointment env r
              (AppointmentRequestsRoute.generateAppointmentKey env) name)
    as [doc |] eqn:Hn.
  2:{ unfold newAppointment in Hn. rewrite Hd, Hp in Hn. discriminate. }
  destruct (newAppointment_fields _ _ _ _ _ Hn)
    as (F1 & F2 & F3 & F4 & F5 & F6 & F7).
  exists doc. unfold written, canWrite in *.
  destruct (autoConfirm r).
  - rewrite insertOne_canInsert
      by (rewrite F3, F4; unfold AppointmentRequestsRoute.generateAppointmentKey;
          assumption).
    repeat split; congruence.
  - unfold insertOne. rewrite F3. apply negb_true_iff in Hw. rewrite Hw.
    simpl orb. cbv iota. repeat split; congruence.
Qed.

(** What a booking through the request route did. *)
Lemma requests_POST_success (db db1 : Db) (env : Env) (r : BookingRequest)
    (a : Appointment.t) :
  AppointmentRequestsRoute.POST db env r = (Json (AppointmentSaved a), db1) ->
  db1 = withAppointments db (appointments db ++ [a])%list
  /\ (forall x, In x (appointments db) -> ~ holds r x)
  /\ (forall q, In q (appointment_requests db) -> ~ requested r q)
  /\ (forall x, In x (appointments db) ->
                Appointment._id x <> Appointment._id a)
  /\ ObjectId_of (or_else (req_doctorId r) "") = Some (Appointment.doctorId a)
  /\ Appointment.date a = or_else (req_date r) ""
  /\ Appointment.time a = or_else (req_time r) ""
  /\ Appointment.status a = pending.
Proof.
  unfold AppointmentRequestsRoute.POST. cbv zeta.
  destruct (requiredMissing r); [discriminate | ].
  destruct (ObjectId_of (or_else (req_doctorId r) "")) as [did |] eqn:Hd;
    [ | discriminate].
  destruct (findOne (holdsSlot did _ _) (appointments db)) eqn:F;
    [discriminate | ].
  destruct (findOne (pendingRequest did _ _) (appointment_requests db)) eqn:G;
    [discriminate | ].
  destruct (finalPatientName db r) as [name |]; simpl bind; [ | discriminate].
  destruct (newAppointment env r _ name) as [doc |] eqn:Hn; [ | discriminate].
  destruct (newAppointment_fields _ _ _ _ _ Hn)
    as (F1 & F2 & F3 & F4 & F5 & F6 & F7).
  destruct (autoConfirm r);
    destruct (insertOne _ doc _) as [coll |] eqn:E; try discriminate.
  apply insertOne_Some in E as [-> Hfresh].
  intros H. injection H as <- <-.
  repeat split; try assumption.
  - intros x Hx Hh. apply (holdsSlot_holds r did x Hd) in Hh.
    pose proof (find_none _ _ F x Hx). congruence.
  - intros q Hq Hh. apply (pendingRequest_requested r did q Hd) in Hh.
    pose proof (find_none _ _ G q Hq). congruence.
  - congruence.
Qed.

(** C1, as the code has it.  For a booking request with the four
    required fields present.  On [POST /api/appointments] the answer is
    the conflict exactly when a stored appointment has the request's
    doctor, date and time and status pending or confirmed, and a
    conflict writes nothing.  On [POST /api/appointment-requests] the
    same holds for the conflict, and the route refuses the slot a second
    way, "Appointment request already exists for this slot", exactly
    when no such appointment exists but a pending request for the
    doctor, date and time is stored in [_appointment]; neither refusal
    writes anything.  Appointments that are cancelled, rejected or
    completed never block.  A slot that is neither held nor asked for is
    written: by the appointments route as a pending appointment, by the
    request route as a pending appointment or request (given well-formed
    ids and a write that the store accepts).  And after a booking was
    saved through either route and cancelled by its patient, a further
    booking of the same slot is saved by the appointments route, and by
    the request route provided no pending request asks for the slot --
    which is always so when the first booking came through the request
    route. *)
Theorem booking_conflict (db : Db) (env : Env) (r : BookingRequest) :
  requiredMissing r = false ->
  (fst (AppointmentsRoute.POST db env r) = conflict
   <-> exists a, In a (appointments db) /\ holds r a)
  /\ (fst (AppointmentsRoute.POST db env r) = conflict ->
      snd (AppointmentsRoute.POST db env r) = db)
  /\ (fst (AppointmentRequestsRoute.POST db env r) = conflict
      <-> exists a, In a (appointments db) /\ holds r a)
  /\ (fst (AppointmentRequestsRoute.POST db env r) = requestExists
      <-> (forall a, In a (appointments db) -> ~ holds r a)
          /\ exists q, In q (appointment_requests db) /\ requested r q)
  /\ (fst (AppointmentRequestsRoute.POST db env r) = conflict
      \/ fst (AppointmentRequestsRoute.POST db env r) = requestExists ->
      snd (AppointmentRequestsRoute.POST db env r) = db)
  /\ ((forall a, In a (appointments db) ->
         Appointment.status a = cancelled \/ Appointment.status a = rejected
         \/ Appointment.status a = completed) ->
      fst (AppointmentsRoute.POST db env r) <> conflict
      /\ fst (AppointmentRequestsRoute.POST db env r) <> conflict
      /\ ((forall q, In q (appointment_requests db) -> ~ requested r q) ->
          fst (AppointmentRequestsRoute.POST db env r) <> requestExists))
  /\ (forall did pid,
        ObjectId_of (or_else (req_doctorId r) "") = Some did ->
        ObjectId_of (or_else (req_patientId r) "") = Some pid ->
        (forall a, In a (appointments db) -> ~ holds r a) ->
        (canInsert db (newObjectId env)
           (or_else (req_appointmentKey r) (decimal (randomKey env))) = true ->
         exists a,
           AppointmentsRoute.POST db env r
           = (Json (AppointmentSaved a),
              withAppointments db (appointments db ++ [a])%list)
           /\ holds r a)
        /\ ((forall q, In q (appointment_requests db) -> ~ requested r q) ->
            canWrite db env r = true ->
            exists doc,
              AppointmentRequestsRoute.POST db env r = written db r doc
              /\ Appointment.doctorId doc = did
              /\ Appointment.date doc = or_else (req_date r) ""
              /\ Appointment.time doc = or_else (req_time r) ""
              /\ Appointment.status doc = pending))
  /\ (forall a db1 env2 upd db2 env3 r' pid,
        AppointmentsRoute.POST db env r = (Json (AppointmentSaved a), db1)
        \/ AppointmentRequestsRoute.POST db env r
           = (Json (AppointmentSaved a), db1) ->
        ObjectId_of (or_else (AppointmentsRoute.appointmentId upd) "")
        = Some (Appointment._id a) ->
        AppointmentsRoute.PUT db1 env2 upd = (Json tt, db2) ->
        requiredMissing r' = false ->
        sameSlot r r' ->
        ObjectId_of (or_else (req_patientId r') "") = Some pid ->
        (canInsert db2 (newObjectId env3)
           (or_else (req_appointmentKey r') (decimal (randomKey env3))) = true ->
         exists a',
           AppointmentsRoute.POST db2 env3 r'
           = (Json (AppointmentSaved a'),
              withAppointments db2 (appointments db2 ++ [a'])%list)
           /\ Appointment.status a' = pending
           /\ Appointment.doctorId a' = Appointment.doctorId a
           /\ Appointment.date a' = Appointment.date a
           /\ Appointment.time a' = Appointment.time a)
        /\ (AppointmentRequestsRoute.POST db env r
            = (Json (AppointmentSaved a), db1)
            \/ (forall q, In q (appointment_requests db) -> ~ requested r q) ->
            canWrite db2 env3 r' = true ->
            exists doc,
              AppointmentRequestsRoute.POST db2 env3 r' = written db2 r' doc
              /\ Appointment.status doc = pending
              /\ Appointment.doctorId doc = Appointment.doctorId a
              /\ Appointment.date doc = Appointment.date a
              /\ Appointment.time doc = Appointment.time a)).
Proof.
  intros Hreq.
  assert (fst (AppointmentRequestsRoute.POST db env r) = conflict
          <-> exists a, In a (appointments db) /\ holds r a) as R.
  { rewrite requests_POST_cases by assumption. split.
    - intros (did & e & Hd & F). apply findOne_some in F as [Hin Hq].
      exists e. split; [assumption | ].
      apply (holdsSlot_holds r did e Hd). assumption.
    - intros (a & Hin & Hh).
      pose proof Hh as (Hd & _).
      destruct (holder_found r _ _ a Hd Hin Hh) as [e He].
      exists (Appointment.doctorId a), e. split; assumption. }
  split; [apply POST_conflict_iff; assumption | ].
  split; [apply POST_conflict_keeps | ].
  split; [exact R | ].
  split; [apply requests_POST_asked; assumption | ].
  split.
  { intros [H | H];
      [apply requests_POST_conflict_keeps | apply requests_POST_asked_keeps];
      assumption. }
  split.
  { intros Hst. split; [ | split].
    - intros H.
      apply POST_conflict_iff in H as (a & Hin & _ & _ & _ & Hs);
        [ | assumption].
      destruct (Hst a Hin) as [E | [E | E]]; destruct Hs; congruence.
    - intros H. apply R in H as (a & Hin & _ & _ & _ & Hs).
      destruct (Hst a Hin) as [E | [E | E]]; destruct Hs; congruence.
    - intros Hnone H.
      apply requests_POST_asked in H as (_ & q & Hq & Hh); [ | assumption].
      destruct (Hnone q Hq Hh). }
  split.
  { intros did pid Hd Hp Hfree. split.
    - intros Hins.
      destruct (POST_saves db env r did pid Hreq Hd Hp Hfree Hins)
        as (a & H & _ & A2 & _ & A4 & A5 & A6).
      exists a. split; [assumption | ].
      unfold holds. repeat split; try congruence. left. assumption.
    - intros Hnone Hw.
      destruct (requests_POST_saves db env r did pid Hreq Hd Hp Hfree Hnone Hw)
        as (doc & H & _ & D2 & _ & D4 & D5 & D6).
      exists doc. repeat split; assumption. }
  intros a db1 env2 upd db2 env3 r' pid Hpost Hupd Hput Hreq' Hsame Hp.
  assert (db1 = withAppointments db (appointments db ++ [a])%list
          /\ (forall x, In x (appointments db) -> ~ holds r x)
          /\ (forall x, In x (appointments db) ->
                        Appointment._id x <> Appointment._id a)
          /\ ObjectId_of (or_else (req_doctorId r) "")
             = Some (Appointment.doctorId a)
          /\ Appointment.date a = or_else (req_date r) ""
          /\ Appointment.time a = or_else (req_time r) ""
          /\ Appointment.status a = pending)
    as (-> & Hfree & Hfresh & Fd & Fdate & Ftime & Fst).
  { destruct Hpost as [Hpost | Hpost].
    - apply POST_success in Hpost; assumption.
    - apply requests_POST_success in Hpost
        as (H1 & H2 & _ & H4 & H5 & H6 & H7 & H8).
      repeat split; assumption. }
  apply PUT_success in Hput as (aid & pid2 & a0 & Ha & _ & _ & _ & ->).
  assert (aid = Appointment._id a) as -> by congruence.
  simpl appointments in *.
  replace (appointments db ++ [a])%list
    with (appointments db ++ a :: [])%list in * by reflexivity.
  rewrite cancelOne_at in * by assumption. simpl fst in *.
  destruct Hsame as (S1 & S2 & S3).
  set (db2 := withAppointments (withAppointments db (appointments db ++ [a]))
                (appointments db
                 ++ [AppointmentsRoute.setCancelled a (now env2)])) in *.
  assert (ObjectId_of (or_else (req_doctorId r') "")
          = Some (Appointment.doctorId a)) as Hd' by congruence.
  assert (forall x, In x (appointments db2) -> ~ holds r' x) as Hfree'.
  { simpl. intros x Hx Hh. apply in_app_or in Hx as [Hx | [<- | []]].
    - apply (Hfree x Hx). apply sameSlot_holds with r'; [ | assumption].
      repeat split; assumption.
    - destruct Hh as (_ & _ & _ & [E | E]); discriminate. }
  split.
  - intros Hins.
    destruct (POST_saves db2 env3 r' (Appointment.doctorId a) pid Hreq'
                Hd' Hp Hfree' Hins)
      as (a' & H1 & _ & H2 & _ & H3 & H4 & H5).
    exists a'. split; [exact H1 | ]. repeat split; congruence.
  - intros Horigin Hw.
    assert (forall q, In q (appointment_requests db2) -> ~ requested r' q)
      as Hnone'.
    { assert (forall q, In q (appointment_requests db) -> ~ requested r q)
        as Hnone.
      { destruct Horigin as [Hpost' | Hnone]; [ | assumption].
        apply requests_POST_success in Hpost' as (_ & _ & H3 & _).
        assumption. }
      simpl. intros q Hq (Q1 & Q2 & Q3 & Q4). apply (Hnone q Hq).
      unfold requested. repeat split; congruence. }
    destruct (requests_POST_saves db2 env3 r' (Appointment.doctorId a) pid
                Hreq' Hd' Hp Hfree' Hnone' Hw)
      as (doc & H & _ & D2 & _ & D4 & D5 & D6).
    exists doc. split; [exact H | ]. repeat split; congruence.
Qed.

(** The end-to-end example on the request route, which the booking
    dialog calls: while patient A's appointment for 09:00 is pending,
    patient B's request for the slot meets the conflict; while only A's
    request for 09:00 is pending, B's request is refused the second way;
    once A has cancelled the appointment, B's request is saved. *)
Lemma booking_conflict_witness :
  fst (AppointmentRequestsRoute.POST bookedDb envB
         (bookingBy patientB "B" "09:00")) = conflict
  /\ fst (AppointmentRequestsRoute.POST requestedDb envB
            (bookingBy patientB "B" "09:00")) = requestExists
  /\ exists b,
       AppointmentRequestsRoute.POST cancelledDb envC
         (bookingBy patientB "B" "09:00")
       = written cancelledDb (bookingBy patientB "B" "09:00") b
       /\ Appointment.status b = pending.
Proof.
  split; [ | split].
  - pose proof (booking_conflict bookedDb envB (bookingBy patientB "B" "09:00")
                  eq_refl) as (_ & _ & H & _).
    apply H. exists (appointmentOf envA patientA "A" "09:00").
    split; [left; reflexivity | ].
    repeat split. left; reflexivity.
  - pose proof (booking_conflict requestedDb envB
                  (bookingBy patientB "B" "09:00") eq_refl)
      as (_ & _ & _ & H & _).
    apply H. split; [intros a [] | ].
    exists (appointmentOf envA patientA "A" "09:00").
    split; [left; reflexivity | repeat split].
  - pose proof (booking_conflict emptyDb envA (bookingBy patientA "A" "09:00")
                  eq_refl) as (_ & _ & _ & _ & _ & _ & _ & H).
    destruct (H (appointmentOf envA patientA "A" "09:00") bookedDb envB
                (cancelBy (newObjectId envA) patientA) cancelledDb envC
                (bookingBy patientB "B" "09:00") patientB
                (or_intror eq_refl) eq_refl eq_refl eq_refl
                (conj eq_refl (conj eq_refl eq_refl)) eq_refl)
      as (_ & H2).
    destruct (H2 (or_introl eq_refl) eq_refl) as (b & Hb & Hs & _).
    exists b. split; assumption.
Defined.

(** C1 fails on the request route.  Patient A's request for 09:00 is
    pending in [_appointment]; patient B books 09:00 through
    [POST /api/appointments], which does not look at requests, and
    cancels.  No appointment now holds the slot, yet B's new booking
    through [POST /api/appointment-requests] is refused with status 400,
    and nothing is written. *)
Lemma pending_request_refuses_rebooking :
  AppointmentRequestsRoute.POST emptyDb envA (requestBy patientA "A" "09:00")
  = (Json (RequestCreated (appointmentOf envA patientA "A" "09:00")),
     requestedDb)
  /\ AppointmentsRoute.POST requestedDb envB (bookingBy patientB "B" "09:00")
     = (Json (AppointmentSaved (appointmentOf envB patientB "B" "09:00")),
        withAppointments requestedDb [appointmentOf envB patientB "B" "09:00"])
  /\ AppointmentsRoute.PUT
       (withAppointments requestedDb [appointmentOf envB patientB "B" "09:00"])
       envC (cancelBy (newObjectId envB) patientB)
     = (Json tt,
        withAppointments requestedDb
          [AppointmentsRoute.setCancelled
             (appointmentOf envB patientB "B" "09:00") (now envC)])
  /\ (forall a,
        In a [AppointmentsRoute.setCancelled
                (appointmentOf envB patientB "B" "09:00") (now envC)] ->
        ~ holds (bookingBy patientB "B" "09:00") a)
  /\ AppointmentRequestsRoute.POST
       (withAppointments requestedDb
          [AppointmentsRoute.setCancelled
             (appointmentOf envB patientB "B" "09:00") (now envC)])
       envC (bookingBy patientB "B" "09:00")
     = (requestExists,
        withAppointments requestedDb
          [AppointmentsRoute.setCancelled
             (appointmentOf envB patientB "B" "09:00") (now envC)]).
Proof.
  repeat split; try (vm_compute; reflexivity).
  intros a [<- | []] (_ & _ & _ & [E | E]); discriminate.
Qed.

(** C5, as the code has it.  The booking handler never looks at the
    schedule: a request whose time is not among the slots that the
    booking dialog would show for the doctor and date is saved like any
    other, as long as the fields are present and well formed, nobody
    holds the slot and the store accepts the write. *)
Theorem booking_ignores_schedule (docs : list ScheduleDoc) (fuel : nat)
    (before slots : SlotState) (db : Db) (env : Env) (r : BookingRequest)
    (did pid : ObjectId) :
  requiredMissing r = false ->
  ObjectId_of (or_else (req_doctorId r) "") = Some did ->
  ObjectId_of (or_else (req_patientId r) "") = Some pid ->
  fetchAvailableSlots fuel docs (or_else (req_doctorId r) "")
    (or_else (req_date r) "") before = Some slots ->
  ~ In (or_else (req_time r) "") (slotTimes slots) ->
  (forall a, In a (appointments db) -> ~ holds r a) ->
  canInsert db (newObjectId env)
    (or_else (req_appointmentKey r) (decimal (randomKey env))) = true ->
  exists a,
    AppointmentsRoute.POST db env r
    = (Json (AppointmentSaved a),
       withAppointments db (appointments db ++ [a])%list)
    /\ Appointment.doctorId a = did
    /\ Appointment.date a = or_else (req_date r) ""
    /\ Appointment.time a = or_else (req_time r) ""
    /\ Appointment.status a = pending.
Proof.
  intros Hreq Hd Hp _ _ Hfree Hins.
  destruct (POST_saves db env r did pid Hreq Hd Hp Hfree Hins)
    as (a & H & _ & H1 & _ & H2 & H3 & H4).
  exists a. repeat split; assumption.
Qed.

Lemma not_in_two (x a b : string) : x <> a -> x <> b -> ~ In x [a; b].
Proof. intros Ha Hb [H | [H | []]]; congruence. Qed.

Lemma booking_ignores_schedule_witness :
  exists a,
    AppointmentsRoute.POST emptyDb envA (bookingBy patientA "A" "09:15")
    = (Json (AppointmentSaved a), withAppointments emptyDb [a])
    /\ Appointment.time a = "09:15".
Proof.
  destruct (booking_ignores_schedule [generalSchedule] 10 noSlots
              (mkSlotState [freeSlot "09:00"; freeSlot "09:30"] [])
              emptyDb envA (bookingBy patientA "A" "09:15") doctorX patientA
              eq_refl eq_refl eq_refl eq_refl
              (not_in_two "09:15" "09:00" "09:30"
                 ltac:(discriminate) ltac:(discriminate))
              (fun a (H : In a []) => False_ind _ H) eq_refl)
    as (a & H & _ & _ & Ht & _).
  exists a. split; assumption.
Defined.

(** C5 fails on the code.  Doctor X's Monday has the slots 09:00 and
    09:30; a request for 09:15 on Monday 2025-09-15 is saved as a pending
    appointment. *)
Lemma unscheduled_slot_is_booked :
  fetchAvailableSlots 10 [generalSchedule] doctorX "2025-09-15" noSlots
  = Some (mkSlotState [freeSlot "09:00"; freeSlot "09:30"] [])
  /\ ~ In "09:15" ["09:00"; "09:30"]
  /\ AppointmentsRoute.POST emptyDb envA (bookingBy patientA "A" "09:15")
     = (Json (AppointmentSaved (appointmentOf envA patientA "A" "09:15")),
        withAppointments emptyDb [appointmentOf envA patientA "A" "09:15"]).
Proof.
  split; [vm_compute; reflexivity | ].
  split; [apply not_in_two; discriminate | vm_compute; reflexivity].
Qed.

(* ================================================================== *)
(** * Two requests for one slot *)
(* ================================================================== *)

(** A request that runs without interruption does what [POST] does. *)
Lemma alone_POST (db : Db) (env : Env) (r : BookingRequest) :
  Interleaving.alone db (Interleaving.Received env r)
  = (Interleaving.Done (fst (AppointmentsRoute.POST db env r)),
     snd (AppointmentsRoute.POST db env r)).
Proof.
  unfold Interleaving.alone, AppointmentsRoute.POST. simpl Interleaving.step.
  destruct (requiredMissing r); [reflexivity | ].
  destruct (ObjectId_of (or_else (req_doctorId r) "")); [ | reflexivity].
  destruct (findOne _ (appointments db)); [reflexivity | ].
  simpl Interleaving.step.
  unfold AppointmentsRoute.create, finalPatientName.
  destruct (ofalsy (req_patientName r)).
  - destruct (bind _ _) as [name |]; simpl; [ | reflexivity].
    unfold Interleaving.finish. reflexivity.
  - unfold Interleaving.finish. simpl. reflexivity.
Qed.

Lemma run_in_turn (db : Db) (t1 t2 : Interleaving.Task) :
  Interleaving.run
    [Interleaving.First; Interleaving.First; Interleaving.First;
     Interleaving.Second; Interleaving.Second; Interleaving.Second]
    (Interleaving.mkWorld db t1 t2)
  = let '(t1', d1) := Interleaving.alone db t1 in
    let '(t2', d2) := Interleaving.alone d1 t2 in
    Interleaving.mkWorld d2 t1' t2'.
Proof.
  unfold Interleaving.alone.
  destruct (Interleaving.step db t1) as [a1 d1] eqn:E1.
  destruct (Interleaving.step d1 a1) as [a2 d2] eqn:E2.
  destruct (Interleaving.step d2 a2) as [a3 d3] eqn:E3.
  destruct (Interleaving.step d3 t2) as [b1 e1] eqn:E4.
  destruct (Interleaving.step e1 b1) as [b2 e2] eqn:E5.
  destruct (Interleaving.step e2 b2) as [b3 e3] eqn:E6.
  unfold Interleaving.run. cbn [fold_left]. unfold Interleaving.move.
  cbn [Interleaving.db Interleaving.first Interleaving.second].
  rewrite E1. cbn [Interleaving.db Interleaving.first Interleaving.second].
  rewrite E2. cbn [Interleaving.db Interleaving.first Interleaving.second].
  rewrite E3. cbn [Interleaving.db Interleaving.first Interleaving.second].
  rewrite E4. cbn [Interleaving.db Interleaving.first Interleaving.second].
  rewrite E5. cbn [Interleaving.db Interleaving.first Interleaving.second].
  rewrite E6. reflexivity.
Qed.

Lemma filter_none {A : Type} (q : A -> bool) (l : list A) :
  (forall x, In x l -> q x = false) -> filter q l = [].
Proof.
  induction l as [| x l IH]; intros H; [reflexivity | ]. simpl.
  rewrite (H x (or_introl eq_refl)). apply IH.
  intros y Hy. apply H. right; assumption.
Qed.

(** C2, as the code has it.  When two requests for one free slot are
    handled one after the other, the first is saved, the second meets the
    conflict, and exactly one appointment holds the slot afterwards. *)
Theorem bookings_in_turn (db : Db) (env1 env2 : Env)
    (r1 r2 : BookingRequest) (did pid : ObjectId) :
  requiredMissing r1 = false ->
  requiredMissing r2 = false ->
  sameSlot r1 r2 ->
  ObjectId_of (or_else (req_doctorId r1) "") = Some did ->
  ObjectId_of (or_else (req_patientId r1) "") = Some pid ->
  (forall a, In a (appointments db) -> ~ holds r1 a) ->
  canInsert db (newObjectId env1)
    (or_else (req_appointmentKey r1) (decimal (randomKey env1))) = true ->
  let w :=
    Interleaving.run
      [Interleaving.First; Interleaving.First; Interleaving.First;
       Interleaving.Second; Interleaving.Second; Interleaving.Second]
      (Interleaving.mkWorld db (Interleaving.Received env1 r1)
         (Interleaving.Received env2 r2)) in
  exists a,
    Interleaving.first w = Interleaving.Done (Json (AppointmentSaved a))
    /\ Interleaving.second w = Interleaving.Done conflict
    /\ appointments (Interleaving.db w) = (appointments db ++ [a])%list
    /\ filter (holdsSlot did (or_else (req_date r1) "")
                 (or_else (req_time r1) ""))
         (appointments (Interleaving.db w)) = [a].
Proof.
  intros Hreq1 Hreq2 Hsame Hd Hp Hfree Hins w.
  destruct (POST_saves db env1 r1 did pid Hreq1 Hd Hp Hfree Hins)
    as (a & H1 & _ & F1 & _ & F2 & F3 & F4).
  assert (holds r1 a) as Hh1.
  { unfold holds. rewrite Hd, F1, F2, F3, F4. repeat split. left; reflexivity. }
  assert (holds r2 a) as Hh2.
  { destruct Hsame as (S1 & S2 & S3), Hh1 as (G1 & G2 & G3 & G4).
    unfold holds. rewrite <- S1, <- S2, <- S3. repeat split; assumption. }
  set (db1 := withAppointments db (appointments db ++ [a])%list) in *.
  assert (fst (AppointmentsRoute.POST db1 env2 r2) = conflict) as C.
  { apply POST_conflict_iff; [assumption | ].
    exists a. split; [ | assumption].
    apply in_or_app. right. left. reflexivity. }
  pose proof (POST_conflict_keeps _ _ _ C) as K.
  exists a. subst w. rewrite run_in_turn, !alone_POST, H1. simpl fst. simpl snd.
  fold db1. rewrite C, K. cbv iota beta. simpl.
  repeat split.
  rewrite filter_app, filter_none.
  - simpl. apply (holdsSlot_holds r1 did a Hd) in Hh1. rewrite Hh1. reflexivity.
  - intros x Hx. destruct (holdsSlot did _ _ x) eqn:E; [ | reflexivity].
    apply (holdsSlot_holds r1 did x Hd) in E. destruct (Hfree x Hx E).
Qed.

Lemma bookings_in_turn_witness :
  exists a,
    Interleaving.first
      (Interleaving.run
         [Interleaving.First; Interleaving.First; Interleaving.First;
          Interleaving.Second; Interleaving.Second; Interleaving.Second]
         (Interleaving.mkWorld emptyDb
            (Interleaving.Received envA (bookingBy patientA "A" "09:00"))
            (Interleaving.Received envB (bookingBy patientB "B" "09:00"))))
    = Interleaving.Done (Json (AppointmentSaved a))
    /\ Interleaving.second
         (Interleaving.run
            [Interleaving.First; Interleaving.First; Interleaving.First;
             Interleaving.Second; Interleaving.Second; Interleaving.Second]
            (Interleaving.mkWorld emptyDb
               (Interleaving.Received envA (bookingBy patientA "A" "09:00"))
               (Interleaving.Received envB (bookingBy patientB "B" "09:00"))))
       = Interleaving.Done conflict.
Proof.
  destruct (bookings_in_turn emptyDb envA envB
              (bookingBy patientA "A" "09:00") (bookingBy patientB "B" "09:00")
              doctorX patientA eq_refl eq_refl
              (conj eq_refl (conj eq_refl eq_refl)) eq_refl eq_refl
              (fun a (H : In a []) => False_ind _ H) eq_refl)
    as (a & H1 & H2 & _).
  exists a. split; assumption.
Defined.

(** C2 fails on the code.  The conflict check and the insert are two
    separate operations on the store: when both requests for 09:00 make
    their check before either makes its insert, both are saved, nobody
    meets the conflict, and two pending appointments hold the slot. *)
Lemma interleaved_bookings_both_saved :
  Interleaving.run
    [Interleaving.First; Interleaving.Second;
     Interleaving.First; Interleaving.Second]
    (Interleaving.mkWorld emptyDb
       (Interleaving.Received envA (bookingBy patientA "A" "09:00"))
       (Interleaving.Received envB (bookingBy patientB "B" "09:00")))
  = Interleaving.mkWorld
      (withAppointments emptyDb
         [appointmentOf envA patientA "A" "09:00";
          appointmentOf envB patientB "B" "09:00"])
      (Interleaving.Done
         (Json (AppointmentSaved (appointmentOf envA patientA "A" "09:00"))))
      (Interleaving.Done
         (Json (AppointmentSaved (appointmentOf envB patientB "B" "09:00"))))
  /\ filter (holdsSlot doctorX "2025-09-15" "09:00")
       [appointmentOf envA patientA "A" "09:00";
        appointmentOf envB patientB "B" "09:00"]
     = [appointmentOf envA patientA "A" "09:00";
        appointmentOf envB patientB "B" "09:00"].
Proof. split; vm_compute; reflexivity. Qed.

(* ================================================================== *)
(** * Unique ids, and the end-to-end example *)
(* ================================================================== *)

Lemma cancelOne_ids (id : ObjectId) (at_ : Z) (l : list Appointment.t) :
  map Appointment._id (fst (AppointmentsRoute.cancelOne id at_ l))
  = map Appointment._id l.
Proof.
  induction l as [| a l IH]; simpl; [reflexivity | ].
  destruct (String.eqb (Appointment._id a) id); [reflexivity | ].
  destruct (AppointmentsRoute.cancelOne id at_ l) as [l' n].
  simpl in *. rewrite IH. reflexivity.
Qed.

Lemma insertOne_unique (u : bool) (doc : Appointment.t)
    (coll c : list Appointment.t) :
  NoDup (map Appointment._id coll) ->
  insertOne u doc coll = Some c ->
  NoDup (map Appointment._id c).
Proof.
  intros Hu H. apply insertOne_Some in H as [-> Hfresh].
  rewrite map_app. simpl.
  apply NoDup_app; [assumption | repeat constructor; intros [] | ].
  intros id Hin [<- | []].
  apply in_map_iff in Hin as (x & Hx & Hin). apply (Hfresh x Hin Hx).
Qed.

(** The handlers keep the ids of [appointments] unique, so the stores
    that the cancellation theorems speak about are the ones that bookings
    and cancellations lead to. *)
Lemma uniqueIds_kept (db : Db) (env : Env) :
  uniqueIds db ->
  (forall r, uniqueIds (snd (AppointmentsRoute.POST db env r)))
  /\ (forall r, uniqueIds (snd (AppointmentRequestsRoute.POST db env r)))
  /\ (forall r, uniqueIds (snd (AppointmentsRoute.PUT db env r))).
Proof.
  intros Hu. repeat split; intros r.
  - unfold AppointmentsRoute.POST.
    destruct (requiredMissing r); [assumption | ].
    destruct (ObjectId_of _); [ | assumption].
    destruct (findOne _ _); [assumption | ].
    unfold AppointmentsRoute.create.
    destruct (finalPatientName db r) as [name |]; [ | assumption].
    unfold AppointmentsRoute.store.
    destruct (newAppointment _ _ _ _) as [a |]; simpl; [ | assumption].
    destruct (insertOne _ a _) as [c |] eqn:E; simpl; [ | assumption].
    exact (insertOne_unique _ _ _ _ Hu E).
  - unfold AppointmentRequestsRoute.POST. cbv zeta.
    destruct (requiredMissing r); [assumption | ].
    destruct (ObjectId_of _); [ | assumption].
    destruct (findOne _ (appointments db)); [assumption | ].
    destruct (findOne _ (appointment_requests db)); [assumption | ].
    destruct (bind _ _) as [doc |]; [ | assumption].
    destruct (autoConfirm r).
    + destruct (insertOne _ doc (appointments db)) as [c |] eqn:E;
        [ | assumption].
      exact (insertOne_unique _ _ _ _ Hu E).
    + destruct (insertOne _ doc (appointment_requests db)); assumption.
  - unfold AppointmentsRoute.PUT.
    destruct (_ || _ || _); [assumption | ].
    destruct (negb _); [assumption | ].
    destruct (ObjectId_of _) as [aid |]; [ | assumption].
    destruct (ObjectId_of _) as [pid |]; [ | assumption].
    destruct (findOne _ _) as [a |]; [ | assumption].
    destruct (Status_eqb _ _); [assumption | ].
    pose proof (cancelOne_ids aid (now env) (appointments db)) as Hids.
    destruct (AppointmentsRoute.cancelOne aid (now env) (appointments db))
      as [coll n].
    simpl in Hids.
    destruct (n =? 0); unfold uniqueIds; simpl; rewrite Hids; assumption.
Qed.

Lemma uniqueIds_empty : uniqueIds emptyDb.
Proof. constructor. Qed.

(** The end-to-end example of the specification, on the routes the
    booking dialog uses.  Doctor X has a general Monday schedule, morning
    09:00 to 10:00 in slots of 30 minutes; 2025-09-15 is a Monday. *)
Example end_to_end :
  fetchAvailableSlots 10 [generalSchedule] doctorX "2025-09-15" noSlots
  = Some (mkSlotState [freeSlot "09:00"; freeSlot "09:30"] [])
  /\ AppointmentRequestsRoute.POST emptyDb envA (bookingBy patientA "A" "09:00")
     = (Json (AppointmentSaved (appointmentOf envA patientA "A" "09:00")),
        bookedDb)
  /\ AppointmentRequestsRoute.POST bookedDb envB (bookingBy patientB "B" "09:00")
     = (conflict, bookedDb)
  /\ AppointmentsRoute.PUT bookedDb envB (cancelBy (newObjectId envA) patientA)
     = (Json tt, cancelledDb)
  /\ AppointmentRequestsRoute.POST cancelledDb envC
       (bookingBy patientB "B" "09:00")
     = (Json (AppointmentSaved (appointmentOf envC patientB "B" "09:00")),
        withAppointments cancelledDb
          (appointments cancelledDb
           ++ [appointmentOf envC patientB "B" "09:00"])%list).
Proof. repeat split; vm_compute; reflexivity. Qed.

(* ================================================================== *)
(** * Further properties: generated and pre-calculated slots *)
(* ================================================================== *)

(** The loop emits the same times whatever it wraps them in. *)
Lemma slot_loop_map {A : Type} (mk : string -> A) (fuel : nat)
    (current endTime : JSDate.Date) (duration : number) (slots : list string) :
  slot_loop mk fuel current endTime duration (map mk slots)
  = option_map (map mk)
      (slot_loop (fun t => t) fuel current endTime duration slots).
Proof.
  revert current slots.
  induction fuel as [| fuel IH]; intros current slots; [reflexivity | ].
  rewrite !slot_loop_S.
  destruct (JSDate.lt current endTime); [ | reflexivity].
  rewrite <- IH, map_app. reflexivity.
Qed.

Lemma generators_agree (fuel : nat) (start end_ : string) (duration : number)
    (slots : list string) :
  falsy start = false -> falsy end_ = false ->
  OptimizeDatabase.generateTimeSlots fuel start end_ duration = Some slots ->
  OptimizedSlotBooking.generateTimeSlots fuel start end_ duration
  = Some (map freeSlot slots)
  /\ AppointmentBooking.generateSlots fuel start end_ duration
     = Some (map freeSlot slots).
Proof.
  intros Fs Fe H.
  unfold OptimizedSlotBooking.generateTimeSlots,
    AppointmentBooking.generateSlots, OptimizeDatabase.generateTimeSlots,
    JSDate.copy in *.
  rewrite Fs, Fe. simpl orb. cbv iota.
  pose proof (slot_loop_map freeSlot fuel (JSDate.ofClock start)
                (JSDate.ofClock end_) duration []) as E.
  simpl map in E. rewrite E, H. split; reflexivity.
Qed.

(** One session: what the components show for it before the
    optimization is what they show, without generating anything, after
    it. *)
Lemma optimizeSession_shown (fuel : nat) (pre pre' : option (list string))
    (start end_ slotduration : option string) :
  OptimizeDatabaseRoute.optimizeSession fuel pre start end_ slotduration
  = Some pre' ->
  exists shown,
    OptimizedSlotBooking.sessionSlots fuel pre start end_ slotduration
    = Some shown
    /\ AppointmentBooking.sessionSlots fuel pre start end_ slotduration
       = Some shown
    /\ forall fuel',
         OptimizedSlotBooking.sessionSlots fuel' pre' start end_ slotduration
         = Some shown
         /\ AppointmentBooking.sessionSlots fuel' pre' start end_ slotduration
            = Some shown.
Proof.
  unfold OptimizeDatabaseRoute.optimizeSession,
    OptimizedSlotBooking.sessionSlots, AppointmentBooking.sessionSlots.
  destruct pre as [l |].
  { intros H. injection H as <-. exists (map freeSlot l).
    repeat split; reflexivity. }
  destruct start as [s |], end_ as [e |];
    try (intros H; injection H as <-; exists []; repeat split; reflexivity).
  destruct (falsy s) eqn:Fs; simpl negb; simpl andb; cbv iota;
    [intros H; injection H as <-; exists []; repeat split; reflexivity | ].
  destruct (falsy e) eqn:Fe; simpl negb; cbv iota;
    [intros H; injection H as <-; exists []; repeat split; reflexivity | ].
  destruct (OptimizeDatabase.generateTimeSlots fuel s e
              (parseInt (or_else slotduration "30"))) as [slots |] eqn:G;
    simpl bind; [ | discriminate].
  intros H. injection H as <-.
  destruct (generators_agree _ _ _ _ _ Fs Fe G) as [G1 G2].
  exists (map freeSlot slots). rewrite G1, G2.
  repeat split; reflexivity.
Qed.

(** One day: what the dialog shows for it before the optimization is
    what it shows, without generating anything, after it. *)
Lemma optimizeDay_shown (fuel : nat) (day day' : DaySchedule) :
  OptimizeDatabaseRoute.optimizeDay fuel day = Some day' ->
  exists shown,
    AppointmentBooking.generateSlotsForDay fuel day = Some shown
    /\ forall fuel',
         AppointmentBooking.generateSlotsForDay fuel' day' = Some shown.
Proof.
  unfold OptimizeDatabaseRoute.optimizeDay.
  destruct (OptimizeDatabaseRoute.optimizeSession fuel (morningSlots day)
              (morningStart day) (morningEnd day) (slotduration day))
    as [m |] eqn:Em; simpl bind; [ | discriminate].
  destruct (OptimizeDatabaseRoute.optimizeSession fuel (eveningSlots day)
              (eveningStart day) (eveningEnd day) (slotduration day))
    as [e |] eqn:Ee; simpl bind; [ | discriminate].
  intros H. injection H as <-.
  destruct (optimizeSession_shown _ _ _ _ _ _ Em) as (sm & _ & M2 & M3).
  destruct (optimizeSession_shown _ _ _ _ _ _ Ee) as (se & _ & E2 & E3).
  exists (mkSlotState sm se).
  unfold AppointmentBooking.generateSlotsForDay.
  cbn [morningSlots morningStart morningEnd eveningSlots eveningStart
       eveningEnd slotduration].
  rewrite M2, E2. simpl bind. split; [reflexivity | ].
  intros fuel'. rewrite (proj2 (M3 fuel')), (proj2 (E3 fuel')). reflexivity.
Qed.

(** X1. When the optimize-database route has filled in the slot arrays
    of a day, both booking components show for the optimized day exactly
    the slots they showed for the original one, and they no longer run
    the generator for it (any fuel will do). *)
Theorem optimized_day_shows_same_slots (fuel : nat) (day day' : DaySchedule) :
  OptimizeDatabaseRoute.optimizeDay fuel day = Some day' ->
  exists shown,
    AppointmentBooking.generateSlotsForDay fuel day = Some shown
    /\ OptimizedSlotBooking.processScheduleSlots fuel (Some day)
       = Some (if isOffDay day then mkSlotState [] [] else shown)
    /\ forall fuel',
         AppointmentBooking.generateSlotsForDay fuel' day' = Some shown
         /\ OptimizedSlotBooking.processScheduleSlots fuel' (Some day')
            = Some (if isOffDay day then mkSlotState [] [] else shown).
Proof.
  unfold OptimizeDatabaseRoute.optimizeDay.
  destruct (OptimizeDatabaseRoute.optimizeSession fuel (morningSlots day)
              (morningStart day) (morningEnd day) (slotduration day))
    as [m |] eqn:Em; simpl bind; [ | discriminate].
  destruct (OptimizeDatabaseRoute.optimizeSession fuel (eveningSlots day)
              (eveningStart day) (eveningEnd day) (slotduration day))
    as [e |] eqn:Ee; simpl bind; [ | discriminate].
  intros H. injection H as <-.
  destruct (optimizeSession_shown _ _ _ _ _ _ Em) as (sm & M1 & M2 & M3).
  destruct (optimizeSession_shown _ _ _ _ _ _ Ee) as (se & E1 & E2 & E3).
  exists (mkSlotState sm se).
  unfold AppointmentBooking.generateSlotsForDay,
    OptimizedSlotBooking.processScheduleSlots.
  cbn [morningSlots morningStart morningEnd eveningSlots eveningStart
       eveningEnd slotduration isOffDay].
  rewrite M1, M2, E1, E2. simpl bind.
  split; [reflexivity | ].
  split; [destruct (isOffDay day); reflexivity | ].
  intros fuel'.
  rewrite (proj1 (M3 fuel')), (proj2 (M3 fuel')),
    (proj1 (E3 fuel')), (proj2 (E3 fuel')).
  simpl bind. split; [reflexivity | destruct (isOffDay day); reflexivity].
Qed.

Lemma optimized_day_shows_same_slots_witness :
  exists shown,
    AppointmentBooking.generateSlotsForDay 10 mondayMorning = Some shown
    /\ OptimizedSlotBooking.processScheduleSlots 10 (Some mondayMorning)
       = Some (if isOffDay mondayMorning then mkSlotState [] [] else shown)
    /\ forall fuel',
         AppointmentBooking.generateSlotsForDay fuel'
           {| dayOfWeek := "Monday"; isOffDay := false;
              morningStart := Some "09:00"; morningEnd := Some "10:00";
              eveningStart := None; eveningEnd := None;
              morningSlots := Some ["09:00"; "09:30"]; eveningSlots := None;
              slotduration := Some "30"; date := None |} = Some shown
         /\ OptimizedSlotBooking.processScheduleSlots fuel'
              (Some {| dayOfWeek := "Monday"; isOffDay := false;
                       morningStart := Some "09:00";
                       morningEnd := Some "10:00";
                       eveningStart := None; eveningEnd := None;
                       morningSlots := Some ["09:00"; "09:30"];
                       eveningSlots := None;
                       slotduration := Some "30"; date := None |})
            = Some (if isOffDay mondayMorning then mkSlotState [] []
                    else shown).
Proof.
  apply (optimized_day_shows_same_slots 10 mondayMorning). reflexivity.
Defined.

(** One session of the script: as for the route on a working day; on an
    off day the session is left as it is. *)
Lemma script_optimizeSession (fuel : nat) (off : bool)
    (pre : option (list string)) (start end_ slotduration : option string) :
  OptimizeDatabaseScript.optimizeSession fuel off pre start end_ slotduration
  = if off
    then Some (match pre with Some _ => pre | None => None end)
    else OptimizeDatabaseRoute.optimizeSession fuel pre start end_
           slotduration.
Proof.
  unfold OptimizeDatabaseScript.optimizeSession,
    OptimizeDatabaseRoute.optimizeSession.
  destruct pre as [l |]; [destruct off; reflexivity | ].
  destruct start as [s |], end_ as [e |]; try (destruct off; reflexivity).
  destruct off; [ | rewrite andb_true_r; reflexivity].
  rewrite andb_false_r. reflexivity.
Qed.

(** X2. The optimization script never touches an off day, whatever its
    bounds and whatever the fuel, so it cannot hang on one; on a working
    day it computes what the route computes. *)
Theorem script_skips_off_days (fuel : nat) (day : DaySchedule) :
  OptimizeDatabaseScript.optimizeDay fuel day
  = if isOffDay day then Some day
    else OptimizeDatabaseRoute.optimizeDay fuel day.
Proof.
  unfold OptimizeDatabaseScript.optimizeDay,
    OptimizeDatabaseRoute.optimizeDay.
  rewrite !script_optimizeSession.
  destruct (isOffDay day) eqn:Off; [ | reflexivity].
  simpl bind. destruct day as [n o ms me es ee pm pe sd d].
  simpl in *. subst o. destruct pm, pe; reflexivity.
Qed.

(** X3. Optimizing is idempotent: a day that came out of the
    optimization comes out of a second one unchanged, and the second one
    generates nothing (any fuel will do). *)
Theorem optimizeDay_idempotent (fuel : nat) (day day' : DaySchedule) :
  OptimizeDatabaseRoute.optimizeDay fuel day = Some day' ->
  forall fuel', OptimizeDatabaseRoute.optimizeDay fuel' day' = Some day'.
Proof.
  unfold OptimizeDatabaseRoute.optimizeDay.
  destruct (OptimizeDatabaseRoute.optimizeSession fuel (morningSlots day)
              (morningStart day) (morningEnd day) (slotduration day))
    as [m |] eqn:Em; simpl bind; [ | discriminate].
  destruct (OptimizeDatabaseRoute.optimizeSession fuel (eveningSlots day)
              (eveningStart day) (eveningEnd day) (slotduration day))
    as [e |] eqn:Ee; simpl bind; [ | discriminate].
  intros H fuel'. injection H as <-.
  cbn [morningSlots morningStart morningEnd eveningSlots eveningStart
       eveningEnd slotduration isOffDay dayOfWeek date].
  assert (forall pre pre' s e' sd,
            OptimizeDatabaseRoute.optimizeSession fuel pre s e' sd = Some pre' ->
            OptimizeDatabaseRoute.optimizeSession fuel' pre' s e' sd
            = Some pre') as Again.
  { clear. intros pre pre' s e sd.
    unfold OptimizeDatabaseRoute.optimizeSession.
    destruct pre as [l |]; [intros H; injection H as <-; reflexivity | ].
    destruct s as [s |], e as [e |];
      try (intros H; injection H as <-; reflexivity).
    destruct (negb (falsy s) && negb (falsy e));
      [ | intros H; injection H as <-; reflexivity].
    destruct (OptimizeDatabase.generateTimeSlots fuel s e _);
      simpl bind; [ | discriminate].
    intros H; injection H as <-. reflexivity. }
  rewrite (Again _ _ _ _ _ Em), (Again _ _ _ _ _ Ee). reflexivity.
Qed.

Lemma optimizeDay_idempotent_witness :
  OptimizeDatabaseRoute.optimizeDay 10 mondayMorning
  = Some {| dayOfWeek := "Monday"; isOffDay := false;
            morningStart := Some "09:00"; morningEnd := Some "10:00";
            eveningStart := None; eveningEnd := None;
            morningSlots := Some ["09:00"; "09:30"]; eveningSlots := None;
            slotduration := Some "30"; date := None |}
  /\ OptimizeDatabaseRoute.optimizeDay 0
       {| dayOfWeek := "Monday"; isOffDay := false;
          morningStart := Some "09:00"; morningEnd := Some "10:00";
          eveningStart := None; eveningEnd := None;
          morningSlots := Some ["09:00"; "09:30"]; eveningSlots := None;
          slotduration := Some "30"; date := None |}
     = Some {| dayOfWeek := "Monday"; isOffDay := false;
               morningStart := Some "09:00"; morningEnd := Some "10:00";
               eveningStart := None; eveningEnd := None;
               morningSlots := Some ["09:00"; "09:30"]; eveningSlots := None;
               slotduration := Some "30"; date := None |}.
Proof.
  split; [reflexivity | ].
  apply (optimizeDay_idempotent 10 mondayMorning). reflexivity.
Defined.

(** X4. A slot duration without leading digits ([parseInt] gives NaN)
    does not stop the generators and does not make them loop: for clock
    times [start] before [end_] each of them returns the single slot
    [start], because the first step turns the current time into the
    Invalid Date, which is not before the end. *)
Theorem NaN_duration_single_slot (start end_ : string) (s e : Z)
    (slotduration : option string) (fuel : nat) :
  clockMinutes start = Some s ->
  clockMinutes end_ = Some e ->
  s < e ->
  parseInt (or_else slotduration "30") = NaN ->
  (2 <= fuel)%nat ->
  OptimizedSlotBooking.sessionSlots fuel None (Some start) (Some end_)
    slotduration = Some [freeSlot start]
  /\ AppointmentBooking.sessionSlots fuel None (Some start) (Some end_)
       slotduration = Some [freeSlot start]
  /\ OptimizeDatabaseRoute.optimizeSession fuel None (Some start) (Some end_)
       slotduration = Some (Some [start]).
Proof.
  intros Hs He Hlt Hnan Hfuel.
  pose proof (clock_not_empty _ _ Hs) as Fs.
  pose proof (clock_not_empty _ _ He) as Fe.
  pose proof (clock_clockMinutes _ _ Hs) as Rs.
  apply clockMinutes_inv in Hs as [Ps Bs], He as [Pe Be].
  assert (forall A (mk : string -> A),
            slot_loop mk fuel (Some (atMinute s)) (Some (atMinute e)) NaN []
            = Some [mk start]) as Run.
  { intros A mk. destruct fuel as [| [| fuel]]; [lia | lia | ].
    rewrite slot_loop_S, lt_atMinute. replace (s <? e) with true by lia.
    change (JSDate.setMinutes (Some (atMinute s))
              (js_add (JSDate.getMinutes (Some (atMinute s))) NaN))
      with (@None Z).
    rewrite slot_loop_S. cbn [JSDate.lt app].
    change (JSDate.toTimeString5 (Some (atMinute s))) with (clock s).
    rewrite Rs by lia. reflexivity. }
  unfold OptimizedSlotBooking.sessionSlots, AppointmentBooking.sessionSlots,
    OptimizeDatabaseRoute.optimizeSession,
    OptimizedSlotBooking.generateTimeSlots, AppointmentBooking.generateSlots,
    OptimizeDatabase.generateTimeSlots, JSDate.copy.
  rewrite Fs, Fe, Ps, Pe, Hnan. simpl negb. simpl andb. simpl orb. cbv iota.
  rewrite !Run. repeat split; reflexivity.
Qed.

Lemma NaN_duration_single_slot_witness :
  OptimizedSlotBooking.sessionSlots 2 None (Some "09:00") (Some "12:00")
    (Some "half an hour") = Some [freeSlot "09:00"]
  /\ AppointmentBooking.sessionSlots 2 None (Some "09:00") (Some "12:00")
       (Some "half an hour") = Some [freeSlot "09:00"]
  /\ OptimizeDatabaseRoute.optimizeSession 2 None (Some "09:00")
       (Some "12:00") (Some "half an hour") = Some (Some ["09:00"]).
Proof.
  apply (NaN_duration_single_slot "09:00" "12:00" 540 720
           (Some "half an hour") 2);
    solve [reflexivity | lia].
Defined.

(* ================================================================== *)
(** * Further properties: what the booking handlers write *)
(* ================================================================== *)

Lemma setCancelled_same (a : Appointment.t) (at_ : Z) :
  Status_eqb (Appointment.status a) cancelled
  && (Appointment.updatedAt a =? at_) = true ->
  AppointmentsRoute.setCancelled a at_ = a.
Proof.
  intros H. apply andb_true_iff in H as [Hs Ht].
  apply Status_eqb_eq in Hs. apply Z.eqb_eq in Ht.
  destruct a. simpl in *. subst. reflexivity.
Qed.

(** An update that modified nothing left the collection as it was. *)
Lemma cancelOne_unmodified (id : ObjectId) (at_ : Z)
    (l : list Appointment.t) :
  snd (AppointmentsRoute.cancelOne id at_ l) = 0 ->
  fst (AppointmentsRoute.cancelOne id at_ l) = l.
Proof.
  induction l as [| a l IH]; simpl; [reflexivity | ].
  destruct (String.eqb (Appointment._id a) id).
  - destruct (Status_eqb (Appointment.status a) cancelled
              && (Appointment.updatedAt a =? at_)) eqn:E; simpl;
      [ | discriminate].
    intros _. rewrite setCancelled_same by assumption. reflexivity.
  - destruct (AppointmentsRoute.cancelOne id at_ l) as [l' n]. simpl in *.
    intros H. rewrite IH by assumption. reflexivity.
Qed.

Lemma withAppointments_same (db : Db) : withAppointments db (appointments db) = db.
Proof. destruct db. reflexivity. Qed.

(** X5. The booking and cancellation handlers are all-or-nothing: when
    [POST /api/appointments], [POST /api/appointment-requests] or
    [PUT /api/appointments] answers with an error, of whatever status
    (400, 403, 404 or 500), the database is exactly as it was. *)
Theorem errors_keep_store (db : Db) (env : Env) :
  (forall r, failed (fst (AppointmentsRoute.POST db env r)) ->
             snd (AppointmentsRoute.POST db env r) = db)
  /\ (forall r, failed (fst (AppointmentRequestsRoute.POST db env r)) ->
                snd (AppointmentRequestsRoute.POST db env r) = db)
  /\ (forall r, failed (fst (AppointmentsRoute.PUT db env r)) ->
                snd (AppointmentsRoute.PUT db env r) = db).
Proof.
  repeat split; intros r.
  - unfold AppointmentsRoute.POST.
    destruct (requiredMissing r); [reflexivity | ].
    destruct (ObjectId_of _); [ | reflexivity].
    destruct (findOne _ _); [reflexivity | ].
    destruct (create_answer db env r) as [(a & name & H & _) | H];
      rewrite H; simpl; [intros [] | reflexivity].
  - unfold AppointmentRequestsRoute.POST. cbv zeta.
    destruct (requiredMissing r); [reflexivity | ].
    destruct (ObjectId_of _); [ | reflexivity].
    destruct (findOne _ (appointments db)); [reflexivity | ].
    destruct (findOne _ (appointment_requests db)); [reflexivity | ].
    destruct (bind _ _) as [doc |]; [ | reflexivity].
    destruct (autoConfirm r); destruct (insertOne _ doc _); simpl;
      solve [intros [] | reflexivity].
  - unfold AppointmentsRoute.PUT.
    destruct (_ || _ || _); [reflexivity | ].
    destruct (negb _); [reflexivity | ].
    destruct (ObjectId_of _) as [aid |]; [ | reflexivity].
    destruct (ObjectId_of _) as [pid |]; [ | reflexivity].
    destruct (findOne _ _) as [a |]; [ | reflexivity].
    destruct (Status_eqb _ _); [reflexivity | ].
    pose proof (cancelOne_unmodified aid (now env) (appointments db)) as U.
    destruct (AppointmentsRoute.cancelOne aid (now env) (appointments db))
      as [coll n].
    simpl in U.
    destruct (Z.eqb_spec n 0) as [-> | Hn]; simpl; [ | intros []].
    intros _. rewrite U by reflexivity. apply withAppointments_same.
Qed.

Lemma errors_keep_store_witness :
  snd (AppointmentRequestsRoute.POST bookedDb envB
         (bookingBy patientB "B" "09:00")) = bookedDb
  /\ snd (AppointmentsRoute.PUT cancelledDb envC
            (cancelBy (newObjectId envA) patientA)) = cancelledDb.
Proof.
  split.
  - apply (proj1 (proj2 (errors_keep_store bookedDb envB))). exact I.
  - apply (proj2 (proj2 (errors_keep_store cancelledDb envC))). exact I.
Defined.

(** The document that a successful request route wrote, and where. *)
Lemma request_frame_data (db db' : Db) (env : Env) (r : BookingRequest)
    (b : Booked) :
  AppointmentRequestsRoute.POST db env r = (Json b, db') ->
  exists doc,
    ObjectId_of (or_else (req_doctorId r) "") = Some (Appointment.doctorId doc)
    /\ Appointment.date doc = or_else (req_date r) ""
    /\ Appointment.time doc = or_else (req_time r) ""
    /\ Appointment.status doc = pending
    /\ match b with
       | AppointmentSaved x =>
           x = doc /\ appointment_requests db' = appointment_requests db
       | RequestCreated x =>
           x = doc
           /\ appointment_requests db'
              = (appointment_requests db ++ [doc])%list
       end.
Proof.
  unfold AppointmentRequestsRoute.POST. cbv zeta.
  destruct (requiredMissing r); [discriminate | ].
  destruct (ObjectId_of (or_else (req_doctorId r) "")) as [did |] eqn:Hd;
    [ | discriminate].
  destruct (findOne _ (appointments db)); [discriminate | ].
  destruct (findOne _ (appointment_requests db)); [discriminate | ].
  destruct (finalPatientName db r) as [name |]; simpl bind; [ | discriminate].
  destruct (newAppointment env r _ name) as [doc |] eqn:Hn; [ | discriminate].
  destruct (newAppointment_fields _ _ _ _ _ Hn)
    as (F1 & F2 & F3 & F4 & F5 & F6 & F7).
  destruct (autoConfirm r);
    destruct (insertOne _ doc _) as [coll |] eqn:E; try discriminate;
    apply insertOne_Some in E as [-> _];
    intros H; injection H as <- <-; exists doc; simpl;
    repeat split; congruence.
Qed.

(** X6. What a successful [POST /api/appointment-requests] wrote: one
    new pending document, with the generated [_id], the request's doctor,
    date and time, and the generated appointment key whatever key the
    request body carried.  With [autoConfirm] it is appended to
    [appointments] and [_appointment] is untouched; without, it is
    appended to [_appointment] and [appointments] is untouched.  The
    documents already stored, the patients and the indexes are as
    before. *)
Theorem request_frame (db db' : Db) (env : Env) (r : BookingRequest)
    (b : Booked) :
  AppointmentRequestsRoute.POST db env r = (Json b, db') ->
  exists doc,
    Appointment._id doc = newObjectId env
    /\ Appointment.appointmentKey doc
       = AppointmentRequestsRoute.generateAppointmentKey env
    /\ ObjectId_of (or_else (req_doctorId r) "")
       = Some (Appointment.doctorId doc)
    /\ Appointment.date doc = or_else (req_date r) ""
    /\ Appointment.time doc = or_else (req_time r) ""
    /\ Appointment.status doc = pending
    /\ patients db' = patients db
    /\ appointmentKey_idx db' = appointmentKey_idx db
    /\ if autoConfirm r
       then b = AppointmentSaved doc
            /\ appointments db' = (appointments db ++ [doc])%list
            /\ appointment_requests db' = appointment_requests db
       else b = RequestCreated doc
            /\ appointment_requests db'
               = (appointment_requests db ++ [doc])%list
            /\ appointments db' = appointments db.
Proof.
  unfold AppointmentRequestsRoute.POST. cbv zeta.
  destruct (requiredMissing r); [discriminate | ].
  destruct (ObjectId_of (or_else (req_doctorId r) "")) as [did |] eqn:Hd;
    [ | discriminate].
  destruct (findOne _ (appointments db)); [discriminate | ].
  destruct (findOne _ (appointment_requests db)); [discriminate | ].
  destruct (finalPatientName db r) as [name |]; simpl bind; [ | discriminate].
  destruct (newAppointment env r _ name) as [doc |] eqn:Hn; [ | discriminate].
  destruct (newAppointment_fields _ _ _ _ _ Hn)
    as (F1 & F2 & F3 & F4 & F5 & F6 & F7).
  destruct (autoConfirm r);
    destruct (insertOne _ doc _) as [coll |] eqn:E; try discriminate;
    apply insertOne_Some in E as [-> _];
    intros H; injection H as <- <-; exists doc; simpl;
    repeat split; congruence.
Qed.

Lemma request_frame_witness :
  exists doc,
    Appointment._id doc = newObjectId envA
    /\ Appointment.appointmentKey doc
       = AppointmentRequestsRoute.generateAppointmentKey envA
    /\ ObjectId_of (or_else (req_doctorId (requestBy patientA "A" "09:00")) "")
       = Some (Appointment.doctorId doc)
    /\ Appointment.date doc
       = or_else (req_date (requestBy patientA "A" "09:00")) ""
    /\ Appointment.time doc
       = or_else (req_time (requestBy patientA "A" "09:00")) ""
    /\ Appointment.status doc = pending
    /\ patients requestedDb = patients emptyDb
    /\ appointmentKey_idx requestedDb = appointmentKey_idx emptyDb
    /\ if autoConfirm (requestBy patientA "A" "09:00")
       then RequestCreated (appointmentOf envA patientA "A" "09:00")
            = AppointmentSaved doc
            /\ appointments requestedDb = (appointments emptyDb ++ [doc])%list
            /\ appointment_requests requestedDb = appointment_requests emptyDb
       else RequestCreated (appointmentOf envA patientA "A" "09:00")
            = RequestCreated doc
            /\ appointment_requests requestedDb
               = (appointment_requests emptyDb ++ [doc])%list
            /\ appointments requestedDb = appointments emptyDb.
Proof.
  apply (request_frame emptyDb requestedDb envA (requestBy patientA "A" "09:00")
           (RequestCreated (appointmentOf envA patientA "A" "09:00"))).
  reflexivity.
Defined.

(** X7. A pending request in [_appointment] blocks the slot only on the
    request route.  With such a request stored and no appointment
    holding the slot, [POST /api/appointment-requests] answers 400
    "Appointment request already exists for this slot" and writes
    nothing, while [POST /api/appointments] for the same slot does not
    look at [_appointment] and saves the appointment. *)
Theorem pending_request_blocks_request_route_only (db : Db) (env : Env)
    (r : BookingRequest) (did pid : ObjectId) (q : Appointment.t) :
  requiredMissing r = false ->
  ObjectId_of (or_else (req_doctorId r) "") = Some did ->
  ObjectId_of (or_else (req_patientId r) "") = Some pid ->
  (forall a, In a (appointments db) -> ~ holds r a) ->
  In q (appointment_requests db) ->
  Appointment.doctorId q = did ->
  Appointment.date q = or_else (req_date r) "" ->
  Appointment.time q = or_else (req_time r) "" ->
  Appointment.status q = pending ->
  canInsert db (newObjectId env)
    (or_else (req_appointmentKey r) (decimal (randomKey env))) = true ->
  AppointmentRequestsRoute.POST db env r
  = (Error 400 "Appointment request already exists for this slot", db)
  /\ exists a,
       AppointmentsRoute.POST db env r
       = (Json (AppointmentSaved a),
          withAppointments db (appointments db ++ [a])%list)
       /\ holds r a.
Proof.
  intros Hreq Hd Hp Hfree Hq Q1 Q2 Q3 Q4 Hins. split.
  - unfold AppointmentRequestsRoute.POST. rewrite Hreq, Hd. cbv zeta.
    rewrite (no_holder r did _ Hd Hfree).
    destruct (findOne (pendingRequest did _ _) (appointment_requests db))
      as [e |] eqn:F; [reflexivity | ].
    pose proof (find_none _ _ F q Hq) as N. unfold pendingRequest in N.
    rewrite Q1, Q2, Q3, Q4, !String.eqb_refl in N. discriminate.
  - destruct (POST_saves db env r did pid Hreq Hd Hp Hfree Hins)
      as (a & H & _ & A2 & _ & A4 & A5 & A6).
    exists a. split; [assumption | ].
    unfold holds. repeat split; try congruence. left. assumption.
Qed.

Lemma pending_request_blocks_request_route_only_witness :
  AppointmentRequestsRoute.POST requestedDb envB (bookingBy patientB "B" "09:00")
  = (Error 400 "Appointment request already exists for this slot",
     requestedDb)
  /\ exists a,
       AppointmentsRoute.POST requestedDb envB (bookingBy patientB "B" "09:00")
       = (Json (AppointmentSaved a),
          withAppointments requestedDb (appointments requestedDb ++ [a])%list)
       /\ holds (bookingBy patientB "B" "09:00") a.
Proof.
  apply (pending_request_blocks_request_route_only requestedDb envB
           (bookingBy patientB "B" "09:00") doctorX patientB
           (appointmentOf envA patientA "A" "09:00"));
    try reflexivity.
  - intros a [].
  - left. reflexivity.
Defined.

(** X8. A key that is already in use makes a booking fail once the
    unique index on [appointmentKey] is in place: whether the key came
    with the request or was drawn at random, [POST /api/appointments]
    answers 500 "Failed to create appointment" and writes nothing -- it
    does not draw another key.  Without the index the same booking is
    saved, and two appointments share the key. *)
Theorem used_key_fails_booking (db : Db) (env : Env) (r : BookingRequest)
    (did pid : ObjectId) (a : Appointment.t) :
  requiredMissing r = false ->
  ObjectId_of (or_else (req_doctorId r) "") = Some did ->
  ObjectId_of (or_else (req_patientId r) "") = Some pid ->
  (forall x, In x (appointments db) -> ~ holds r x) ->
  (forall x, In x (appointments db) -> Appointment._id x <> newObjectId env) ->
  In a (appointments db) ->
  Appointment.appointmentKey a
  = or_else (req_appointmentKey r) (decimal (randomKey env)) ->
  if appointmentKey_idx db
  then AppointmentsRoute.POST db env r
       = (Error 500 "Failed to create appointment", db)
  else exists b,
         AppointmentsRoute.POST db env r
         = (Json (AppointmentSaved b),
            withAppointments db (appointments db ++ [b])%list)
         /\ Appointment.appointmentKey b = Appointment.appointmentKey a.
Proof.
  intros Hreq Hd Hp Hfree Hfresh Ha Hkey.
  assert (existsb (fun x => String.eqb (Appointment._id x) (newObjectId env))
            (appointments db) = false) as Eid.
  { destruct (existsb _ _) eqn:E; [ | reflexivity].
    apply existsb_exists in E as (x & Hx & E). apply String.eqb_eq in E.
    destruct (Hfresh x Hx E). }
  assert (exists name, finalPatientName db r = Some name) as [name Hname].
  { unfold finalPatientName. rewrite Hp.
    destruct (ofalsy (req_patientName r)); simpl bind; eexists; reflexivity. }
  rewrite POST_cases, Hd, (no_holder r did _ Hd Hfree) by assumption.
  unfold AppointmentsRoute.create. rewrite Hname.
  unfold AppointmentsRoute.store, newAppointment. rewrite Hd, Hp.
  simpl bind. unfold insertOne. cbn [Appointment._id Appointment.appointmentKey].
  rewrite Eid. simpl orb.
  destruct (appointmentKey_idx db) eqn:Idx; simpl andb.
  - replace (existsb _ (appointments db)) with true; [reflexivity | ].
    symmetry. apply existsb_exists. exists a. split; [assumption | ].
    apply String.eqb_eq. assumption.
  - cbv iota. simpl bind. cbv iota beta. unfold withAppointments.
    rewrite Idx. eexists. split; [reflexivity | ]. simpl. congruence.
Qed.

Lemma used_key_fails_booking_witness :
  AppointmentsRoute.POST bookedDb envB (keyedBooking patientB "B" "10:00" "123456")
  = (Error 500 "Failed to create appointment", bookedDb).
Proof.
  apply (used_key_fails_booking bookedDb envB
           (keyedBooking patientB "B" "10:00" "123456") doctorX patientB
           (appointmentOf envA patientA "A" "09:00"));
    try reflexivity.
  - intros x [<- | []] (_ & _ & H & _). discriminate.
  - intros x [<- | []]. discriminate.
  - left. reflexivity.
Defined.

(* ================================================================== *)
(** * Further properties: the optimized appointments route *)
(* ================================================================== *)

Lemma ensure_appointments (db : Db) :
  appointments (OptimizedAppointmentsRoute.ensureAppointmentIndexes db)
  = appointments db
  /\ appointment_requests (OptimizedAppointmentsRoute.ensureAppointmentIndexes db)
     = appointment_requests db
  /\ patients (OptimizedAppointmentsRoute.ensureAppointmentIndexes db)
     = patients db.
Proof.
  unfold OptimizedAppointmentsRoute.ensureAppointmentIndexes.
  destruct (appointmentKey_idx db); [repeat split | ].
  destruct (distinctKeys (appointments db)); repeat split.
Qed.

Lemma ensure_indexed (db : Db) :
  appointmentKey_idx db = true ->
  OptimizedAppointmentsRoute.ensureAppointmentIndexes db = db.
Proof.
  intros H. unfold OptimizedAppointmentsRoute.ensureAppointmentIndexes.
  rewrite H. reflexivity.
Qed.

Lemma finalPatientName_ensure (db : Db) (r : BookingRequest) :
  finalPatientName (OptimizedAppointmentsRoute.ensureAppointmentIndexes db) r
  = finalPatientName db r.
Proof.
  unfold finalPatientName.
  rewrite (proj2 (proj2 (ensure_appointments db))). reflexivity.
Qed.


(** X10. A client can switch the conflict check off.  For a
    well-formed request whose slot is held by an appointment [a],
    [POST /api/appointments] answers "Time slot already booked", while
    the optimized [POST] with [checkConflict: false] in the body saves a
    second pending appointment on the same doctor, date and time (given
    a write that the store accepts). *)
Theorem unchecked_POST_double_books (db : Db) (env : Env)
    (r : BookingRequest) (did pid : ObjectId) (a : Appointment.t) :
  requiredMissing r = false ->
  ObjectId_of (or_else (req_doctorId r) "") = Some did ->
  ObjectId_of (or_else (req_patientId r) "") = Some pid ->
  In a (appointments db) ->
  holds r a ->
  canInsert (OptimizedAppointmentsRoute.ensureAppointmentIndexes db)
    (newObjectId env)
    (or_else (req_appointmentKey r) (decimal (randomKey env))) = true ->
  fst (AppointmentsRoute.POST db env r) = conflict
  /\ exists b db',
       OptimizedAppointmentsRoute.POST db env r (Some false)
       = (Json (AppointmentSaved b), db')
       /\ appointments db' = (appointments db ++ [b])%list
       /\ holds r b
       /\ Appointment._id b <> Appointment._id a.
Proof.
  intros Hreq Hd Hp Ha Hh Hins. split.
  { apply POST_conflict_iff; [assumption | ]. exists a. split; assumption. }
  unfold OptimizedAppointmentsRoute.POST. rewrite Hreq. cbv zeta.
  rewrite finalPatientName_ensure.
  assert (exists name, finalPatientName db r = Some name) as [name Hname].
  { unfold finalPatientName. rewrite Hp.
    destruct (ofalsy (req_patientName r)); simpl bind; eexists; reflexivity. }
  rewrite Hname. simpl bind.
  destruct (newAppointment env r
              (or_else (req_appointmentKey r) (decimal (randomKey env))) name)
    as [b |] eqn:Hn.
  2:{ unfold newAppointment in Hn. rewrite Hd, Hp in Hn. discriminate. }
  destruct (newAppointment_fields _ _ _ _ _ Hn)
    as (F1 & F2 & F3 & F4 & F5 & F6 & F7).
  simpl bind.
  pose proof (insertOne_canInsert
                (OptimizedAppointmentsRoute.ensureAppointmentIndexes db) b) as I.
  rewrite F3, F4 in I. specialize (I Hins). rewrite I. simpl bind.
  eexists. eexists. split; [reflexivity | ].
  cbn [appointments]. rewrite (proj1 (ensure_appointments db)).
  split; [reflexivity | ].
  split; [unfold holds; repeat split; try congruence; left; assumption | ].
  rewrite F3. intros E.
  unfold canInsert in Hins. apply andb_true_iff in Hins as [N _].
  apply negb_true_iff in N.
  rewrite (proj1 (ensure_appointments db)) in N.
  assert (existsb (fun x => String.eqb (Appointment._id x) (newObjectId env))
            (appointments db) = true) as Y; [ | congruence].
  apply existsb_exists. exists a. split; [assumption | ].
  apply String.eqb_eq. congruence.
Qed.

Lemma unchecked_POST_double_books_witness :
  fst (AppointmentsRoute.POST bookedDb envB (bookingBy patientB "B" "09:00"))
  = conflict
  /\ exists b db',
       OptimizedAppointmentsRoute.POST bookedDb envB
         (bookingBy patientB "B" "09:00") (Some false)
       = (Json (AppointmentSaved b), db')
       /\ appointments db' = (appointments bookedDb ++ [b])%list
       /\ holds (bookingBy patientB "B" "09:00") b
       /\ Appointment._id b
          <> Appointment._id (appointmentOf envA patientA "A" "09:00").
Proof.
  apply (unchecked_POST_double_books bookedDb envB
           (bookingBy patientB "B" "09:00") doctorX patientB
           (appointmentOf envA patientA "A" "09:00"));
    try reflexivity.
  - left. reflexivity.
  - repeat split. left. reflexivity.
Defined.

(** X11. [HEAD /api/appointments/optimized] and the booking agree on
    what a taken slot is: for a request that names a patient, [HEAD]
    answers 409 for its doctor, date and time exactly when
    [POST /api/appointments] answers "Time slot already booked", and it
    answers 200 only when the booking does not meet that conflict.
    [HEAD] leaves the stored appointments as they are. *)
Theorem HEAD_agrees_with_POST (db : Db) (env : Env) (r : BookingRequest) :
  ofalsy (req_patientId r) = false ->
  let answer :=
    OptimizedAppointmentsRoute.HEAD db (req_doctorId r) (req_date r)
      (req_time r) in
  (fst answer = 409 <-> fst (AppointmentsRoute.POST db env r) = conflict)
  /\ (fst answer = 200 ->
      requiredMissing r = false
      /\ forall a, In a (appointments db) -> ~ holds r a)
  /\ appointments (snd answer) = appointments db.
Proof.
  intros Hp answer. subst answer.
  unfold OptimizedAppointmentsRoute.HEAD, AppointmentsRoute.POST,
    requiredMissing.
  rewrite Hp, orb_false_r.
  destruct (ofalsy (req_doctorId r) || ofalsy (req_date r)
            || ofalsy (req_time r)) eqn:M.
  { simpl. repeat split; discriminate. }
  cbv zeta. unfold ObjectId_of.
  destruct (hex24 (or_else (req_doctorId r) "")) eqn:Hx; simpl negb; cbv iota.
  2:{ simpl. repeat split; discriminate. }
  rewrite (proj1 (ensure_appointments db)).
  destruct (findOne _ (appointments db)) as [e |] eqn:F; simpl.
  - split; [split; reflexivity | ].
    split; [discriminate | apply ensure_appointments].
  - split; [ | split; [ | apply ensure_appointments]].
    + split; [discriminate | ].
      intros H. destruct (create_not_conflict _ _ _ H).
    + intros _. split; [reflexivity | ].
      intros a Ha Hh.
      assert (ObjectId_of (or_else (req_doctorId r) "")
              = Some (lowercase (or_else (req_doctorId r) ""))) as Hd
        by (unfold ObjectId_of; rewrite Hx; reflexivity).
      apply (holdsSlot_holds r _ a Hd) in Hh.
      pose proof (find_none _ _ F a Ha). congruence.
Qed.

Lemma HEAD_agrees_with_POST_witness :
  (fst (OptimizedAppointmentsRoute.HEAD bookedDb (Some doctorX)
          (Some "2025-09-15") (Some "09:00")) = 409
   <-> fst (AppointmentsRoute.POST bookedDb envB
              (bookingBy patientB "B" "09:00")) = conflict)
  /\ (fst (OptimizedAppointmentsRoute.HEAD bookedDb (Some doctorX)
             (Some "2025-09-15") (Some "09:00")) = 200 ->
      requiredMissing (bookingBy patientB "B" "09:00") = false
      /\ forall a, In a (appointments bookedDb) ->
                   ~ holds (bookingBy patientB "B" "09:00") a)
  /\ appointments
       (snd (OptimizedAppointmentsRoute.HEAD bookedDb (Some doctorX)
               (Some "2025-09-15") (Some "09:00")))
     = appointments bookedDb.
Proof.
  apply (HEAD_agrees_with_POST bookedDb envB (bookingBy patientB "B" "09:00")).
  reflexivity.
Defined.

(* ================================================================== *)
(** * Further properties: updates and rescheduling *)
(* ================================================================== *)

Lemma setFields_same (a : Appointment.t) (status : Status) (at_ : Z)
    (slot : option (string * string)) :
  OptimizedAppointmentsRoute.hasFields a status at_ slot = true ->
  OptimizedAppointmentsRoute.setFields a status at_ slot = a.
Proof.
  unfold OptimizedAppointmentsRoute.hasFields. intros H.
  apply andb_true_iff in H as [H Hslot]. apply andb_true_iff in H as [Hs Ht].
  apply Status_eqb_eq in Hs. apply Z.eqb_eq in Ht.
  destruct a, slot as [[d t] |]; simpl in *; subst.
  - apply andb_true_iff in Hslot as [H H3]. apply andb_true_iff in H as [H1 H2].
    apply String.eqb_eq in H1, H2, H3. subst. reflexivity.
  - reflexivity.
Qed.

(** [updateOne] rewrites the first document with the [_id], if there is
    one, and nothing else. *)
Lemma updateOne_cases (id : ObjectId) (status : Status) (at_ : Z)
    (slot : option (string * string)) (coll : list Appointment.t) :
  (OptimizedAppointmentsRoute.updateOne id status at_ slot coll = (coll, 0))
  \/ exists l1 a l2,
       coll = (l1 ++ a :: l2)%list
       /\ Appointment._id a = id
       /\ (forall x, In x l1 -> Appointment._id x <> id)
       /\ OptimizedAppointmentsRoute.hasFields a status at_ slot = false
       /\ OptimizedAppointmentsRoute.updateOne id status at_ slot coll
          = ((l1 ++ OptimizedAppointmentsRoute.setFields a status at_ slot
                 :: l2)%list, 1).
Proof.
  induction coll as [| x coll IH]; simpl; [left; reflexivity | ].
  destruct (String.eqb_spec (Appointment._id x) id) as [E | E].
  - destruct (OptimizedAppointmentsRoute.hasFields x status at_ slot) eqn:H.
    + left. rewrite setFields_same by assumption. reflexivity.
    + right. exists [], x, coll. repeat split; try assumption.
      intros y [].
  - destruct IH as [-> | (l1 & a & l2 & -> & Ha & Hl1 & Hf & ->)].
    + left. reflexivity.
    + right. exists (x :: l1), a, l2. repeat split; try assumption.
      intros y [<- | Hy]; [assumption | apply Hl1; assumption].
Qed.

Lemma updateOne_at (status : Status) (at_ : Z) (slot : option (string * string))
    (l1 l2 : list Appointment.t) (a : Appointment.t) :
  (forall x, In x l1 -> Appointment._id x <> Appointment._id a) ->
  OptimizedAppointmentsRoute.updateOne (Appointment._id a) status at_ slot
    (l1 ++ a :: l2)
  = ((l1 ++ OptimizedAppointmentsRoute.setFields a status at_ slot :: l2)%list,
     if OptimizedAppointmentsRoute.hasFields a status at_ slot then 0 else 1).
Proof.
  induction l1 as [| x l1 IH]; intros Hne; simpl.
  - rewrite String.eqb_refl. reflexivity.
  - destruct (String.eqb_spec (Appointment._id x) (Appointment._id a)) as [E | E].
    + destruct (Hne x (or_introl eq_refl) E).
    + rewrite IH by (intros y Hy; apply Hne; right; assumption). reflexivity.
Qed.

Lemma findOne_ext {A : Type} (q q' : A -> bool) (l : list A) :
  (forall x, q x = q' x) -> findOne q l = findOne q' l.
Proof.
  intros H. unfold findOne. induction l as [| x l IH]; simpl; [reflexivity | ].
  rewrite H, IH. reflexivity.
Qed.

Lemma findOne_first {A : Type} (q : A -> bool) (l1 l2 : list A) (a : A) :
  (forall x, In x l1 -> q x = false) -> q a = true ->
  findOne q (l1 ++ a :: l2) = Some a.
Proof.
  intros H Ha. unfold findOne. induction l1 as [| x l1 IH]; simpl.
  - rewrite Ha. reflexivity.
  - rewrite (H x (or_introl eq_refl)). apply IH.
    intros y Hy. apply H. right. assumption.
Qed.

(** What [PUT] does with a request that names an appointment by a
    well-formed id, asks for a status and carries no patient or doctor
    filter. *)
Lemma optimized_PUT_cases (hasIndex : OptimizedAppointmentsRoute.Hint -> bool)
    (db : Db) (env : Env) (r : OptimizedAppointmentsRoute.UpdateRequest)
    (id : string) (status : Status) :
  OptimizedAppointmentsRoute.upd_status r = Some status ->
  OptimizedAppointmentsRoute.appointmentId r = Some id ->
  hex24 id = true ->
  OptimizedAppointmentsRoute.upd_patientId r = None ->
  OptimizedAppointmentsRoute.upd_doctorId r = None ->
  hasIndex OptimizedAppointmentsRoute.by_id = true ->
  let db1 := OptimizedAppointmentsRoute.ensureAppointmentIndexes db in
  let aid := lowercase id in
  let slot :=
    if OptimizedAppointmentsRoute.rescheduling r
    then Some (or_else (OptimizedAppointmentsRoute.newDate r) "",
               or_else (OptimizedAppointmentsRoute.newTime r) "")
    else None in
  OptimizedAppointmentsRoute.PUT hasIndex db env r
  = match findOne (fun a => String.eqb (Appointment._id a) aid)
            (appointments db) with
    | None => (Error 404 "Appointment not found or unauthorized", db1)
    | Some appointment =>
        match
          match slot with
          | Some (d, t) =>
              findOne
                (fun a =>
                   holdsSlot (Appointment.doctorId appointment) d t a
                   && negb (String.eqb (Appointment._id a) aid))
                (appointments db)
          | None => None
          end
        with
        | Some _ => (Error 400 "New time slot already booked", db1)
        | None =>
            let '(coll, modifiedCount) :=
              OptimizedAppointmentsRoute.updateOne aid status (now env) slot
                (appointments db) in
            if modifiedCount =? 0
            then (Error 500 "Failed to update appointment",
                  withAppointments db1 coll)
            else (Json (OptimizedAppointmentsRoute.rescheduling r),
                  withAppointments db1 coll)
        end
    end.
Proof.
  intros Hs Hid Hx Hp Hd Hi db1 aid slot.
  assert (falsy id = false) as Fid by (destruct id; [discriminate | reflexivity]).
  unfold OptimizedAppointmentsRoute.PUT.
  rewrite Hs, Hid, Hp, Hd. cbn [ofalsy negb andb].
  rewrite Fid. rewrite (or_else_Some id "" Fid), Hx. cbn [negb]. cbv zeta.
  rewrite Hi. cbn [negb].
  rewrite (proj1 (ensure_appointments db)).
  replace (findOne (fun a => String.eqb (Appointment._id a) (lowercase id)
                             && true && true) (appointments db))
    with (findOne (fun a => String.eqb (Appointment._id a) (lowercase id))
            (appointments db)).
  2:{ apply findOne_ext. intros a. rewrite !andb_true_r. reflexivity. }
  reflexivity.
Qed.

(** X12. Rescheduling onto a taken slot is refused, and an appointment
    never stands in its own way.  On a store with unique ids, for a
    request that names appointment [a], a new date and a new time (and
    no patient or doctor filter): if another appointment of [a]'s doctor
    is pending or confirmed at the new date and time, [PUT] answers 400
    "New time slot already booked" and the appointments are as they
    were; if no other appointment is, the update goes through -- also
    when [a] itself holds the new slot -- and [a] is moved to the new
    date and time. *)
Theorem reschedule_conflict (hasIndex : OptimizedAppointmentsRoute.Hint -> bool)
    (db : Db) (env : Env) (r : OptimizedAppointmentsRoute.UpdateRequest)
    (id d t : string) (status : Status) (l1 l2 : list Appointment.t)
    (a : Appointment.t) :
  OptimizedAppointmentsRoute.upd_status r = Some status ->
  OptimizedAppointmentsRoute.appointmentId r = Some id ->
  hex24 id = true ->
  OptimizedAppointmentsRoute.upd_patientId r = None ->
  OptimizedAppointmentsRoute.upd_doctorId r = None ->
  hasIndex OptimizedAppointmentsRoute.by_id = true ->
  OptimizedAppointmentsRoute.newDate r = Some d -> falsy d = false ->
  OptimizedAppointmentsRoute.newTime r = Some t -> falsy t = false ->
  uniqueIds db ->
  appointments db = (l1 ++ a :: l2)%list ->
  Appointment._id a = lowercase id ->
  Appointment.updatedAt a <> now env ->
  let answer := OptimizedAppointmentsRoute.PUT hasIndex db env r in
  ((exists b, In b (l1 ++ l2) /\ takes (Appointment.doctorId a) d t b) ->
   fst answer = Error 400 "New time slot already booked"
   /\ appointments (snd answer) = appointments db)
  /\ ((forall b, In b (l1 ++ l2) -> ~ takes (Appointment.doctorId a) d t b) ->
      fst answer = Json true
      /\ appointments (snd answer)
         = (l1 ++ OptimizedAppointmentsRoute.setFields a status (now env)
                    (Some (d, t)) :: l2)%list).
Proof.
  intros Hs Hid Hx Hp Hd Hi Hnd Fd Hnt Ft Hu Hdb Ha Hnow answer.
  subst answer.
  rewrite (optimized_PUT_cases hasIndex db env r id status Hs Hid Hx Hp Hd Hi).
  unfold OptimizedAppointmentsRoute.rescheduling.
  rewrite Hnd, Hnt. cbn [ofalsy]. rewrite Fd, Ft. cbn [negb andb].
  rewrite (or_else_Some d "" Fd), (or_else_Some t "" Ft).
  unfold uniqueIds in Hu. rewrite Hdb in *.
  pose proof (ids_apart _ _ _ Hu) as Hne.
  pose proof (findOne_by_id (fun _ => true) l1 l2 a Hu) as Ffind.
  cbv beta in Ffind.
  replace (findOne (fun x => String.eqb (Appointment._id x) (lowercase id))
             (l1 ++ a :: l2))
    with (Some a).
  2:{ rewrite <- Ffind, Ha. apply findOne_ext.
      intros x. rewrite andb_true_r. reflexivity. }
  assert (forall x, In x l1 -> Appointment._id x <> Appointment._id a) as Hl1
    by (intros x Hx'; apply Hne; apply in_or_app; left; assumption).
  split.
  - intros (b & Hb & B1 & B2 & B3 & B4).
    assert (exists e,
              findOne
                (fun x => holdsSlot (Appointment.doctorId a) d t x
                          && negb (String.eqb (Appointment._id x) (lowercase id)))
                (l1 ++ a :: l2) = Some e) as [e ->].
    { apply findOne_exists with b.
      - apply in_app_iff in Hb as [Hb | Hb]; apply in_or_app;
          [left | right; right]; assumption.
      - apply andb_true_iff. split.
        + unfold holdsSlot. rewrite B1, B2, B3, B4, !String.eqb_refl.
          reflexivity.
        + apply negb_true_iff. apply String.eqb_neq. rewrite <- Ha.
          apply Hne. assumption. }
    simpl. split; [reflexivity | ].
    rewrite (proj1 (ensure_appointments db)). assumption.
  - intros Hfree.
    replace (findOne _ (l1 ++ a :: l2)) with (@None Appointment.t).
    2:{ symmetry. apply findOne_none. intros x Hx'.
        apply in_app_iff in Hx' as [Hx' | [<- | Hx']].
        - destruct (holdsSlot (Appointment.doctorId a) d t x) eqn:Hh;
            [ | reflexivity].
          apply holdsSlot_iff in Hh as (H1 & H2 & H3 & H4).
          destruct (Hfree x (in_or_app _ _ _ (or_introl Hx'))).
          repeat split; try assumption. destruct H4 as [-> | ->]; reflexivity.
        - rewrite Ha, String.eqb_refl. apply andb_false_r.
        - destruct (holdsSlot (Appointment.doctorId a) d t x) eqn:Hh;
            [ | reflexivity].
          apply holdsSlot_iff in Hh as (H1 & H2 & H3 & H4).
          destruct (Hfree x (in_or_app _ _ _ (or_intror Hx'))).
          repeat split; try assumption. destruct H4 as [-> | ->]; reflexivity. }
    rewrite <- Ha, updateOne_at by assumption.
    unfold OptimizedAppointmentsRoute.hasFields.
    replace (Appointment.updatedAt a =? now env) with false
      by (symmetry; apply Z.eqb_neq; assumption).
    rewrite andb_false_r. simpl.
    split; [reflexivity | reflexivity].
Qed.

Lemma reschedule_conflict_witness :
  fst (OptimizedAppointmentsRoute.PUT onlyById twoBookedDb envC
         (updateOf (newObjectId envB) pending (Some "2025-09-15")
            (Some "09:00")))
  = Error 400 "New time slot already booked"
  /\ appointments
       (snd (OptimizedAppointmentsRoute.PUT onlyById twoBookedDb envC
               (updateOf (newObjectId envB) pending (Some "2025-09-15")
                  (Some "09:00"))))
     = appointments twoBookedDb.
Proof.
  apply (proj1 (reschedule_conflict onlyById twoBookedDb envC
                  (updateOf (newObjectId envB) pending (Some "2025-09-15")
                     (Some "09:00"))
                  (newObjectId envB) "2025-09-15" "09:00" pending
                  [appointmentOf envA patientA "A" "09:00"] []
                  (appointmentOf envB patientB "B" "09:30")
                  eq_refl eq_refl eq_refl eq_refl eq_refl eq_refl
                  eq_refl eq_refl eq_refl eq_refl
                  ltac:(unfold uniqueIds; simpl; repeat constructor; simpl;
                        intuition discriminate)
                  eq_refl eq_refl ltac:(discriminate))).
  exists (appointmentOf envA patientA "A" "09:00").
  split; [left; reflexivity | repeat split].
Defined.

(** X13. What a successful [PUT /api/appointments/optimized] changed:
    one stored appointment, and of it only [status], [updatedAt] and --
    when the request carries both a new date and a new time -- [date],
    [time] and [sessionStartTime].  A request with only one of the two
    leaves the slot as it was.  The id, the key, the doctor, the
    patient, the names, the address and [createdAt] of the appointment,
    every other appointment, the requests and the patients are as
    before. *)
Theorem update_frame (hasIndex : OptimizedAppointmentsRoute.Hint -> bool)
    (db db' : Db) (env : Env) (r : OptimizedAppointmentsRoute.UpdateRequest)
    (rescheduled : bool) :
  OptimizedAppointmentsRoute.PUT hasIndex db env r = (Json rescheduled, db') ->
  exists l1 a a' l2 status,
    OptimizedAppointmentsRoute.upd_status r = Some status
    /\ appointments db = (l1 ++ a :: l2)%list
    /\ appointments db' = (l1 ++ a' :: l2)%list
    /\ sameBut a a'
    /\ Appointment.status a' = status
    /\ Appointment.updatedAt a' = now env
    /\ rescheduled = OptimizedAppointmentsRoute.rescheduling r
    /\ (if rescheduled
        then Appointment.date a'
             = or_else (OptimizedAppointmentsRoute.newDate r) ""
             /\ Appointment.time a'
                = or_else (OptimizedAppointmentsRoute.newTime r) ""
             /\ Appointment.sessionStartTime a' = Appointment.time a'
        else Appointment.date a' = Appointment.date a
             /\ Appointment.time a' = Appointment.time a
             /\ Appointment.sessionStartTime a'
                = Appointment.sessionStartTime a)
    /\ appointment_requests db' = appointment_requests db
    /\ patients db' = patients db.
Proof.
  unfold OptimizedAppointmentsRoute.PUT.
  destruct (OptimizedAppointmentsRoute.upd_status r) as [status |];
    [ | discriminate].
  destruct (ofalsy _); [discriminate | ].
  destruct (negb (hex24 _)); [discriminate | ].
  cbv zeta.
  destruct (negb _ && negb _); [discriminate | ].
  destruct (negb _ && negb _); [discriminate | ].
  destruct (negb (hasIndex _)); [discriminate | ].
  destruct (findOne _ _) as [appointment |]; [ | discriminate].
  set (aid := lowercase _).
  destruct (match (if OptimizedAppointmentsRoute.rescheduling r
                   then _ else _) with Some _ => _ | None => _ end);
    [discriminate | ].
  destruct (updateOne_cases aid status (now env)
              (if OptimizedAppointmentsRoute.rescheduling r
               then Some (or_else (OptimizedAppointmentsRoute.newDate r) "",
                          or_else (OptimizedAppointmentsRoute.newTime r) "")
               else None)
              (appointments
                 (OptimizedAppointmentsRoute.ensureAppointmentIndexes db)))
    as [U | (l1 & a & l2 & Hsplit & Ha & Hl1 & Hf & U)];
    rewrite U; simpl; [discriminate | ].
  intros H. injection H as <- <-.
  rewrite (proj1 (ensure_appointments db)) in Hsplit.
  exists l1, a,
    (OptimizedAppointmentsRoute.setFields a status (now env)
       (if OptimizedAppointmentsRoute.rescheduling r
        then Some (or_else (OptimizedAppointmentsRoute.newDate r) "",
                   or_else (OptimizedAppointmentsRoute.newTime r) "")
        else None)), l2, status.
  split; [reflexivity | ]. split; [assumption | ].
  split; [reflexivity | ].
  split; [repeat split | ].
  split; [reflexivity | ]. split; [reflexivity | ].
  split; [reflexivity | ].
  split; [ | simpl; split; apply ensure_appointments].
  destruct (OptimizedAppointmentsRoute.rescheduling r); repeat split.
Qed.

Lemma update_frame_witness :
  exists l1 a a' l2 status,
    OptimizedAppointmentsRoute.upd_status
      (updateOf (newObjectId envB) confirmed (Some "2025-09-16") (Some "10:00"))
    = Some status
    /\ appointments twoBookedDb = (l1 ++ a :: l2)%list
    /\ appointments
         (withAppointments twoBookedDb
            [appointmentOf envA patientA "A" "09:00";
             OptimizedAppointmentsRoute.setFields
               (appointmentOf envB patientB "B" "09:30") confirmed (now envC)
               (Some ("2025-09-16", "10:00"))])
       = (l1 ++ a' :: l2)%list
    /\ sameBut a a'
    /\ Appointment.status a' = status
    /\ Appointment.updatedAt a' = now envC
    /\ true = OptimizedAppointmentsRoute.rescheduling
                (updateOf (newObjectId envB) confirmed (Some "2025-09-16")
                   (Some "10:00"))
    /\ (if true
        then Appointment.date a'
             = or_else (OptimizedAppointmentsRoute.newDate
                          (updateOf (newObjectId envB) confirmed
                             (Some "2025-09-16") (Some "10:00"))) ""
             /\ Appointment.time a'
                = or_else (OptimizedAppointmentsRoute.newTime
                             (updateOf (newObjectId envB) confirmed
                                (Some "2025-09-16") (Some "10:00"))) ""
             /\ Appointment.sessionStartTime a' = Appointment.time a'
        else Appointment.date a' = Appointment.date a
             /\ Appointment.time a' = Appointment.time a
             /\ Appointment.sessionStartTime a'
                = Appointment.sessionStartTime a)
    /\ appointment_requests
         (withAppointments twoBookedDb
            [appointmentOf envA patientA "A" "09:00";
             OptimizedAppointmentsRoute.setFields
               (appointmentOf envB patientB "B" "09:30") confirmed (now envC)
               (Some ("2025-09-16", "10:00"))])
       = appointment_requests twoBookedDb
    /\ patients
         (withAppointments twoBookedDb
            [appointmentOf envA patientA "A" "09:00";
             OptimizedAppointmentsRoute.setFields
               (appointmentOf envB patientB "B" "09:30") confirmed (now envC)
               (Some ("2025-09-16", "10:00"))])
       = patients twoBookedDb.
Proof.
  apply (update_frame onlyById twoBookedDb _ envC
           (updateOf (newObjectId envB) confirmed (Some "2025-09-16")
              (Some "10:00")) true).
  reflexivity.
Defined.

(** X14. A change of status alone is never checked against the other
    appointments.  On a store with unique ids, let [a] be an appointment
    that is neither pending nor confirmed (cancelled, say) and [b]
    another appointment that now holds [a]'s doctor, date and time.  A
    [PUT] that sets [a] to pending or confirmed, without new date and
    time, goes through, and afterwards both appointments hold the
    slot. *)
Theorem status_update_skips_conflict_check
    (hasIndex : OptimizedAppointmentsRoute.Hint -> bool)
    (db : Db) (env : Env) (r : OptimizedAppointmentsRoute.UpdateRequest)
    (id : string) (status : Status) (l1 l2 : list Appointment.t)
    (a b : Appointment.t) :
  OptimizedAppointmentsRoute.upd_status r = Some status ->
  active status = true ->
  OptimizedAppointmentsRoute.appointmentId r = Some id ->
  hex24 id = true ->
  OptimizedAppointmentsRoute.upd_patientId r = None ->
  OptimizedAppointmentsRoute.upd_doctorId r = None ->
  hasIndex OptimizedAppointmentsRoute.by_id = true ->
  OptimizedAppointmentsRoute.rescheduling r = false ->
  uniqueIds db ->
  appointments db = (l1 ++ a :: l2)%list ->
  Appointment._id a = lowercase id ->
  active (Appointment.status a) = false ->
  In b (l1 ++ l2) ->
  takes (Appointment.doctorId a) (Appointment.date a) (Appointment.time a) b ->
  exists a',
    OptimizedAppointmentsRoute.PUT hasIndex db env r
    = (Json false,
       withAppointments (OptimizedAppointmentsRoute.ensureAppointmentIndexes db)
         (l1 ++ a' :: l2)%list)
    /\ takes (Appointment.doctorId a) (Appointment.date a) (Appointment.time a) a'
    /\ Appointment._id a' = Appointment._id a
    /\ In b (l1 ++ a' :: l2)
    /\ Appointment._id b <> Appointment._id a'.
Proof.
  intros Hs Hact Hid Hx Hp Hd Hi Hres Hu Hdb Ha Hoff Hb Hb'.
  rewrite (optimized_PUT_cases hasIndex db env r id status Hs Hid Hx Hp Hd Hi).
  rewrite Hres.
  unfold uniqueIds in Hu. rewrite Hdb in *.
  pose proof (ids_apart _ _ _ Hu) as Hne.
  pose proof (findOne_by_id (fun _ => true) l1 l2 a Hu) as Ffind.
  cbv beta in Ffind.
  replace (findOne (fun x => String.eqb (Appointment._id x) (lowercase id))
             (l1 ++ a :: l2))
    with (Some a).
  2:{ rewrite <- Ffind, Ha. apply findOne_ext.
      intros x. rewrite andb_true_r. reflexivity. }
  assert (forall x, In x l1 -> Appointment._id x <> Appointment._id a) as Hl1
    by (intros x Hx'; apply Hne; apply in_or_app; left; assumption).
  rewrite <- Ha, updateOne_at by assumption.
  assert (OptimizedAppointmentsRoute.hasFields a status (now env) None = false)
    as ->.
  { unfold OptimizedAppointmentsRoute.hasFields.
    replace (Status_eqb (Appointment.status a) status) with false;
      [reflexivity | ].
    symmetry. destruct (Status_eqb (Appointment.status a) status) eqn:E;
      [ | reflexivity].
    apply Status_eqb_eq in E. congruence. }
  simpl.
  exists (OptimizedAppointmentsRoute.setFields a status (now env) None).
  split; [reflexivity | ].
  split; [repeat split; assumption | ].
  split; [reflexivity | ].
  split.
  - apply in_app_iff in Hb as [Hb | Hb]; apply in_or_app;
      [left | right; right]; assumption.
  - simpl. apply Hne. assumption.
Qed.

Lemma status_update_skips_conflict_check_witness :
  exists a',
    OptimizedAppointmentsRoute.PUT onlyById rebookedDb envC
      (updateOf (newObjectId envA) confirmed None None)
    = (Json false,
       withAppointments
         (OptimizedAppointmentsRoute.ensureAppointmentIndexes rebookedDb)
         ([] ++ a' :: [appointmentOf envC patientB "B" "09:00"])%list)
    /\ takes doctorX "2025-09-15" "09:00" a'
    /\ Appointment._id a' = newObjectId envA
    /\ In (appointmentOf envC patientB "B" "09:00")
         ([] ++ a' :: [appointmentOf envC patientB "B" "09:00"])
    /\ Appointment._id (appointmentOf envC patientB "B" "09:00")
       <> Appointment._id a'.
Proof.
  apply (status_update_skips_conflict_check onlyById rebookedDb envC
           (updateOf (newObjectId envA) confirmed None None)
           (newObjectId envA) confirmed []
           [appointmentOf envC patientB "B" "09:00"]
           (AppointmentsRoute.setCancelled
              (appointmentOf envA patientA "A" "09:00") (now envB))
           (appointmentOf envC patientB "B" "09:00"));
    try reflexivity.
  - unfold uniqueIds. simpl. repeat constructor; simpl;
      intuition discriminate.
  - left. reflexivity.
  - repeat split.
Defined.

(* ================================================================== *)
(** * Further properties: booked slots *)
(* ================================================================== *)

Lemma length_append (a b : string) :
  String.length (a ++ b) = (String.length a + String.length b)%nat.
Proof. induction a as [| c a IH]; simpl; [reflexivity | rewrite IH; reflexivity]. Qed.

Lemma toISODate_length (t : Z) : (10 <= String.length (toISODate t))%nat.
Proof.
  unfold toISODate. destruct (civil_from_days (JSDate.isoDay t)) as [[y m] d].
  unfold isoYear.
  destruct ((0 <=? y) && (y <=? 9999)); destruct (y <? 0);
    rewrite ?length_append; simpl; lia.
Qed.

Lemma toTimeString5_length (d : JSDate.Date) :
  String.length (JSDate.toTimeString5 d) = 5%nat.
Proof. destruct d as [t |]; reflexivity. Qed.

(** Every slot that the loop emits has a time of five characters and
    is available. *)
Lemma slot_loop_free (fuel : nat) (current endTime : JSDate.Date)
    (duration : number) (slots out : list TimeSlot) :
  Forall (fun s => String.length (time s) = 5%nat /\ available s = true) slots ->
  slot_loop freeSlot fuel current endTime duration slots = Some out ->
  Forall (fun s => String.length (time s) = 5%nat /\ available s = true) out.
Proof.
  revert current slots.
  induction fuel as [| fuel IH]; intros current slots Hs; [discriminate | ].
  rewrite slot_loop_S.
  destruct (JSDate.lt current endTime); [ | intros H; injection H as <-; exact Hs].
  apply IH. apply Forall_app. split; [assumption | ].
  constructor; [ | constructor].
  split; [apply toTimeString5_length | reflexivity].
Qed.

Lemma slotKeys_long (l : list Appointment.t) (keys : list string) :
  AppointmentsBookedSlotsRoute.slotKeys l = Some keys ->
  Forall (fun k => (11 <= String.length k)%nat) keys.
Proof.
  revert keys. induction l as [| a l IH]; intros keys; simpl.
  - intros H. injection H as <-. constructor.
  - unfold AppointmentsBookedSlotsRoute.slotKey.
    destruct (JSDate.parse (Appointment.date a)) as [t |]; simpl bind;
      [ | discriminate].
    destruct (AppointmentsBookedSlotsRoute.slotKeys l) as [ks |]; simpl bind;
      [ | discriminate].
    intros H. injection H as <-.
    constructor; [ | apply IH; reflexivity].
    rewrite length_append. simpl.
    pose proof (toISODate_length t). lia.
Qed.

(** X15. The slot booking component never marks a generated slot as
    booked.  The keys that [GET /api/appointments/booked-slots] builds
    have the form [date_time]; the component looks its slots up by
    their time alone.  So, whatever appointments the route has found,
    [updateSlotAvailability] leaves every slot that [generateTimeSlots]
    produced available. *)
Theorem booked_keys_never_match (found : list Appointment.t)
    (keys : list string) (fuel : nat) (start end_ : string)
    (duration : number) (slots : list TimeSlot) :
  AppointmentsBookedSlotsRoute.slotKeys found = Some keys ->
  OptimizedSlotBooking.generateTimeSlots fuel start end_ duration = Some slots ->
  updateSlotAvailability keys slots = slots.
Proof.
  intros Hk Hs. apply slotKeys_long in Hk.
  assert (Forall (fun s => String.length (time s) = 5%nat
                           /\ available s = true) slots) as Hfree.
  { unfold OptimizedSlotBooking.generateTimeSlots in Hs.
    destruct (falsy start || falsy end_).
    - injection Hs as <-. constructor.
    - apply (slot_loop_free _ _ _ _ [] slots (Forall_nil _) Hs). }
  clear Hs. unfold updateSlotAvailability.
  induction Hfree as [| s slots [Hlen Hav] _ IH]; simpl; [reflexivity | ].
  rewrite IH. f_equal.
  assert (existsb (String.eqb (time s)) keys = false) as ->.
  { clear IH. induction Hk as [| k keys Hlong _ IHk]; simpl; [reflexivity | ].
    rewrite IHk, orb_false_r. apply String.eqb_neq. intros E.
    rewrite <- E in Hlong. lia. }
  destruct s as [t av]. simpl in *. subst av. reflexivity.
Qed.

Lemma booked_keys_never_match_witness :
  updateSlotAvailability ["2025-09-15_09:00"]
    [freeSlot "09:00"; freeSlot "09:30"]
  = [freeSlot "09:00"; freeSlot "09:30"].
Proof.
  apply (booked_keys_never_match [appointmentOf envA patientA "A" "09:00"]
           ["2025-09-15_09:00"] 10 "09:00" "10:00" (Num 30));
    reflexivity.
Defined.



(** A date that [new Date] reads lies far inside the range of time
    values, and so does the day after it. *)
Lemma parse_next_day (s : string) (t : Z) :
  JSDate.parse s = Some t ->
  JSDate.TimeClip (t + JSDate.msPerDay) = Some (t + JSDate.msPerDay).
Proof.
  unfold JSDate.parse.
  destruct (take2 s) as [[c s1] |] eqn:E1; [ | discriminate].
  destruct (take2 s1) as [[yy s2] |] eqn:E2; [ | discriminate].
  destruct (expect "-" s2) as [s3 |]; [ | discriminate].
  destruct (take2 s3) as [[m s4] |] eqn:E3; [ | discriminate].
  destruct (expect "-" s4) as [s5 |]; [ | discriminate].
  destruct (take2 s5) as [[d s6] |] eqn:E4; [ | discriminate].
  destruct s6; [ | discriminate].
  apply take2_inv in E1 as [H1 _], E2 as [H2 _], E3 as [H3 _], E4 as [H4 _].
  destruct ((1 <=? m) && (m <=? 12) && (1 <=? d)
            && (d <=? JSDate.days_in_month (100 * c + yy) m)) eqn:V;
    [ | discriminate].
  intros H. injection H as <-.
  unfold JSDate.TimeClip.
  replace (Z.abs (JSDate.days_from_civil (100 * c + yy) m d * JSDate.msPerDay
                  + JSDate.msPerDay) <=? 8640000000000000) with true;
    [reflexivity | ].
  symmetry. apply Z.leb_le.
  assert (- 800000 <= JSDate.days_from_civil (100 * c + yy) m d <= 4000000);
    [ | unfold JSDate.msPerDay; lia].
  unfold JSDate.days_from_civil.
  destruct (m <=? 2); destruct (2 <? m); Z.div_mod_to_equations; lia.
Qed.

(** X17. A request shows up among the booked request slots, a direct
    booking does not.  After [POST /api/appointment-requests] has
    stored a request (no [autoConfirm]) for a date that [new Date]
    reads, [GET /api/appointment-requests/booked-slots] for the doctor
    and the date lists the key [date_time] of the request.  After it
    has stored an appointment ([autoConfirm]), the route answers what
    it answered before. *)
Theorem request_is_listed (db db' : Db) (env : Env) (r : BookingRequest)
    (b : Booked) (t : Z) :
  AppointmentRequestsRoute.POST db env r = (Json b, db') ->
  JSDate.parse (or_else (req_date r) "") = Some t ->
  match b with
  | RequestCreated _ =>
      exists keys,
        RequestsBookedSlotsRoute.GET db' (req_doctorId r) (req_date r)
        = Json keys
        /\ In (or_else (req_date r) "" ++ "_" ++ or_else (req_time r) "") keys
  | AppointmentSaved _ =>
      forall doctorId date,
        RequestsBookedSlotsRoute.GET db' doctorId date
        = RequestsBookedSlotsRoute.GET db doctorId date
  end.
Proof.
  intros H Ht.
  assert (requiredMissing r = false) as Hreq.
  { unfold AppointmentRequestsRoute.POST in H.
    destruct (requiredMissing r); [discriminate | reflexivity]. }
  destruct (request_frame_data db db' env r b H)
    as (doc & Hd & F5 & F6 & F7 & Hb).
  destruct b as [saved | requested].
  - destruct Hb as (_ & Hreqs). intros doctorId date.
    unfold RequestsBookedSlotsRoute.GET. rewrite Hreqs. reflexivity.
  - destruct Hb as (-> & Hreqs).
    unfold requiredMissing in Hreq.
    apply orb_false_iff in Hreq as [Hreq Ft].
    apply orb_false_iff in Hreq as [Hreq Fd].
    apply orb_false_iff in Hreq as [Fdoc _].
    unfold RequestsBookedSlotsRoute.GET.
    rewrite Fdoc, Fd. simpl orb. cbv iota.
    assert (hex24 (or_else (req_doctorId r) "") = true) as Hx.
    { unfold ObjectId_of in Hd.
      destruct (hex24 (or_else (req_doctorId r) "")); [reflexivity | discriminate]. }
    rewrite Hx. simpl negb. cbv iota.
    rewrite Ht. simpl bind. rewrite (parse_next_day _ _ Ht). simpl bind.
    rewrite Hd. simpl bind.
    eexists. split; [reflexivity | ].
    apply in_map_iff. exists doc. split; [rewrite F6; reflexivity | ].
    apply filter_In. split.
    + rewrite Hreqs. apply in_or_app. right. left. reflexivity.
    + unfold pendingOn. rewrite F5, F7, !String.eqb_refl. reflexivity.
Qed.

Lemma request_is_listed_witness :
  exists keys,
    RequestsBookedSlotsRoute.GET requestedDb
      (req_doctorId (requestBy patientA "A" "09:00"))
      (req_date (requestBy patientA "A" "09:00"))
    = Json keys
    /\ In (or_else (req_date (requestBy patientA "A" "09:00")) "" ++ "_"
           ++ or_else (req_time (requestBy patientA "A" "09:00")) "") keys.
Proof.
  apply (request_is_listed emptyDb requestedDb envA
           (requestBy patientA "A" "09:00")
           (RequestCreated (appointmentOf envA patientA "A" "09:00"))
           1757894400000);
    reflexivity.
Defined.

(* ================================================================== *)
(** * Further properties: whose schedule a route answers with *)
(* ================================================================== *)

Lemma findDay_In (name : string) (l : list DaySchedule) (d : DaySchedule) :
  findDay name l = Some d -> In d l /\ dayOfWeek d = name.
Proof.
  induction l as [| x l IH]; simpl; [discriminate | ].
  destruct (String.eqb_spec (dayOfWeek x) name) as [E | E].
  - intros H. injection H as <-. split; [left; reflexivity | assumption].
  - intros H. destruct (IH H). split; [right | ]; assumption.
Qed.

Lemma projectDay_In (name : string) (s : ScheduleDoc) (d : DaySchedule)
    (rest : list DaySchedule) :
  projectDay name s = d :: rest -> In d (days s) /\ dayOfWeek d = name.
Proof.
  unfold projectDay.
  destruct (findDay name (days s)) as [x |] eqn:E; [ | discriminate].
  intros H. injection H as <- _. apply findDay_In. assumption.
Qed.

(** A document that a query on the doctor found is one of the doctor's
    documents. *)
Lemma found_ofDoctor (oid : ObjectId) (q : ScheduleDoc -> bool)
    (docs : list ScheduleDoc) (s : ScheduleDoc) :
  (forall x, q x = true -> ofDoctor oid x = true) ->
  findOne q docs = Some s -> In s docs /\ doctorId s = oid.
Proof.
  intros Hq F. apply findOne_some in F as [Hin H].
  split; [assumption | ]. apply String.eqb_eq. apply Hq. assumption.
Qed.

Ltac of_doctor :=
  let x := fresh "x" in
  let H := fresh "H" in
  intros x H;
  repeat (apply andb_true_iff in H; destruct H as [H _]);
  exact H.

Lemma dayFrom_sound (oid : ObjectId) (q : ScheduleDoc -> bool) (name : string)
    (docs : list ScheduleDoc) (type : string)
    (a : SlotsOptimizedRoute.SlotsAnswer) :
  (forall x, q x = true -> ofDoctor oid x = true) ->
  SlotsOptimizedRoute.dayFrom q name docs type = Some a ->
  In (SlotsOptimizedRoute.from a) docs
  /\ doctorId (SlotsOptimizedRoute.from a) = oid
  /\ exists d, SlotsOptimizedRoute.schedule a = SlotsOptimizedRoute.OneDay d
               /\ In d (days (SlotsOptimizedRoute.from a))
               /\ dayOfWeek d = name.
Proof.
  intros Hq. unfold SlotsOptimizedRoute.dayFrom.
  destruct (findOne q docs) as [s |] eqn:F; [ | discriminate].
  destruct (projectDay name s) as [| d rest] eqn:P; [discriminate | ].
  intros H. injection H as <-. simpl.
  destruct (found_ofDoctor oid q docs s Hq F) as [Hin Hd].
  destruct (projectDay_In _ _ _ _ P) as [Hday Hname].
  repeat split; try assumption.
  exists d. repeat split; assumption.
Qed.

Lemma dayStrategies_sound (docs : list ScheduleDoc) (oid : ObjectId)
    (date : option string) (dow : string) (a : ScheduleAnswer) :
  ScheduleOptimizedRoute.dayStrategies docs oid date dow = Some a ->
  exists s d,
    source a = Some s /\ In s docs /\ doctorId s = oid
    /\ ansDays a = [d] /\ selectedDay a = Some d
    /\ In d (days s) /\ dayOfWeek d = dow.
Proof.
  unfold ScheduleOptimizedRoute.dayStrategies. cbv zeta.
  destruct (if ofalsy date then None else findOne _ docs) as [s |] eqn:F1.
  { destruct (ofalsy date); [discriminate | ].
    destruct (projectDay dow s) as [| d rest] eqn:P; [discriminate | ].
    intros H. injection H as <-.
    apply (found_ofDoctor oid) in F1 as [Hin Hd]; [ | of_doctor].
    destruct (projectDay_In _ _ _ _ P) as [Hday Hname].
    exists s, d. repeat split; assumption. }
  destruct (findOne (fun s => ofDoctor oid s && noWeekBounds s && hasDay dow s)
              docs) as [s |] eqn:F2.
  { destruct (projectDay dow s) as [| d rest] eqn:P; [discriminate | ].
    intros H. injection H as <-.
    apply (found_ofDoctor oid) in F2 as [Hin Hd]; [ | of_doctor].
    destruct (projectDay_In _ _ _ _ P) as [Hday Hname].
    exists s, d. repeat split; assumption. }
  destruct (findOne (fun s => ofDoctor oid s && hasDay dow s) docs)
    as [s |] eqn:F3; [ | discriminate].
  destruct (projectDay dow s) as [| d rest] eqn:P; [discriminate | ].
  intros H. injection H as <-.
  apply (found_ofDoctor oid) in F3 as [Hin Hd]; [ | of_doctor].
  destruct (projectDay_In _ _ _ _ P) as [Hday Hname].
  exists s, d. repeat split; assumption.
Qed.

Lemma fullStrategies_sound (docs : list ScheduleDoc) (oid : ObjectId)
    (date dow : option string) :
  let a := ScheduleOptimizedRoute.fullStrategies docs oid date dow in
  match source a with
  | Some s => In s docs /\ doctorId s = oid /\ ansDays a = days s
              /\ selectedDay a = None
  | None => forall s, In s docs -> ofDoctor oid s = false
  end.
Proof.
  unfold ScheduleOptimizedRoute.fullStrategies. cbv zeta.
  destruct (if ofalsy date then None else findOne _ docs) as [s |] eqn:F1.
  { destruct (ofalsy date); [discriminate | ].
    apply (found_ofDoctor oid) in F1 as [Hin Hd]; [ | of_doctor].
    simpl. repeat split; assumption. }
  destruct (findOne (fun s => ofDoctor oid s && noWeekBounds s) docs)
    as [s |] eqn:F2.
  { apply (found_ofDoctor oid) in F2 as [Hin Hd]; [ | of_doctor].
    simpl. repeat split; assumption. }
  destruct (findOne (ofDoctor oid) docs) as [s |] eqn:F3.
  { apply (found_ofDoctor oid) in F3 as [Hin Hd]; [ | intros x H; exact H].
    simpl. repeat split; assumption. }
  simpl. intros s Hs. exact (find_none _ _ F3 s Hs).
Qed.

(** X18. A schedule route answers a doctor's question with that
    doctor's documents only.  Whatever else the collection holds, the
    document behind an answer of [GET /api/schedule/:doctorId], of
    [GET /api/schedule-optimized/:doctorId] or of
    [GET /api/slots/optimized] is a stored document of the doctor
    asked for, and the days answered are days of that document (for a
    request without date or with a date that [JSDate.parse] reads). *)
Theorem answers_belong_to_doctor (docs : list ScheduleDoc) (id : string)
    (oid : ObjectId) (date dayOfWeek : option string) :
  ObjectId_of id = Some oid ->
  readable date ->
  answered (ScheduleRoute.GET docs id date)
    (fun a => match source a with
              | Some s => In s docs /\ doctorId s = oid /\ ansDays a = days s
              | None => True
              end)
  /\ answered (ScheduleOptimizedRoute.GET docs id date dayOfWeek)
       (fun a => match source a with
                 | Some s => In s docs /\ doctorId s = oid
                             /\ incl (ansDays a) (days s)
                 | None => True
                 end)
  /\ answered (SlotsOptimizedRoute.GET docs (Some id) date dayOfWeek)
       (fun a => In (SlotsOptimizedRoute.from a) docs
                 /\ doctorId (SlotsOptimizedRoute.from a) = oid
                 /\ match SlotsOptimizedRoute.schedule a with
                    | SlotsOptimizedRoute.OneDay d =>
                        In d (days (SlotsOptimizedRoute.from a))
                    | SlotsOptimizedRoute.FullWeek l =>
                        l = days (SlotsOptimizedRoute.from a)
                    end).
Proof.
  intros Hid _.
  pose proof (ObjectId_of_not_empty _ _ Hid) as Fid.
  repeat split.
  - assert (answered (ScheduleRoute.afterWeekSpecific docs oid date)
              (fun a => match source a with
                        | Some s => In s docs /\ doctorId s = oid
                                    /\ ansDays a = days s
                        | None => True
                        end)) as After.
    { unfold ScheduleRoute.afterWeekSpecific.
      destruct (findOne (fun s => ofDoctor oid s && noWeekBounds s) docs)
        as [g |] eqn:F2.
      { apply (found_ofDoctor oid) in F2 as [Hin Hd]; [ | of_doctor].
        simpl.
        destruct (general_provenance g date) as [(S & D & _) | (S & _)];
          rewrite S; [repeat split; assumption | exact I]. }
      destruct (findOne (ofDoctor oid) docs) as [s |] eqn:F3; [ | exact I].
      apply (found_ofDoctor oid) in F3 as [Hin Hd]; [ | intros x H; exact H].
      simpl. repeat split; assumption. }
    unfold ScheduleRoute.GET. rewrite Hid.
    destruct (ofalsy date); [exact After | ].
    destruct (JSDate.parse (or_else date "")) as [rd |]; [ | exact I].
    destruct (findOne _ docs) as [w |] eqn:F1; [ | exact After].
    apply (found_ofDoctor oid) in F1 as [Hin Hd]; [ | of_doctor].
    simpl. destruct (weekSpecific_provenance w rd) as (S & D & _).
    rewrite S. repeat split; assumption.
  - unfold ScheduleOptimizedRoute.GET. rewrite Hid. cbv zeta.
    destruct (if ofalsy _ then None else _) as [a |] eqn:D.
    + destruct (ofalsy _); [discriminate | ].
      apply dayStrategies_sound in D
        as (s & d & S & Hin & Hd & Hdays & _ & Hday & _).
      simpl. rewrite S, Hdays. repeat split; try assumption.
      intros x [<- | []]. assumption.
    + simpl.
      pose proof (fullStrategies_sound docs oid date
                    (if negb (ofalsy date) && ofalsy dayOfWeek
                     then Some (JSDate.weekdayLong
                                  (JSDate.parse (or_else date "")))
                     else dayOfWeek)) as Full.
      cbv zeta in Full.
      destruct (source _) as [s |]; [ | exact I].
      destruct Full as (Hin & Hd & Hdays & _).
      rewrite Hdays. repeat split; try assumption. apply incl_refl.
  - unfold SlotsOptimizedRoute.GET.
    rewrite ofalsy_Some, Fid, (or_else_Some id "" Fid), Hid. cbv zeta.
    destruct (SlotsOptimizedRoute.orTry _ _) as [a |] eqn:T.
    + assert (In (SlotsOptimizedRoute.from a) docs
              /\ doctorId (SlotsOptimizedRoute.from a) = oid
              /\ exists d,
                   SlotsOptimizedRoute.schedule a = SlotsOptimizedRoute.OneDay d
                   /\ In d (days (SlotsOptimizedRoute.from a)))
        as (Hin & Hd & d & Hs & Hday).
      { unfold SlotsOptimizedRoute.orTry in T.
        repeat match type of T with
               | match (if ?c then None else ?x) with _ => _ end = _ =>
                   let E := fresh "E" in
                   destruct (if c then None else x) eqn:E
               end.
        - injection T as <-. destruct (ofalsy date); [discriminate | ].
          apply (dayFrom_sound oid) in E as (H1 & H2 & d & H3 & H4 & _);
            [ | of_doctor].
          repeat split; try assumption. exists d. split; assumption.
        - injection T as <-. destruct (ofalsy date); [discriminate | ].
          apply (dayFrom_sound oid) in E0 as (H1 & H2 & d & H3 & H4 & _);
            [ | of_doctor].
          repeat split; try assumption. exists d. split; assumption.
        - destruct (ofalsy dayOfWeek); [discriminate | ].
          apply (dayFrom_sound oid) in T as (H1 & H2 & d & H3 & H4 & _);
            [ | of_doctor].
          repeat split; try assumption. exists d. split; assumption. }
      simpl. rewrite Hs. repeat split; assumption.
    + destruct (findOne (ofDoctor oid) docs) as [s |] eqn:F; [ | exact I].
      apply (found_ofDoctor oid) in F as [Hin Hd]; [ | intros x H; exact H].
      destruct (if ofalsy _ then None else findDay _ (days s)) as [d |] eqn:Dd.
      * simpl. repeat split; try assumption.
        match type of Dd with
        | (if ?c then _ else _) = _ => destruct c; [discriminate | ]
        end.
        apply findDay_In in Dd as [Hday _]. assumption.
      * simpl. repeat split; assumption.
Qed.

Lemma answers_belong_to_doctor_witness :
  answered (ScheduleRoute.GET [otherSchedule; generalSchedule] doctorX
              (Some "2025-09-15"))
    (fun a => match source a with
              | Some s => In s [otherSchedule; generalSchedule]
                          /\ doctorId s = doctorX /\ ansDays a = days s
              | None => True
              end)
  /\ answered (ScheduleOptimizedRoute.GET [otherSchedule; generalSchedule]
                 doctorX (Some "2025-09-15") None)
       (fun a => match source a with
                 | Some s => In s [otherSchedule; generalSchedule]
                             /\ doctorId s = doctorX
                             /\ incl (ansDays a) (days s)
                 | None => True
                 end)
  /\ answered (SlotsOptimizedRoute.GET [otherSchedule; generalSchedule]
                 (Some doctorX) (Some "2025-09-15") None)
       (fun a => In (SlotsOptimizedRoute.from a)
                   [otherSchedule; generalSchedule]
                 /\ doctorId (SlotsOptimizedRoute.from a) = doctorX
                 /\ match SlotsOptimizedRoute.schedule a with
                    | SlotsOptimizedRoute.OneDay d =>
                        In d (days (SlotsOptimizedRoute.from a))
                    | SlotsOptimizedRoute.FullWeek l =>
                        l = days (SlotsOptimizedRoute.from a)
                    end).
Proof.
  apply (answers_belong_to_doctor [otherSchedule; generalSchedule] doctorX
           doctorX (Some "2025-09-15") None).
  - reflexivity.
  - right. exists 1757894400000. reflexivity.
Defined.

Lemma or_else_same (s : string) : or_else (Some s) "" = s.
Proof. destruct s; reflexivity. Qed.

(** X19. The day entry that a route answers with is the entry of the
    weekday asked for.  On [GET /api/schedule-optimized/:doctorId] that
    weekday is the [dayOfWeek] parameter when there is one -- also when a
    date is given whose weekday is another -- and else the weekday of the
    date.  On [GET /api/slots/optimized] it is the weekday of the date
    or the [dayOfWeek] parameter.  (For a request without date or with a
    date that [JSDate.parse] reads.) *)
Theorem selected_day_matches_weekday (docs : list ScheduleDoc) (id : string)
    (date dow : option string) :
  readable date ->
  answered (ScheduleOptimizedRoute.GET docs id date dow)
    (fun a => match selectedDay a with
              | Some d =>
                  ansDays a = [d]
                  /\ dayOfWeek d
                     = or_else
                         (if negb (ofalsy date) && ofalsy dow
                          then Some (JSDate.weekdayLong
                                       (JSDate.parse (or_else date "")))
                          else dow) ""
              | None => True
              end)
  /\ answered (SlotsOptimizedRoute.GET docs (Some id) date dow)
       (fun a => match SlotsOptimizedRoute.schedule a with
                 | SlotsOptimizedRoute.OneDay d =>
                     dayOfWeek d
                     = JSDate.weekdayLong (JSDate.parse (or_else date ""))
                     \/ dayOfWeek d = or_else dow ""
                 | SlotsOptimizedRoute.FullWeek _ => True
                 end).
Proof.
  intros _. split.
  - unfold ScheduleOptimizedRoute.GET.
    destruct (ObjectId_of id) as [oid |]; [ | exact I]. cbv zeta.
    destruct (if ofalsy _ then None else _) as [a |] eqn:D.
    + destruct (ofalsy _); [discriminate | ].
      apply dayStrategies_sound in D
        as (s & d & _ & _ & _ & Hdays & Hsel & _ & Hname).
      simpl. rewrite Hsel. split; assumption.
    + simpl.
      pose proof (fullStrategies_sound docs oid date
                    (if negb (ofalsy date) && ofalsy dow
                     then Some (JSDate.weekdayLong
                                  (JSDate.parse (or_else date "")))
                     else dow)) as Full.
      cbv zeta in Full.
      destruct (source _) as [s |] eqn:S.
      * destruct Full as (_ & _ & _ & ->). exact I.
      * revert S. unfold ScheduleOptimizedRoute.fullStrategies. cbv zeta.
        destruct (if ofalsy date then None else _); [discriminate | ].
        destruct (findOne _ docs); [discriminate | ].
        destruct (findOne _ docs); [discriminate | ].
        intros _. exact I.
  - unfold SlotsOptimizedRoute.GET.
    destruct (ofalsy (Some id)); [exact I | ].
    destruct (ObjectId_of (or_else (Some id) "")) as [oid |]; [ | exact I].
    cbv zeta.
    destruct (SlotsOptimizedRoute.orTry _ _) as [a |] eqn:T.
    + assert (exists d,
                SlotsOptimizedRoute.schedule a = SlotsOptimizedRoute.OneDay d
                /\ (dayOfWeek d
                    = JSDate.weekdayLong (JSDate.parse (or_else date ""))
                    \/ dayOfWeek d = or_else dow ""))
        as (d & Hs & Hname).
      { unfold SlotsOptimizedRoute.orTry in T.
        repeat match type of T with
               | match (if ?c then None else ?x) with _ => _ end = _ =>
                   let E := fresh "E" in
                   destruct (if c then None else x) eqn:E
               end.
        - injection T as <-. destruct (ofalsy date); [discriminate | ].
          apply (dayFrom_sound oid) in E as (_ & _ & d & H3 & _ & H5);
            [ | of_doctor].
          exists d. split; [assumption | left; assumption].
        - injection T as <-. destruct (ofalsy date); [discriminate | ].
          apply (dayFrom_sound oid) in E0 as (_ & _ & d & H3 & _ & H5);
            [ | of_doctor].
          exists d. split; [assumption | left; assumption].
        - destruct (ofalsy dow); [discriminate | ].
          apply (dayFrom_sound oid) in T as (_ & _ & d & H3 & _ & H5);
            [ | of_doctor].
          exists d. split; [assumption | right; assumption]. }
      simpl. rewrite Hs. assumption.
    + destruct (findOne (ofDoctor oid) docs) as [s |]; [ | exact I].
      destruct (if ofalsy _ then None else findDay _ (days s)) as [d |] eqn:Dd;
        [ | exact I].
      simpl.
      match type of Dd with
      | (if ?c then _ else _) = _ => destruct c; [discriminate | ]
      end.
      apply findDay_In in Dd as [_ Hname]. rewrite Hname.
      destruct dow as [[| c w] |]; simpl ofalsy; cbv iota;
        try (right; reflexivity);
        (destruct (ofalsy date);
         [right; reflexivity | left; apply or_else_same]).
Qed.

Lemma selected_day_matches_weekday_witness :
  answered (ScheduleOptimizedRoute.GET [generalSchedule] doctorX
              (Some "2025-09-16") (Some "Monday"))
    (fun a => match selectedDay a with
              | Some d =>
                  ansDays a = [d]
                  /\ dayOfWeek d
                     = or_else
                         (if negb (ofalsy (Some "2025-09-16"))
                             && ofalsy (Some "Monday")
                          then Some (JSDate.weekdayLong
                                       (JSDate.parse
                                          (or_else (Some "2025-09-16") "")))
                          else Some "Monday") ""
              | None => True
              end)
  /\ answered (SlotsOptimizedRoute.GET [generalSchedule] (Some doctorX)
                 (Some "2025-09-16") (Some "Monday"))
       (fun a => match SlotsOptimizedRoute.schedule a with
                 | SlotsOptimizedRoute.OneDay d =>
                     dayOfWeek d
                     = JSDate.weekdayLong
                         (JSDate.parse (or_else (Some "2025-09-16") ""))
                     \/ dayOfWeek d = or_else (Some "Monday") ""
                 | SlotsOptimizedRoute.FullWeek _ => True
                 end).
Proof.
  apply (selected_day_matches_weekday [generalSchedule] doctorX
           (Some "2025-09-16") (Some "Monday")).
  right. exists 1757980800000. reflexivity.
Defined.

Lemma dayFrom_none (q : ScheduleDoc -> bool) (name : string)
    (docs : list ScheduleDoc) (type : string) :
  (forall s, In s docs -> q s = false) ->
  SlotsOptimizedRoute.dayFrom q name docs type = None.
Proof.
  intros H. unfold SlotsOptimizedRoute.dayFrom.
  rewrite (findOne_none q docs H). reflexivity.
Qed.

(** X20. The default is for doctors without any schedule document, and
    for them only.  [GET /api/schedule-optimized/:doctorId] always
    answers; its answer comes from no document exactly when the
    collection holds no document of the doctor, and then it carries
    [getDefaultSchedule].  [GET /api/slots/optimized] answers 404
    "No schedule found" in exactly that case.  (For a request without
    date or with a date that [JSDate.parse] reads.) *)
Theorem default_only_without_documents (docs : list ScheduleDoc) (id : string)
    (oid : ObjectId) (date dow : option string) :
  ObjectId_of id = Some oid ->
  readable date ->
  (exists a,
     ScheduleOptimizedRoute.GET docs id date dow = Json a
     /\ (source a = None <-> forall s, In s docs -> doctorId s <> oid)
     /\ (source a = None -> ansDays a = getDefaultSchedule))
  /\ (SlotsOptimizedRoute.GET docs (Some id) date dow
      = Error 404 "No schedule found"
      <-> forall s, In s docs -> doctorId s <> oid).
Proof.
  intros Hid _.
  pose proof (ObjectId_of_not_empty _ _ Hid) as Fid.
  assert ((forall s, In s docs -> doctorId s <> oid)
          <-> forall s, In s docs -> ofDoctor oid s = false) as Same.
  { unfold ofDoctor. split; intros H s Hs.
    - apply String.eqb_neq. apply H. assumption.
    - apply String.eqb_neq. apply H. assumption. }
  split.
  - destruct (ScheduleOptimizedRoute.GET docs id date dow) as [a | st e] eqn:G.
    2:{ exfalso. revert G. unfold ScheduleOptimizedRoute.GET. rewrite Hid.
        cbv zeta. destruct (if ofalsy _ then None else _); discriminate. }
    exists a. split; [reflexivity | ].
    assert (source a = None -> forall s, In s docs -> ofDoctor oid s = false)
      as Forward.
    { revert G. unfold ScheduleOptimizedRoute.GET. rewrite Hid. cbv zeta.
      destruct (if ofalsy _ then None else _) as [b |] eqn:D.
      - destruct (ofalsy _); [discriminate | ].
        apply dayStrategies_sound in D as (s & d & S & _).
        intros H. injection H as <-. congruence.
      - intros H. injection H as <-.
        pose proof (fullStrategies_sound docs oid date
                      (if negb (ofalsy date) && ofalsy dow
                       then Some (JSDate.weekdayLong
                                    (JSDate.parse (or_else date "")))
                       else dow)) as Full.
        cbv zeta in Full.
        destruct (source _); [discriminate | ]. intros _. exact Full. }
    split; [split | ].
    + intros H. exact (proj2 Same (Forward H)).
    + intros H.
      destruct (ScheduleOptimized_default docs id oid date dow Hid
                  (proj1 Same H))
        as (b & Hb & _ & _ & S).
      congruence.
    + intros H.
      destruct (ScheduleOptimized_default docs id oid date dow Hid
                  (Forward H)) as (b & Hb & Hdays & _).
      congruence.
  - unfold SlotsOptimizedRoute.GET.
    rewrite ofalsy_Some, Fid, (or_else_Some id "" Fid), Hid. cbv zeta.
    split.
    + destruct (SlotsOptimizedRoute.orTry _ _); [discriminate | ].
      destruct (findOne (ofDoctor oid) docs) as [s |] eqn:F.
      * destruct (if ofalsy _ then None else findDay _ (days s)); discriminate.
      * intros _. apply (proj2 Same).
        intros s Hs. exact (find_none _ _ F s Hs).
    + intros H0. pose proof (proj1 Same H0) as H.
      rewrite !dayFrom_none
        by (intros s Hs; rewrite (H s Hs); reflexivity).
      rewrite (findOne_none (ofDoctor oid) docs H).
      destruct (ofalsy date), (ofalsy dow); reflexivity.
Qed.

Lemma default_only_without_documents_witness :
  (exists a,
     ScheduleOptimizedRoute.GET [otherSchedule] doctorX (Some "2025-09-15")
       None = Json a
     /\ (source a = None
         <-> forall s, In s [otherSchedule] -> doctorId s <> doctorX)
     /\ (source a = None -> ansDays a = getDefaultSchedule))
  /\ (SlotsOptimizedRoute.GET [otherSchedule] (Some doctorX)
        (Some "2025-09-15") None
      = Error 404 "No schedule found"
      <-> forall s, In s [otherSchedule] -> doctorId s <> doctorX).
Proof.
  apply (default_only_without_documents [otherSchedule] doctorX doctorX
           (Some "2025-09-15") None).
  - reflexivity.
  - right. exists 1757894400000. reflexivity.
Defined.

(** X21. What the bulk slot route lists.  For a well-formed doctor id
    and dates that [JSDate.parse] reads (or none),
    [POST /api/slots/optimized] always answers, and every schedule it
    lists is a stored document of that doctor whose week overlaps the
    range asked for or that has no week bounds; the days listed are days
    of the document.  With a weekday filter, every listed day has a
    weekday of the filter and no schedule is listed without a day. *)
Theorem bulk_answer_sound (docs : list ScheduleDoc)
    (r : SlotsBulkRoute.BulkRequest) (oid : ObjectId) :
  ObjectId_of (or_else (SlotsBulkRoute.bulk_doctorId r) "") = Some oid ->
  readable (SlotsBulkRoute.bulk_startDate r) ->
  readable (SlotsBulkRoute.bulk_endDate r) ->
  exists l,
    SlotsBulkRoute.POST docs r = Json l
    /\ Forall
         (fun e =>
            exists s,
              In s docs /\ doctorId s = oid
              /\ SlotsBulkRoute.bulk_source e = SlotsBulkRoute.project s
              /\ (noWeekBounds s = true
                  \/ SlotsBulkRoute.overlaps
                       (bsonDate (JSDate.parse
                                    (or_else (SlotsBulkRoute.bulk_startDate r) "")))
                       (bsonDate (JSDate.parse
                                    (or_else (SlotsBulkRoute.bulk_endDate r) "")))
                       s = true)
              /\ incl (SlotsBulkRoute.bulk_days e) (days s)
              /\ (SlotsBulkRoute.filtering (SlotsBulkRoute.dayOfWeekFilter r)
                  = true ->
                  SlotsBulkRoute.bulk_days e <> []
                  /\ Forall
                       (fun day =>
                          SlotsBulkRoute.includes
                            (SlotsBulkRoute.dayOfWeekFilter r) (dayOfWeek day)
                          = true)
                       (SlotsBulkRoute.bulk_days e)))
         l.
Proof.
  intros Hid _ _.
  assert (ofalsy (SlotsBulkRoute.bulk_doctorId r) = false) as Fid
    by (apply present_of_ObjectId with oid; assumption).
  unfold SlotsBulkRoute.POST. rewrite Fid, Hid. cbv zeta.
  eexists. split; [reflexivity | ].
  apply Forall_forall. intros e He.
  apply in_map_iff in He as (p & <- & Hp).
  apply in_map_iff in Hp as (s & <- & Hs).
  apply filter_In in Hs as [Hin Hq].
  apply andb_true_iff in Hq as [Hq Hfilter].
  apply andb_true_iff in Hq as [Hdoc Hweek].
  exists s. cbn [SlotsBulkRoute.bulk_source SlotsBulkRoute.bulk_days
                 SlotsBulkRoute.project days].
  split; [assumption | ].
  split; [apply String.eqb_eq; assumption | ].
  split; [reflexivity | ].
  split; [apply orb_true_iff in Hweek as [H | H]; [right | left]; assumption | ].
  split.
  - destruct (SlotsBulkRoute.filtering _); [ | apply incl_refl].
    intros d Hd. apply filter_In in Hd as [Hd _]. assumption.
  - intros Hf. rewrite Hf in *. split.
    + unfold SlotsBulkRoute.hasDayIn in Hfilter.
      apply existsb_exists in Hfilter as (d & Hd & Hinc).
      intros E.
      assert (In d (List.filter
                      (fun day => SlotsBulkRoute.includes
                                    (SlotsBulkRoute.dayOfWeekFilter r)
                                    (dayOfWeek day)) (days s))) as Hmem
        by (apply filter_In; split; assumption).
      rewrite E in Hmem. destruct Hmem.
    + apply Forall_forall. intros d Hd.
      apply filter_In in Hd as [_ Hd]. assumption.
Qed.

Lemma bulk_answer_sound_witness :
  exists l,
    SlotsBulkRoute.POST [otherSchedule; generalSchedule; weekSchedule]
      mondaysInSeptember = Json l
    /\ Forall
         (fun e =>
            exists s,
              In s [otherSchedule; generalSchedule; weekSchedule]
              /\ doctorId s = doctorX
              /\ SlotsBulkRoute.bulk_source e = SlotsBulkRoute.project s
              /\ (noWeekBounds s = true
                  \/ SlotsBulkRoute.overlaps
                       (bsonDate (JSDate.parse
                                    (or_else (SlotsBulkRoute.bulk_startDate
                                                mondaysInSeptember) "")))
                       (bsonDate (JSDate.parse
                                    (or_else (SlotsBulkRoute.bulk_endDate
                                                mondaysInSeptember) "")))
                       s = true)
              /\ incl (SlotsBulkRoute.bulk_days e) (days s)
              /\ (SlotsBulkRoute.filtering
                    (SlotsBulkRoute.dayOfWeekFilter mondaysInSeptember)
                  = true ->
                  SlotsBulkRoute.bulk_days e <> []
                  /\ Forall
                       (fun day =>
                          SlotsBulkRoute.includes
                            (SlotsBulkRoute.dayOfWeekFilter mondaysInSeptember)
                            (dayOfWeek day)
                          = true)
                       (SlotsBulkRoute.bulk_days e)))
         l.
Proof.
  apply (bulk_answer_sound [otherSchedule; generalSchedule; weekSchedule]
           mondaysInSeptember doctorX).
  - reflexivity.
  - right. exists 1756684800000. reflexivity.
  - right. exists 1759190400000. reflexivity.
Defined.

Lemma optimizedDays_findDay (fuel : nat) (name : string)
    (days days' : list DaySchedule) :
  OptimizeDatabaseRoute.optimizedDays fuel days = Some days' ->
  match findDay name days with
  | Some day =>
      exists day', findDay name days' = Some day'
                   /\ OptimizeDatabaseRoute.optimizeDay fuel day = Some day'
  | None => findDay name days' = None
  end.
Proof.
  revert days'. induction days as [| x days IH]; intros days'; simpl.
  - intros H. injection H as <-. reflexivity.
  - destruct (OptimizeDatabaseRoute.optimizeDay fuel x) as [x' |] eqn:Ex;
      simpl bind; [ | discriminate].
    destruct (OptimizeDatabaseRoute.optimizedDays fuel days) as [r |];
      simpl bind; [ | discriminate].
    intros H. injection H as <-. simpl.
    assert (dayOfWeek x' = dayOfWeek x) as ->.
    { revert Ex. unfold OptimizeDatabaseRoute.optimizeDay.
      destruct (OptimizeDatabaseRoute.optimizeSession _ _ _ _ _); simpl bind;
        [ | discriminate].
      destruct (OptimizeDatabaseRoute.optimizeSession _ _ _ _ _); simpl bind;
        [ | discriminate].
      intros H. injection H as <-. reflexivity. }
    destruct (String.eqb (dayOfWeek x) name).
    + exists x'. split; [reflexivity | assumption].
    + apply IH. reflexivity.
Qed.

Lemma optimizeDay_isOffDay (fuel : nat) (day day' : DaySchedule) :
  OptimizeDatabaseRoute.optimizeDay fuel day = Some day' ->
  isOffDay day' = isOffDay day.
Proof.
  unfold OptimizeDatabaseRoute.optimizeDay.
  destruct (OptimizeDatabaseRoute.optimizeSession _ _ _ _ _); simpl bind;
    [ | discriminate].
  destruct (OptimizeDatabaseRoute.optimizeSession _ _ _ _ _); simpl bind;
    [ | discriminate].
  intros H. injection H as <-. reflexivity.
Qed.

(** X22. Optimizing a schedule document does not change what the
    booking dialog shows for it.  When [optimizeExistingData] has
    rewritten the [days] of a document, the dialog's [generateTimeSlots]
    shows, for every selected date, the same slots for an answer that
    carries the optimized days as for the answer with the original
    days. *)
Theorem optimized_document_shows_same_slots (fuel : nat)
    (a a' : ScheduleAnswer) (selectedDate : string) (before : SlotState) :
  OptimizeDatabaseRoute.optimizedDays fuel (ansDays a) = Some (ansDays a') ->
  currentDateRange a' = currentDateRange a ->
  AppointmentBooking.generateTimeSlots fuel selectedDate a' before
  = AppointmentBooking.generateTimeSlots fuel selectedDate a before.
Proof.
  intros Hopt Hrange. unfold AppointmentBooking.generateTimeSlots.
  destruct (falsy selectedDate); [reflexivity | ]. cbv zeta. rewrite Hrange.
  assert (match findDay (JSDate.weekdayLong (JSDate.parse selectedDate))
                  (ansDays a') with
          | Some d => if isOffDay d then Some (mkSlotState [] [])
                      else AppointmentBooking.generateSlotsForDay fuel d
          | None => Some (mkSlotState [] [])
          end
          = match findDay (JSDate.weekdayLong (JSDate.parse selectedDate))
                    (ansDays a) with
            | Some d => if isOffDay d then Some (mkSlotState [] [])
                        else AppointmentBooking.generateSlotsForDay fuel d
            | None => Some (mkSlotState [] [])
            end) as ->; [ | reflexivity].
  pose proof (optimizedDays_findDay fuel
                (JSDate.weekdayLong (JSDate.parse selectedDate)) _ _ Hopt) as F.
  destruct (findDay _ (ansDays a)) as [d |].
  - destruct F as (d' & -> & Hd).
    rewrite (optimizeDay_isOffDay _ _ _ Hd).
    destruct (isOffDay d); [reflexivity | ].
    destruct (optimizeDay_shown _ _ _ Hd) as (shown & S1 & S2).
    rewrite S1, (S2 fuel). reflexivity.
  - rewrite F. reflexivity.
Qed.

Lemma optimized_document_shows_same_slots_witness :
  AppointmentBooking.generateTimeSlots 10 "2025-09-15"
    (answer optimizedGeneralSchedule "general") noSlots
  = AppointmentBooking.generateTimeSlots 10 "2025-09-15"
      (answer generalSchedule "general") noSlots.
Proof.
  apply (optimized_document_shows_same_slots 10
           (answer generalSchedule "general")
           (answer optimizedGeneralSchedule "general") "2025-09-15" noSlots);
    reflexivity.
Defined.

(* ================================================================== *)
(** * Further properties: interleaved bookings *)
(* ================================================================== *)

(** One step of a request: the appointments grow by at most the one
    appointment that the request saves, and the task stays a task of its
    request. *)
Lemma step_grows (r : BookingRequest) (d : Db) (t : Interleaving.Task) :
  taskOf r (appointments d) t ->
  exists extra,
    appointments (snd (Interleaving.step d t)) = (appointments d ++ extra)%list
    /\ (List.length extra + saved t <= saved (fst (Interleaving.step d t)))%nat
    /\ taskOf r (appointments d ++ extra) (fst (Interleaving.step d t)).
Proof.
  assert (forall env r' name,
            r' = r ->
            exists extra,
              appointments (snd (Interleaving.finish
                                   (AppointmentsRoute.store d env r' name)))
              = (appointments d ++ extra)%list
              /\ (List.length extra + 0
                  <= saved (fst (Interleaving.finish
                                   (AppointmentsRoute.store d env r' name))))%nat
              /\ taskOf r (appointments d ++ extra)
                   (fst (Interleaving.finish
                           (AppointmentsRoute.store d env r' name)))) as Store.
  { intros env r' name ->.
    destruct (store_answer d env r name) as [(a & H & _) | H]; rewrite H.
    - exists [a]. simpl. repeat split; [lia | discriminate].
    - exists []. simpl. rewrite app_nil_r. repeat split; [lia | discriminate]. }
  destruct t as [env r' | env r' | env r' name | x]; simpl.
  - intros ->.
    destruct (requiredMissing r);
      [exists []; simpl; rewrite app_nil_r; repeat split;
       [lia | discriminate] | ].
    destruct (ObjectId_of (or_else (req_doctorId r) "")) as [did |] eqn:Hd;
      [ | exists []; simpl; rewrite app_nil_r; repeat split;
          [lia | discriminate]].
    destruct (findOne _ (appointments d)) as [e |] eqn:F;
      exists []; simpl; rewrite app_nil_r; repeat split; try lia.
    intros _. apply findOne_some in F as [Hin Hq].
    exists e. split; [assumption | ].
    apply (holdsSlot_holds r did e Hd). assumption.
  - intros ->.
    destruct (ofalsy (req_patientName r)); [ | apply Store; reflexivity].
    destruct (finalPatientName d r);
      exists []; simpl; rewrite app_nil_r; repeat split;
      solve [lia | discriminate].
  - intros ->. apply Store. reflexivity.
  - intros H. exists []. simpl. rewrite app_nil_r. repeat split; [lia | ].
    assumption.
Qed.

Lemma taskOf_grows (r : BookingRequest) (l extra : list Appointment.t)
    (t : Interleaving.Task) :
  taskOf r l t -> taskOf r (l ++ extra) t.
Proof.
  destruct t; simpl; try (intros H; exact H).
  intros H E. destruct (H E) as (a & Ha & Hh).
  exists a. split; [apply in_or_app; left | ]; assumption.
Qed.

(** X23. A conflict always has a cause.  Let two booking requests be
    handled with their database steps interleaved in any order.  The
    appointments only grow, by at most the two appointments the requests
    save.  Whenever a request has been answered with "Time slot already
    booked", a stored appointment holds its slot.  So, when neither slot
    was held at the start, the two requests are never both refused: the
    interleaving can save both (the double booking) but cannot lose
    both. *)
Theorem conflict_has_a_cause (start : Db) (env1 env2 : Env)
    (r1 r2 : BookingRequest) (schedule : list Interleaving.Who) :
  let w :=
    Interleaving.run schedule
      (Interleaving.mkWorld start (Interleaving.Received env1 r1)
         (Interleaving.Received env2 r2)) in
  (exists l,
     appointments (Interleaving.db w) = (appointments start ++ l)%list
     /\ (List.length l
         <= saved (Interleaving.first w) + saved (Interleaving.second w))%nat)
  /\ taskOf r1 (appointments (Interleaving.db w)) (Interleaving.first w)
  /\ taskOf r2 (appointments (Interleaving.db w)) (Interleaving.second w)
  /\ ((forall a, In a (appointments start) -> ~ holds r1 a /\ ~ holds r2 a) ->
      ~ (Interleaving.first w = Interleaving.Done conflict
         /\ Interleaving.second w = Interleaving.Done conflict)).
Proof.
  intros w.
  assert ((exists l,
             appointments (Interleaving.db w) = (appointments start ++ l)%list
             /\ (List.length l
                 <= saved (Interleaving.first w)
                    + saved (Interleaving.second w))%nat)
          /\ taskOf r1 (appointments (Interleaving.db w)) (Interleaving.first w)
          /\ taskOf r2 (appointments (Interleaving.db w))
               (Interleaving.second w)) as Inv.
  { subst w. unfold Interleaving.run.
    set (w0 := Interleaving.mkWorld start (Interleaving.Received env1 r1)
                 (Interleaving.Received env2 r2)).
    assert ((exists l,
               appointments (Interleaving.db w0)
               = (appointments start ++ l)%list
               /\ (List.length l
                   <= saved (Interleaving.first w0)
                      + saved (Interleaving.second w0))%nat)
            /\ taskOf r1 (appointments (Interleaving.db w0))
                 (Interleaving.first w0)
            /\ taskOf r2 (appointments (Interleaving.db w0))
                 (Interleaving.second w0)) as H0.
    { split; [exists []; simpl; rewrite app_nil_r; split; [reflexivity | lia] | ].
      split; reflexivity. }
    clearbody w0. revert w0 H0.
    induction schedule as [| who schedule IH]; intros w0 H0; [exact H0 | ].
    simpl. apply IH. clear IH.
    destruct H0 as ((l & Hl & Hlen) & T1 & T2).
    destruct who; unfold Interleaving.move.
    - destruct (step_grows r1 (Interleaving.db w0) (Interleaving.first w0) T1)
        as (extra & Hx & Hsaved & T1').
      destruct (Interleaving.step (Interleaving.db w0) (Interleaving.first w0))
        as [t d]. simpl in *.
      split; [ | split].
      + exists (l ++ extra)%list. rewrite Hx, Hl, app_assoc.
        split; [reflexivity | ]. rewrite length_app. lia.
      + rewrite Hx. assumption.
      + rewrite Hx. apply taskOf_grows. assumption.
    - destruct (step_grows r2 (Interleaving.db w0) (Interleaving.second w0) T2)
        as (extra & Hx & Hsaved & T2').
      destruct (Interleaving.step (Interleaving.db w0) (Interleaving.second w0))
        as [t d]. simpl in *.
      split; [ | split].
      + exists (l ++ extra)%list. rewrite Hx, Hl, app_assoc.
        split; [reflexivity | ]. rewrite length_app. lia.
      + rewrite Hx. apply taskOf_grows. assumption.
      + rewrite Hx. assumption. }
  destruct Inv as ((l & Hl & Hlen) & T1 & T2).
  split; [exists l; split; assumption | ].
  split; [assumption | ]. split; [assumption | ].
  intros Hfree [E1 E2]. rewrite E1, E2 in *. simpl in *.
  destruct l; [ | simpl in Hlen; lia].
  rewrite app_nil_r in Hl. rewrite Hl in T1.
  destruct (T1 eq_refl) as (a & Ha & Hh).
  exact (proj1 (Hfree a Ha) Hh).
Qed.

Lemma conflict_has_a_cause_witness :
  ~ (Interleaving.first
       (Interleaving.run
          [Interleaving.First; Interleaving.Second; Interleaving.First;
           Interleaving.Second]
          (Interleaving.mkWorld emptyDb
             (Interleaving.Received envA (bookingBy patientA "A" "09:00"))
             (Interleaving.Received envB (bookingBy patientB "B" "09:00"))))
     = Interleaving.Done conflict
     /\ Interleaving.second
          (Interleaving.run
             [Interleaving.First; Interleaving.Second; Interleaving.First;
              Interleaving.Second]
             (Interleaving.mkWorld emptyDb
                (Interleaving.Received envA (bookingBy patientA "A" "09:00"))
                (Interleaving.Received envB (bookingBy patientB "B" "09:00"))))
        = Interleaving.Done conflict).
Proof.
  apply (conflict_has_a_cause emptyDb envA envB
           (bookingBy patientA "A" "09:00") (bookingBy patientB "B" "09:00")
           [Interleaving.First; Interleaving.Second; Interleaving.First;
            Interleaving.Second]).
  intros a [].
Defined.
